(** * The daily check-in ledger: a shallow embedding of the Clarity contracts

    The development follows [contracts/daily-checkin.clar], which holds two
    contracts: the first one (module [V1]) with [check-in], the batch entry
    point [bulk-check-in] and two admin setters, and the "V2 migration"
    (module [V2]) with a configurable fee, a per-user fee total and three
    admin setters.

    Contract code is written in a small evaluation monad that has the three
    ways a Clarity expression can finish: with a value, with a short return
    ([asserts!] / [try!]), or with a runtime error (unsigned overflow or
    underflow).  A public call is a transaction: its writes are kept only
    when the function returns [(ok ..)]. *)

From stdpp Require Import gmap strings list fin_maps.
From Stdlib Require Import NArith Lia.

Local Open Scope N_scope.

(** ** Clarity values and the host chain *)

Module Clarity.

(** Principals are Stacks addresses. *)
Abbreviation principal := string.

(** [uint] is an unsigned 128-bit integer. *)
Definition UINT_MAX : N := 2 ^ 128 - 1.

Inductive response (A : Type) : Type :=
| ok (a : A)
| err (e : N).
Arguments ok {A} a.
Arguments err {A} e.

(** One call of the builtin [stx-transfer?]: amount, sender, recipient. *)
Record StxCall := { call_amount : N; call_sender : principal; call_recipient : principal }.

(** The part of the chain a contract call can touch: STX balances.
    [stx_attempts] is a ghost trace of every [stx-transfer?] evaluated,
    whether it went through or not; it is never rolled back. *)
Record Chain := {
  stx_balance : gmap string N;
  stx_attempts : list StxCall
}.

(** The world seen by a contract with data of type [D]. *)
Record World (D : Type) := { data : D; chain : Chain }.
Arguments data {D} w.
Arguments chain {D} w.

Definition with_data {D} (f : D → D) (w : World D) : World D :=
  {| data := f (data w); chain := chain w |}.

(** How the evaluation of an expression ends. *)
Inductive flow (A : Type) : Type :=
| Val (a : A)            (* a value *)
| Thrown (e : N)         (* short return of [(err e)] from the enclosing function *)
| RuntimeError.          (* arithmetic overflow / underflow: the transaction aborts *)
Arguments Val {A} a.
Arguments Thrown {A} e.
Arguments RuntimeError {A}.

Definition M (S A : Type) : Type := S → flow A * S.

Definition ret {S A} (a : A) : M S A := λ s, (Val a, s).

Definition bind {S A B} (m : M S A) (k : A → M S B) : M S B :=
  λ s, match m s with
       | (Val a, s') => k a s'
       | (Thrown e, s') => (Thrown e, s')
       | (RuntimeError, s') => (RuntimeError, s')
       end.

Definition reads {S A} (f : S → A) : M S A := λ s, (Val (f s), s).
Definition modify {S} (f : S → S) : M S bool := λ s, (Val true, f s).
Definition runtime_error {S A} : M S A := λ s, (RuntimeError, s).

(** Checked [uint] arithmetic: [+], [-] and [*] abort instead of wrapping. *)
Definition add {S} (a b : N) : M S N :=
  if a + b <=? UINT_MAX then ret (a + b) else runtime_error.
Definition sub {S} (a b : N) : M S N :=
  if b <=? a then ret (a - b) else runtime_error.
Definition mul {S} (a b : N) : M S N :=
  if a * b <=? UINT_MAX then ret (a * b) else runtime_error.

(** [and] and [or] evaluate their second argument only when needed. *)
Definition and_ {S} (a : bool) (b : M S bool) : M S bool :=
  if a then b else ret false.
Definition or_ {S} (a : bool) (b : M S bool) : M S bool :=
  if a then ret true else b.

(** [(asserts! c (err e))]. *)
Definition asserts {S} (c : bool) (e : N) : M S bool :=
  λ s, if c then (Val true, s) else (Thrown e, s).

(** [(try! r)] on a response. *)
Definition try_ {S A} (m : M S (response A)) : M S A :=
  λ s, match m s with
       | (Val (ok a), s') => (Val a, s')
       | (Val (err e), s') => (Thrown e, s')
       | (Thrown e, s') => (Thrown e, s')
       | (RuntimeError, s') => (RuntimeError, s')
       end.

(** A function body catches the short returns evaluated inside it. *)
Definition define {S A} (body : M S (response A)) : M S (response A) :=
  λ s, match body s with
       | (Thrown e, s') => (Val (err e), s')
       | r => r
       end.

(** [(map f l)]: left to right, every result kept. *)
Fixpoint map_ {S A B} (f : A → M S B) (l : list A) : M S (list B) :=
  match l with
  | [] => ret []
  | x :: l' => bind (f x) (λ y, bind (map_ f l') (λ ys, ret (y :: ys)))
  end.

(** Error codes of the builtin [stx-transfer?]. *)
Definition STX_NOT_ENOUGH_BALANCE : N := 1.
Definition STX_SENDER_IS_RECIPIENT : N := 2.
Definition STX_NON_POSITIVE_AMOUNT : N := 3.
Definition STX_SENDER_IS_NOT_TX_SENDER : N := 4.

Definition balance_of (c : Chain) (p : principal) : N :=
  default 0 (stx_balance c !! p).

Definition stx_check (tx_sender : principal) (amount : N)
    (sender recipient : principal) (c : Chain) : response bool :=
  if amount =? 0 then err STX_NON_POSITIVE_AMOUNT
  else if bool_decide (sender = recipient) then err STX_SENDER_IS_RECIPIENT
  else if negb (bool_decide (sender = tx_sender)) then err STX_SENDER_IS_NOT_TX_SENDER
  else if balance_of c sender <? amount then err STX_NOT_ENOUGH_BALANCE
  else ok true.

Definition stx_move (amount : N) (sender recipient : principal)
    (b : gmap string N) : gmap string N :=
  let b1 := <[sender := default 0 (b !! sender) - amount]> b in
  <[recipient := default 0 (b1 !! recipient) + amount]> b1.

(** The builtin [(stx-transfer? amount sender recipient)], evaluated in a
    transaction sent by [tx_sender]. *)
Definition stx_transfer {D} (tx_sender : principal) (amount : N)
    (sender recipient : principal) : M (World D) (response bool) :=
  λ w,
    let c := chain w in
    let log := stx_attempts c ++ [ {| call_amount := amount; call_sender := sender;
                                      call_recipient := recipient |} ] in
    match stx_check tx_sender amount sender recipient c with
    | ok b =>
        (Val (ok b),
         {| data := data w;
            chain := {| stx_balance := stx_move amount sender recipient (stx_balance c);
                        stx_attempts := log |} |})
    | err e =>
        (Val (err e),
         {| data := data w;
            chain := {| stx_balance := stx_balance c; stx_attempts := log |} |})
    end.

(** What a transaction leaves behind. *)
Inductive tx_result (A : Type) : Type :=
| Committed (a : A)      (* the function returned [(ok a)] *)
| Reverted (e : N)       (* the function returned [(err e)]: writes discarded *)
| Aborted.               (* runtime error: writes discarded *)
Arguments Committed {A} a.
Arguments Reverted {A} e.
Arguments Aborted {A}.

(** Discard the writes made since [w0]; the ghost trace survives. *)
Definition rollback {D} (w0 w : World D) : World D :=
  {| data := data w0;
     chain := {| stx_balance := stx_balance (chain w0);
                 stx_attempts := stx_attempts (chain w) |} |}.

(** A call of a public function as a transaction. *)
Definition call_public {D A} (body : M (World D) (response A)) (w : World D)
    : tx_result A * World D :=
  match body w with
  | (Val (ok a), w') => (Committed a, w')
  | (Val (err e), w') => (Reverted e, rollback w w')
  | (Thrown e, w') => (Reverted e, rollback w w')
  | (RuntimeError, w') => (Aborted, rollback w w')
  end.

End Clarity.

Import Clarity.

Declare Scope clarity_scope.
Delimit Scope clarity_scope with clar.

Notation "x ← m ; k" := (bind m (λ x, k))
  (at level 20, m at level 100, k at level 200, only parsing) : clarity_scope.
Notation "m ;; k" := (bind m (λ _, k))
  (at level 100, k at level 200, right associativity, only parsing) : clarity_scope.

Local Open Scope clarity_scope.

(** ** Aggregates over the per-user maps

    Used to state the relation between the global counters and the
    per-user counters. *)

Definition sum_values (m : gmap string N) : N :=
  map_fold (λ _ v acc, v + acc) 0 m.

(** The entries of a per-user counter map that record at least one check-in. *)
Definition with_checkins (m : gmap string N) : gmap string N :=
  filter (λ kv, 0 < kv.2) m.

(** The streak rule of [check-in], as a function of the current block, the
    last check-in block and the current streak. *)
Definition streak_rule (window now last current : N) : N :=
  if negb (last =? 0) && (now - last <? window * 2) then current + 1 else 1.

(** ** The first contract of [contracts/daily-checkin.clar] *)

Module V1.

Definition ERR_ALREADY_CHECKED_IN : N := 100.
Definition ERR_NOT_AUTHORIZED : N := 101.
Definition ERR_INVALID_AMOUNT : N := 102.
Definition ERR_STX_TRANSFER_FAILED : N := 103.

Definition CHECKIN_FEE : N := 1000.
Definition BLOCKS_PER_DAY : N := 144.

(** Data variables and data maps of the contract. *)
Record Data := {
  points_per_checkin : N;
  streak_bonus : N;
  total_checkins : N;
  unique_users : N;
  last_checkin : gmap string N;
  user_points : gmap string N;
  user_streak : gmap string N;
  user_total_checkins : gmap string N
}.

Definition initial : Data := {|
  points_per_checkin := 100;
  streak_bonus := 10;
  total_checkins := 0;
  unique_users := 0;
  last_checkin := ∅;
  user_points := ∅;
  user_streak := ∅;
  user_total_checkins := ∅
|}.

Definition set_points_per_checkin_var (v : N) (d : Data) : Data :=
  {| points_per_checkin := v; streak_bonus := streak_bonus d;
     total_checkins := total_checkins d; unique_users := unique_users d;
     last_checkin := last_checkin d; user_points := user_points d;
     user_streak := user_streak d; user_total_checkins := user_total_checkins d |}.

Definition set_streak_bonus_var (v : N) (d : Data) : Data :=
  {| points_per_checkin := points_per_checkin d; streak_bonus := v;
     total_checkins := total_checkins d; unique_users := unique_users d;
     last_checkin := last_checkin d; user_points := user_points d;
     user_streak := user_streak d; user_total_checkins := user_total_checkins d |}.

Definition set_total_checkins_var (v : N) (d : Data) : Data :=
  {| points_per_checkin := points_per_checkin d; streak_bonus := streak_bonus d;
     total_checkins := v; unique_users := unique_users d;
     last_checkin := last_checkin d; user_points := user_points d;
     user_streak := user_streak d; user_total_checkins := user_total_checkins d |}.

Definition set_unique_users_var (v : N) (d : Data) : Data :=
  {| points_per_checkin := points_per_checkin d; streak_bonus := streak_bonus d;
     total_checkins := total_checkins d; unique_users := v;
     last_checkin := last_checkin d; user_points := user_points d;
     user_streak := user_streak d; user_total_checkins := user_total_checkins d |}.

Definition set_last_checkin (u : principal) (v : N) (d : Data) : Data :=
  {| points_per_checkin := points_per_checkin d; streak_bonus := streak_bonus d;
     total_checkins := total_checkins d; unique_users := unique_users d;
     last_checkin := <[u := v]> (last_checkin d); user_points := user_points d;
     user_streak := user_streak d; user_total_checkins := user_total_checkins d |}.

Definition set_user_points (u : principal) (v : N) (d : Data) : Data :=
  {| points_per_checkin := points_per_checkin d; streak_bonus := streak_bonus d;
     total_checkins := total_checkins d; unique_users := unique_users d;
     last_checkin := last_checkin d; user_points := <[u := v]> (user_points d);
     user_streak := user_streak d; user_total_checkins := user_total_checkins d |}.

Definition set_user_streak (u : principal) (v : N) (d : Data) : Data :=
  {| points_per_checkin := points_per_checkin d; streak_bonus := streak_bonus d;
     total_checkins := total_checkins d; unique_users := unique_users d;
     last_checkin := last_checkin d; user_points := user_points d;
     user_streak := <[u := v]> (user_streak d);
     user_total_checkins := user_total_checkins d |}.

Definition set_user_total_checkins (u : principal) (v : N) (d : Data) : Data :=
  {| points_per_checkin := points_per_checkin d; streak_bonus := streak_bonus d;
     total_checkins := total_checkins d; unique_users := unique_users d;
     last_checkin := last_checkin d; user_points := user_points d;
     user_streak := user_streak d;
     user_total_checkins := <[u := v]> (user_total_checkins d) |}.

(** [(var-set v x)] and [(map-set m k x)] on the contract's data. *)
Definition var_set (f : N → Data → Data) (v : N) : M (World Data) bool :=
  modify (with_data (f v)).
Definition map_set (f : principal → N → Data → Data) (k : principal) (v : N)
    : M (World Data) bool :=
  modify (with_data (f k v)).
Definition var_get (f : Data → N) : M (World Data) N :=
  reads (λ w, f (data w)).

(** Read-only functions. *)
Definition get_user_points (user : principal) (d : Data) : N :=
  default 0 (user_points d !! user).
Definition get_user_streak (user : principal) (d : Data) : N :=
  default 0 (user_streak d !! user).
Definition get_last_checkin (user : principal) (d : Data) : N :=
  default 0 (last_checkin d !! user).
Definition get_user_total_checkins (user : principal) (d : Data) : N :=
  default 0 (user_total_checkins d !! user).
Definition get_total_checkins (d : Data) : N := total_checkins d.
Definition get_unique_users (d : Data) : N := unique_users d.
Definition get_points_per_checkin (d : Data) : N := points_per_checkin d.
Definition get_streak_bonus (d : Data) : N := streak_bonus d.

Definition can_checkin (block_height : N) (user : principal) : M (World Data) bool :=
  last_block ← reads (λ w, get_last_checkin user (data w));
  let current_block := block_height in
  or_ (last_block =? 0)
      (gap ← sub current_block last_block;
       ret (BLOCKS_PER_DAY <=? gap)).

(** The tuple returned by a check-in. *)
Record Receipt := {
  earned : N;
  total_points : N;
  streak : N;
  receipt_total_checkins : N
}.

Section Contract.

(** [CONTRACT-OWNER] is the [tx-sender] of the deployment. *)
Variable CONTRACT_OWNER : principal.

(** The public function [check-in], called by [tx_sender] at [block_height]. *)
Definition check_in (tx_sender : principal) (block_height : N)
    : M (World Data) (response Receipt) :=
  let user := tx_sender in
  last_block ← reads (λ w, get_last_checkin user (data w));
  let current_block := block_height in
  current_points ← reads (λ w, get_user_points user (data w));
  current_streak ← reads (λ w, get_user_streak user (data w));
  current_user_checkins ← reads (λ w, get_user_total_checkins user (data w));
  let is_new_user := last_block =? 0 in
  allowed ← can_checkin block_height user;
  asserts allowed ERR_ALREADY_CHECKED_IN;;
  try_ (stx_transfer tx_sender CHECKIN_FEE user CONTRACT_OWNER);;
  continues ← and_ (negb is_new_user)
                   (gap ← sub current_block last_block;
                    two_days ← mul BLOCKS_PER_DAY 2;
                    ret (gap <? two_days));
  new_streak ← (if continues then add current_streak 1 else ret 1);
  bonus ← var_get streak_bonus;
  streak_points ← mul new_streak bonus;
  base ← var_get points_per_checkin;
  earned_points ← add base streak_points;
  map_set set_last_checkin user current_block;;
  new_points ← add current_points earned_points;
  map_set set_user_points user new_points;;
  map_set set_user_streak user new_streak;;
  new_user_checkins ← add current_user_checkins 1;
  map_set set_user_total_checkins user new_user_checkins;;
  total ← var_get total_checkins;
  new_total ← add total 1;
  var_set set_total_checkins_var new_total;;
  (if is_new_user
   then (uniq ← var_get unique_users;
         new_uniq ← add uniq 1;
         var_set set_unique_users_var new_uniq)
   else ret true);;
  receipt_points ← add current_points earned_points;
  receipt_checkins ← add current_user_checkins 1;
  ret (ok {| earned := earned_points;
             total_points := receipt_points;
             streak := new_streak;
             receipt_total_checkins := receipt_checkins |}).

(** The private function [check-in-internal]: [check-in] for a given user,
    without the fee. *)
Definition check_in_internal (block_height : N) (user : principal)
    : M (World Data) (response Receipt) :=
  define (
    last_block ← reads (λ w, get_last_checkin user (data w));
    let current_block := block_height in
    current_points ← reads (λ w, get_user_points user (data w));
    current_streak ← reads (λ w, get_user_streak user (data w));
    current_user_checkins ← reads (λ w, get_user_total_checkins user (data w));
    let is_new_user := last_block =? 0 in
    allowed ← can_checkin block_height user;
    asserts allowed ERR_ALREADY_CHECKED_IN;;
    continues ← and_ (negb is_new_user)
                     (gap ← sub current_block last_block;
                      two_days ← mul BLOCKS_PER_DAY 2;
                      ret (gap <? two_days));
    new_streak ← (if continues then add current_streak 1 else ret 1);
    bonus ← var_get streak_bonus;
    streak_points ← mul new_streak bonus;
    base ← var_get points_per_checkin;
    earned_points ← add base streak_points;
    map_set set_last_checkin user current_block;;
    new_points ← add current_points earned_points;
    map_set set_user_points user new_points;;
    map_set set_user_streak user new_streak;;
    new_user_checkins ← add current_user_checkins 1;
    map_set set_user_total_checkins user new_user_checkins;;
    total ← var_get total_checkins;
    new_total ← add total 1;
    var_set set_total_checkins_var new_total;;
    (if is_new_user
     then (uniq ← var_get unique_users;
           new_uniq ← add uniq 1;
           var_set set_unique_users_var new_uniq)
     else ret true);;
    receipt_points ← add current_points earned_points;
    receipt_checkins ← add current_user_checkins 1;
    ret (ok {| earned := earned_points;
               total_points := receipt_points;
               streak := new_streak;
               receipt_total_checkins := receipt_checkins |})).

(** The public function [bulk-check-in]; its argument has type
    [(list 10 principal)], a longer list is not a value of that type and the
    call is refused. *)
Definition bulk_check_in (tx_sender : principal) (block_height : N)
    (users : list principal) : M (World Data) (response (list (response Receipt))) :=
  if 10 <? N.of_nat (length users) then runtime_error else
  fee_total ← mul (N.of_nat (length users)) CHECKIN_FEE;
  asserts (0 <? N.of_nat (length users)) ERR_INVALID_AMOUNT;;
  try_ (stx_transfer tx_sender fee_total tx_sender CONTRACT_OWNER);;
  results ← map_ (check_in_internal block_height) users;
  ret (ok results).

(** Admin functions. *)
Definition set_points_per_checkin (tx_sender : principal) (new_points : N)
    : M (World Data) (response N) :=
  asserts (bool_decide (tx_sender = CONTRACT_OWNER)) ERR_NOT_AUTHORIZED;;
  asserts (0 <? new_points) ERR_INVALID_AMOUNT;;
  var_set set_points_per_checkin_var new_points;;
  ret (ok new_points).

Definition set_streak_bonus (tx_sender : principal) (new_bonus : N)
    : M (World Data) (response N) :=
  asserts (bool_decide (tx_sender = CONTRACT_OWNER)) ERR_NOT_AUTHORIZED;;
  var_set set_streak_bonus_var new_bonus;;
  ret (ok new_bonus).

(** Transactions sent to the contract, and their effect on the world. *)
Inductive Call :=
| CallCheckIn
| CallBulkCheckIn (users : list principal)
| CallSetPointsPerCheckin (new_points : N)
| CallSetStreakBonus (new_bonus : N).

Record Tx := { tx_sender : principal; block_height : N; tx_call : Call }.

Definition exec (tx : Tx) (w : World Data) : World Data :=
  match tx_call tx with
  | CallCheckIn =>
      snd (call_public (check_in (tx_sender tx) (block_height tx)) w)
  | CallBulkCheckIn users =>
      snd (call_public (bulk_check_in (tx_sender tx) (block_height tx) users) w)
  | CallSetPointsPerCheckin v =>
      snd (call_public (set_points_per_checkin (tx_sender tx) v) w)
  | CallSetStreakBonus v =>
      snd (call_public (set_streak_bonus (tx_sender tx) v) w)
  end.

Definition run (txs : list Tx) (w : World Data) : World Data :=
  fold_left (λ w tx, exec tx w) txs w.

End Contract.

(** Global counters agree with the per-user counters. *)
Definition aggregate_consistent (d : Data) : Prop :=
  total_checkins d = sum_values (user_total_checkins d) ∧
  unique_users d = N.of_nat (size (with_checkins (user_total_checkins d))).

(** The world right after deployment, on a chain [c]. *)
Definition deployed (c : Chain) : World Data := {| data := initial; chain := c |}.

End V1.

(** ** The second contract of [contracts/daily-checkin.clar] (V2 migration) *)

Module V2.

Definition CONTRACT_DEPLOYER : principal := "SP2KYZRNME33Y39GP3RKC90DQJ45EF1N0NZNVRE09".

Definition ERR_ALREADY_CHECKED_IN : N := 100.
Definition ERR_NOT_AUTHORIZED : N := 101.
Definition ERR_INVALID_AMOUNT : N := 102.
Definition ERR_STX_TRANSFER_FAILED : N := 103.
Definition ERR_INSUFFICIENT_BALANCE : N := 104.

Definition CHECKIN_FEE : N := 1000.
Definition BLOCKS_PER_DAY : N := 144.

(** Data variables and data maps of the contract. *)
Record Data := {
  points_per_checkin : N;
  streak_bonus : N;
  total_checkins : N;
  unique_users : N;
  contract_deployer : principal;
  fee_amount : N;
  last_checkin : gmap string N;
  user_points : gmap string N;
  user_streak : gmap string N;
  user_total_checkins : gmap string N;
  user_fee_paid : gmap string N
}.

Definition initial : Data := {|
  points_per_checkin := 100;
  streak_bonus := 10;
  total_checkins := 0;
  unique_users := 0;
  contract_deployer := CONTRACT_DEPLOYER;
  fee_amount := CHECKIN_FEE;
  last_checkin := ∅;
  user_points := ∅;
  user_streak := ∅;
  user_total_checkins := ∅;
  user_fee_paid := ∅
|}.

Definition set_points_per_checkin_var (v : N) (d : Data) : Data :=
  {| points_per_checkin := v; streak_bonus := streak_bonus d;
     total_checkins := total_checkins d; unique_users := unique_users d;
     contract_deployer := contract_deployer d; fee_amount := fee_amount d;
     last_checkin := last_checkin d; user_points := user_points d;
     user_streak := user_streak d; user_total_checkins := user_total_checkins d;
     user_fee_paid := user_fee_paid d |}.

Definition set_streak_bonus_var (v : N) (d : Data) : Data :=
  {| points_per_checkin := points_per_checkin d; streak_bonus := v;
     total_checkins := total_checkins d; unique_users := unique_users d;
     contract_deployer := contract_deployer d; fee_amount := fee_amount d;
     last_checkin := last_checkin d; user_points := user_points d;
     user_streak := user_streak d; user_total_checkins := user_total_checkins d;
     user_fee_paid := user_fee_paid d |}.

Definition set_total_checkins_var (v : N) (d : Data) : Data :=
  {| points_per_checkin := points_per_checkin d; streak_bonus := streak_bonus d;
     total_checkins := v; unique_users := unique_users d;
     contract_deployer := contract_deployer d; fee_amount := fee_amount d;
     last_checkin := last_checkin d; user_points := user_points d;
     user_streak := user_streak d; user_total_checkins := user_total_checkins d;
     user_fee_paid := user_fee_paid d |}.

Definition set_unique_users_var (v : N) (d : Data) : Data :=
  {| points_per_checkin := points_per_checkin d; streak_bonus := streak_bonus d;
     total_checkins := total_checkins d; unique_users := v;
     contract_deployer := contract_deployer d; fee_amount := fee_amount d;
     last_checkin := last_checkin d; user_points := user_points d;
     user_streak := user_streak d; user_total_checkins := user_total_checkins d;
     user_fee_paid := user_fee_paid d |}.

Definition set_contract_deployer_var (v : principal) (d : Data) : Data :=
  {| points_per_checkin := points_per_checkin d; streak_bonus := streak_bonus d;
     total_checkins := total_checkins d; unique_users := unique_users d;
     contract_deployer := v; fee_amount := fee_amount d;
     last_checkin := last_checkin d; user_points := user_points d;
     user_streak := user_streak d; user_total_checkins := user_total_checkins d;
     user_fee_paid := user_fee_paid d |}.

Definition set_fee_amount_var (v : N) (d : Data) : Data :=
  {| points_per_checkin := points_per_checkin d; streak_bonus := streak_bonus d;
     total_checkins := total_checkins d; unique_users := unique_users d;
     contract_deployer := contract_deployer d; fee_amount := v;
     last_checkin := last_checkin d; user_points := user_points d;
     user_streak := user_streak d; user_total_checkins := user_total_checkins d;
     user_fee_paid := user_fee_paid d |}.

Definition set_last_checkin (u : principal) (v : N) (d : Data) : Data :=
  {| points_per_checkin := points_per_checkin d; streak_bonus := streak_bonus d;
     total_checkins := total_checkins d; unique_users := unique_users d;
     contract_deployer := contract_deployer d; fee_amount := fee_amount d;
     last_checkin := <[u := v]> (last_checkin d); user_points := user_points d;
     user_streak := user_streak d; user_total_checkins := user_total_checkins d;
     user_fee_paid := user_fee_paid d |}.

Definition set_user_points (u : principal) (v : N) (d : Data) : Data :=
  {| points_per_checkin := points_per_checkin d; streak_bonus := streak_bonus d;
     total_checkins := total_checkins d; unique_users := unique_users d;
     contract_deployer := contract_deployer d; fee_amount := fee_amount d;
     last_checkin := last_checkin d; user_points := <[u := v]> (user_points d);
     user_streak := user_streak d; user_total_checkins := user_total_checkins d;
     user_fee_paid := user_fee_paid d |}.

Definition set_user_streak (u : principal) (v : N) (d : Data) : Data :=
  {| points_per_checkin := points_per_checkin d; streak_bonus := streak_bonus d;
     total_checkins := total_checkins d; unique_users := unique_users d;
     contract_deployer := contract_deployer d; fee_amount := fee_amount d;
     last_checkin := last_checkin d; user_points := user_points d;
     user_streak := <[u := v]> (user_streak d); user_total_checkins := user_total_checkins d;
     user_fee_paid := user_fee_paid d |}.

Definition set_user_total_checkins (u : principal) (v : N) (d : Data) : Data :=
  {| points_per_checkin := points_per_checkin d; streak_bonus := streak_bonus d;
     total_checkins := total_checkins d; unique_users := unique_users d;
     contract_deployer := contract_deployer d; fee_amount := fee_amount d;
     last_checkin := last_checkin d; user_points := user_points d;
     user_streak := user_streak d; user_total_checkins := <[u := v]> (user_total_checkins d);
     user_fee_paid := user_fee_paid d |}.

Definition set_user_fee_paid (u : principal) (v : N) (d : Data) : Data :=
  {| points_per_checkin := points_per_checkin d; streak_bonus := streak_bonus d;
     total_checkins := total_checkins d; unique_users := unique_users d;
     contract_deployer := contract_deployer d; fee_amount := fee_amount d;
     last_checkin := last_checkin d; user_points := user_points d;
     user_streak := user_streak d; user_total_checkins := user_total_checkins d;
     user_fee_paid := <[u := v]> (user_fee_paid d) |}.

(** [(var-set v x)], [(map-set m k x)] and [(var-get v)] on the contract's data. *)
Definition var_set {T} (f : T → Data → Data) (v : T) : M (World Data) bool :=
  modify (with_data (f v)).
Definition map_set (f : principal → N → Data → Data) (k : principal) (v : N)
    : M (World Data) bool :=
  modify (with_data (f k v)).
Definition var_get {T} (f : Data → T) : M (World Data) T :=
  reads (λ w, f (data w)).

(** Read-only functions. *)
Definition get_user_points (user : principal) (d : Data) : N :=
  default 0 (user_points d !! user).
Definition get_user_streak (user : principal) (d : Data) : N :=
  default 0 (user_streak d !! user).
Definition get_last_checkin (user : principal) (d : Data) : N :=
  default 0 (last_checkin d !! user).
Definition get_user_total_checkins (user : principal) (d : Data) : N :=
  default 0 (user_total_checkins d !! user).
Definition get_user_fee_paid (user : principal) (d : Data) : N :=
  default 0 (user_fee_paid d !! user).
Definition get_total_checkins (d : Data) : N := total_checkins d.
Definition get_unique_users (d : Data) : N := unique_users d.
Definition get_points_per_checkin (d : Data) : N := points_per_checkin d.
Definition get_streak_bonus (d : Data) : N := streak_bonus d.
Definition get_contract_deployer (d : Data) : principal := contract_deployer d.
Definition get_fee_amount (d : Data) : N := fee_amount d.

Definition can_checkin (block_height : N) (user : principal) : M (World Data) bool :=
  last_block ← reads (λ w, get_last_checkin user (data w));
  let current_block := block_height in
  or_ (last_block =? 0)
      (gap ← sub current_block last_block;
       ret (BLOCKS_PER_DAY <=? gap)).

(** The tuple returned by a check-in. *)
Record Receipt := {
  earned : N;
  total_points : N;
  streak : N;
  receipt_total_checkins : N;
  fee_paid : N
}.

Section Contract.

(** [CONTRACT-OWNER] is the [tx-sender] of the deployment. *)
Variable CONTRACT_OWNER : principal.

(** The public function [check-in], called by [tx_sender] at [block_height]. *)
Definition check_in (tx_sender : principal) (block_height : N)
    : M (World Data) (response Receipt) :=
  let user := tx_sender in
  last_block ← reads (λ w, get_last_checkin user (data w));
  let current_block := block_height in
  current_points ← reads (λ w, get_user_points user (data w));
  current_streak ← reads (λ w, get_user_streak user (data w));
  current_user_checkins ← reads (λ w, get_user_total_checkins user (data w));
  current_fee_paid ← reads (λ w, get_user_fee_paid user (data w));
  let is_new_user := last_block =? 0 in
  fee ← var_get fee_amount;
  allowed ← can_checkin block_height user;
  asserts allowed ERR_ALREADY_CHECKED_IN;;
  recipient ← var_get contract_deployer;
  try_ (stx_transfer tx_sender fee user recipient);;
  continues ← and_ (negb is_new_user)
                   (gap ← sub current_block last_block;
                    two_days ← mul BLOCKS_PER_DAY 2;
                    ret (gap <? two_days));
  new_streak ← (if continues then add current_streak 1 else ret 1);
  bonus ← var_get streak_bonus;
  streak_points ← mul new_streak bonus;
  base ← var_get points_per_checkin;
  earned_points ← add base streak_points;
  map_set set_last_checkin user current_block;;
  new_points ← add current_points earned_points;
  map_set set_user_points user new_points;;
  map_set set_user_streak user new_streak;;
  new_user_checkins ← add current_user_checkins 1;
  map_set set_user_total_checkins user new_user_checkins;;
  new_fee_paid ← add current_fee_paid fee;
  map_set set_user_fee_paid user new_fee_paid;;
  total ← var_get total_checkins;
  new_total ← add total 1;
  var_set set_total_checkins_var new_total;;
  (if is_new_user
   then (uniq ← var_get unique_users;
         new_uniq ← add uniq 1;
         var_set set_unique_users_var new_uniq)
   else ret true);;
  receipt_points ← add current_points earned_points;
  receipt_checkins ← add current_user_checkins 1;
  ret (ok {| earned := earned_points;
             total_points := receipt_points;
             streak := new_streak;
             receipt_total_checkins := receipt_checkins;
             fee_paid := fee |}).

(** Admin functions. *)
Definition set_points_per_checkin (tx_sender : principal) (new_points : N)
    : M (World Data) (response N) :=
  asserts (bool_decide (tx_sender = CONTRACT_OWNER)) ERR_NOT_AUTHORIZED;;
  asserts (0 <? new_points) ERR_INVALID_AMOUNT;;
  var_set set_points_per_checkin_var new_points;;
  ret (ok new_points).

Definition set_streak_bonus (tx_sender : principal) (new_bonus : N)
    : M (World Data) (response N) :=
  asserts (bool_decide (tx_sender = CONTRACT_OWNER)) ERR_NOT_AUTHORIZED;;
  var_set set_streak_bonus_var new_bonus;;
  ret (ok new_bonus).

Definition set_fee_amount (tx_sender : principal) (new_fee : N)
    : M (World Data) (response N) :=
  asserts (bool_decide (tx_sender = CONTRACT_OWNER)) ERR_NOT_AUTHORIZED;;
  asserts (0 <? new_fee) ERR_INVALID_AMOUNT;;
  var_set set_fee_amount_var new_fee;;
  ret (ok new_fee).

Definition update_contract_deployer (tx_sender : principal) (new_deployer : principal)
    : M (World Data) (response principal) :=
  asserts (bool_decide (tx_sender = CONTRACT_OWNER)) ERR_NOT_AUTHORIZED;;
  var_set set_contract_deployer_var new_deployer;;
  ret (ok new_deployer).

(** Transactions sent to the contract, and their effect on the world. *)
Inductive Call :=
| CallCheckIn
| CallSetPointsPerCheckin (new_points : N)
| CallSetStreakBonus (new_bonus : N)
| CallSetFeeAmount (new_fee : N)
| CallUpdateContractDeployer (new_deployer : principal).

Record Tx := { tx_sender : principal; block_height : N; tx_call : Call }.

Definition exec (tx : Tx) (w : World Data) : World Data :=
  match tx_call tx with
  | CallCheckIn =>
      snd (call_public (check_in (tx_sender tx) (block_height tx)) w)
  | CallSetPointsPerCheckin v =>
      snd (call_public (set_points_per_checkin (tx_sender tx) v) w)
  | CallSetStreakBonus v =>
      snd (call_public (set_streak_bonus (tx_sender tx) v) w)
  | CallSetFeeAmount v =>
      snd (call_public (set_fee_amount (tx_sender tx) v) w)
  | CallUpdateContractDeployer p =>
      snd (call_public (update_contract_deployer (tx_sender tx) p) w)
  end.

Definition run (txs : list Tx) (w : World Data) : World Data :=
  fold_left (λ w tx, exec tx w) txs w.

End Contract.

(** Global counters agree with the per-user counters. *)
Definition aggregate_consistent (d : Data) : Prop :=
  total_checkins d = sum_values (user_total_checkins d) ∧
  unique_users d = N.of_nat (size (with_checkins (user_total_checkins d))).

(** The world right after deployment, on a chain [c]. *)
Definition deployed (c : Chain) : World Data := {| data := initial; chain := c |}.

End V2.

(** ** Concrete runs

    The accounts of the test suite; every wallet holds one STX. *)

Module Scenario.

Definition deployer : principal := "deployer".
Definition wallet_1 : principal := "wallet_1".
Definition wallet_2 : principal := "wallet_2".
Definition wallet_3 : principal := "wallet_3".
Definition wallet_4 : principal := "wallet_4".

Definition funded : Chain :=
  {| stx_balance := {[ wallet_1 := 1000000; wallet_2 := 1000000;
                       wallet_3 := 1000000; wallet_4 := 1000000 ]};
     stx_attempts := [] |}.

(** A chain on which [wallet_1] cannot pay the fee. *)
Definition short_of_funds : Chain :=
  {| stx_balance := {[ wallet_1 := 500 ]}; stx_attempts := [] |}.

(** First contract: four check-ins of [wallet_1], at blocks 100, 100, 244
    and 532. *)
Definition v1_start : World V1.Data := V1.deployed funded.
Definition v1_first := call_public (V1.check_in deployer wallet_1 100) v1_start.
Definition v1_again := call_public (V1.check_in deployer wallet_1 100) (snd v1_first).
Definition v1_next_day := call_public (V1.check_in deployer wallet_1 244) (snd v1_again).
Definition v1_two_days := call_public (V1.check_in deployer wallet_1 532) (snd v1_next_day).

(** Second contract: the same four check-ins. *)
Definition v2_start : World V2.Data := V2.deployed funded.
Definition v2_first := call_public (V2.check_in wallet_1 100) v2_start.
Definition v2_again := call_public (V2.check_in wallet_1 100) (snd v2_first).
Definition v2_next_day := call_public (V2.check_in wallet_1 244) (snd v2_again).
Definition v2_two_days := call_public (V2.check_in wallet_1 532) (snd v2_next_day).

(** A batch paid by [wallet_4] right after [wallet_1] checked in. *)
Definition v1_mixed_batch :=
  call_public (V1.bulk_check_in deployer wallet_4 100 [wallet_1; wallet_2; wallet_3])
    (snd v1_first).

(** A batch that names [wallet_1] twice. *)
Definition v1_duplicate_batch :=
  call_public (V1.bulk_check_in deployer wallet_3 100 [wallet_1; wallet_1; wallet_2])
    v1_start.

(** A check-in that cannot pay. *)
Definition v1_unpaid :=
  call_public (V1.check_in deployer wallet_1 100) (V1.deployed short_of_funds).
Definition v2_unpaid :=
  call_public (V2.check_in wallet_1 100) (V2.deployed short_of_funds).

(** A short history of the first contract. *)
Definition v1_history : list V1.Tx :=
  [ {| V1.tx_sender := wallet_1; V1.block_height := 100; V1.tx_call := V1.CallCheckIn |};
    {| V1.tx_sender := wallet_4; V1.block_height := 100;
       V1.tx_call := V1.CallBulkCheckIn [wallet_1; wallet_2; wallet_3] |};
    {| V1.tx_sender := deployer; V1.block_height := 101;
       V1.tx_call := V1.CallSetStreakBonus 0 |};
    {| V1.tx_sender := wallet_1; V1.block_height := 244; V1.tx_call := V1.CallCheckIn |} ].

Definition v2_history : list V2.Tx :=
  [ {| V2.tx_sender := wallet_1; V2.block_height := 100; V2.tx_call := V2.CallCheckIn |};
    {| V2.tx_sender := deployer; V2.block_height := 101;
       V2.tx_call := V2.CallSetFeeAmount 5000 |};
    {| V2.tx_sender := wallet_2; V2.block_height := 150; V2.tx_call := V2.CallCheckIn |};
    {| V2.tx_sender := wallet_1; V2.block_height := 244; V2.tx_call := V2.CallCheckIn |} ].

End Scenario.

(** ** The invariant behind the global counters

    [total] and [uniq] are the data variables [total-checkins] and
    [unique-users], [last] and [totals] the maps [last-checkin] and
    [user-total-checkins]. *)

Definition counters_inv (total uniq : N) (last totals : gmap string N) : Prop :=
  total = sum_values totals ∧
  uniq = N.of_nat (size totals) ∧
  (∀ u v, totals !! u = Some v → 0 < v) ∧
  (∀ u, default 0 (last !! u) = 0 ↔ totals !! u = None).

Definition V1_inv (d : V1.Data) : Prop :=
  counters_inv (V1.total_checkins d) (V1.unique_users d)
    (V1.last_checkin d) (V1.user_total_checkins d).

Definition V2_inv (d : V2.Data) : Prop :=
  counters_inv (V2.total_checkins d) (V2.unique_users d)
    (V2.last_checkin d) (V2.user_total_checkins d).

(** ** Read-only functions that build a tuple *)

(** A read-only call: it returns a value or hits a runtime error, and never
    writes. *)
Definition call_read_only {S A} (body : M S A) (s : S) : option A :=
  match body s with
  | (Val a, _) => Some a
  | _ => None
  end.

(** The responses of a batch that are [(ok ..)]. *)
Definition is_ok {A} (r : response A) : bool :=
  match r with ok _ => true | err _ => false end.

Definition count_ok {A} (rs : list (response A)) : N :=
  N.of_nat (length (List.filter is_ok rs)).

Module V1_readonly.

(** The tuple of [get-user-stats]. *)
Record UserStats := {
  points : N;
  streak : N;
  total_checkins : N;
  last_checkin : N;
  can_checkin : bool
}.

Definition get_user_stats (block_height : N) (user : principal)
    : M (World V1.Data) UserStats :=
  p ← reads (λ w, V1.get_user_points user (data w));
  s ← reads (λ w, V1.get_user_streak user (data w));
  t ← reads (λ w, V1.get_user_total_checkins user (data w));
  l ← reads (λ w, V1.get_last_checkin user (data w));
  c ← V1.can_checkin block_height user;
  ret {| points := p; streak := s; total_checkins := t; last_checkin := l;
         can_checkin := c |}.

(** The tuple of [get-global-stats]. *)
Record GlobalStats := {
  global_total_checkins : N;
  global_unique_users : N;
  global_points_per_checkin : N;
  global_streak_bonus : N
}.

Definition get_global_stats : M (World V1.Data) GlobalStats :=
  t ← V1.var_get V1.total_checkins;
  u ← V1.var_get V1.unique_users;
  p ← V1.var_get V1.points_per_checkin;
  b ← V1.var_get V1.streak_bonus;
  ret {| global_total_checkins := t; global_unique_users := u;
         global_points_per_checkin := p; global_streak_bonus := b |}.

End V1_readonly.

Module V2_readonly.

(** The tuple of [get-user-stats]. *)
Record UserStats := {
  points : N;
  streak : N;
  total_checkins : N;
  last_checkin : N;
  fee_paid : N;
  can_checkin : bool
}.

Definition get_user_stats (block_height : N) (user : principal)
    : M (World V2.Data) UserStats :=
  p ← reads (λ w, V2.get_user_points user (data w));
  s ← reads (λ w, V2.get_user_streak user (data w));
  t ← reads (λ w, V2.get_user_total_checkins user (data w));
  l ← reads (λ w, V2.get_last_checkin user (data w));
  f ← reads (λ w, V2.get_user_fee_paid user (data w));
  c ← V2.can_checkin block_height user;
  ret {| points := p; streak := s; total_checkins := t; last_checkin := l;
         fee_paid := f; can_checkin := c |}.

(** The tuple of [get-global-stats]. *)
Record GlobalStats := {
  global_total_checkins : N;
  global_unique_users : N;
  global_points_per_checkin : N;
  global_streak_bonus : N;
  global_fee_amount : N;
  global_contract_deployer : principal
}.

Definition get_global_stats : M (World V2.Data) GlobalStats :=
  t ← V2.var_get V2.total_checkins;
  u ← V2.var_get V2.unique_users;
  p ← V2.var_get V2.points_per_checkin;
  b ← V2.var_get V2.streak_bonus;
  f ← V2.var_get V2.fee_amount;
  d ← V2.var_get V2.contract_deployer;
  ret {| global_total_checkins := t; global_unique_users := u;
         global_points_per_checkin := p; global_streak_bonus := b;
         global_fee_amount := f; global_contract_deployer := d |}.

End V2_readonly.

(** ** Orderings and bounds on the contract data *)

(** No counter of [d] is above its value in [d']. *)
Definition V1_grows (d d' : V1.Data) : Prop :=
  V1.total_checkins d ≤ V1.total_checkins d' ∧
  V1.unique_users d ≤ V1.unique_users d' ∧
  ∀ u, V1.get_last_checkin u d ≤ V1.get_last_checkin u d' ∧
       V1.get_user_points u d ≤ V1.get_user_points u d' ∧
       V1.get_user_total_checkins u d ≤ V1.get_user_total_checkins u d'.

Definition V2_grows (d d' : V2.Data) : Prop :=
  V2.total_checkins d ≤ V2.total_checkins d' ∧
  V2.unique_users d ≤ V2.unique_users d' ∧
  ∀ u, V2.get_last_checkin u d ≤ V2.get_last_checkin u d' ∧
       V2.get_user_points u d ≤ V2.get_user_points u d' ∧
       V2.get_user_total_checkins u d ≤ V2.get_user_total_checkins u d' ∧
       V2.get_user_fee_paid u d ≤ V2.get_user_fee_paid u d'.

(** A streak is at most the number of check-ins, and at least 1 once there
    is one. *)
Definition V1_streak_bounded (d : V1.Data) : Prop :=
  ∀ u, V1.get_user_streak u d ≤ V1.get_user_total_checkins u d ∧
       (V1.get_user_total_checkins u d ≠ 0 → 1 ≤ V1.get_user_streak u d).

Definition V2_streak_bounded (d : V2.Data) : Prop :=
  ∀ u, V2.get_user_streak u d ≤ V2.get_user_total_checkins u d ∧
       (V2.get_user_total_checkins u d ≠ 0 → 1 ≤ V2.get_user_streak u d).

(** * Properties *)

(** ** Proof automation for contract code *)

Ltac clarity_unfold :=
  unfold bind, reads, modify, ret, runtime_error, add, sub, mul, and_, or_,
         asserts, try_, define, stx_transfer, with_data in *.

(** Case analysis on every test made along an execution given as a hypothesis. *)
Ltac flow_cases :=
  repeat (simpl in *;
    match goal with
    | H : context [if ?c then _ else _] |- _ => destruct c eqn:?
    | H : context [match ?c with _ => _ end] |- _ => destruct c eqn:?
    | H : (_, _) = (_, _) |- _ => inversion H; clear H; subst
    end; try discriminate).

Ltac bool_to_prop :=
  repeat match goal with
  | H : (_ =? _) = true |- _ => apply N.eqb_eq in H
  | H : (_ =? _) = false |- _ => apply N.eqb_neq in H
  | H : (_ <=? _) = true |- _ => apply N.leb_le in H
  | H : (_ <=? _) = false |- _ => apply N.leb_gt in H
  | H : (_ <? _) = true |- _ => apply N.ltb_lt in H
  | H : (_ <? _) = false |- _ => apply N.ltb_ge in H
  end.

Lemma stx_check_ok tx amount s r c b :
  stx_check tx amount s r c = ok b → b = true.
Proof. unfold stx_check. intros H. repeat case_match; congruence. Qed.

Lemma stx_check_err tx amount s r c e :
  stx_check tx amount s r c = err e → 1 ≤ e ≤ 4.
Proof.
  unfold stx_check, STX_NON_POSITIVE_AMOUNT, STX_SENDER_IS_RECIPIENT,
    STX_SENDER_IS_NOT_TX_SENDER, STX_NOT_ENOUGH_BALANCE.
  intros H. repeat case_match; simplify_eq; lia.
Qed.

Ltac use_stx_ok :=
  repeat match goal with
  | H : stx_check _ _ _ _ _ = ok ?a |- _ =>
      is_var a; pose proof (stx_check_ok _ _ _ _ _ _ H); subst a
  end.

(** Case analysis on the comparisons that occur in the goal. *)
Ltac arith_cases :=
  repeat match goal with
  | |- context [?a <? ?b] => destruct (N.ltb_spec a b)
  | |- context [?a <=? ?b] => destruct (N.leb_spec a b)
  | |- context [?a =? ?b] => destruct (N.eqb_spec a b)
  end;
  simpl; try reflexivity; try lia.

(** Closes the side conditions left by [flow_cases]. *)
Ltac settle :=
  cbn [data chain] in *; use_stx_ok;
  repeat match goal with H : ?c = _ |- context [?c] => rewrite H end;
  simpl; bool_to_prop;
  unfold V1.BLOCKS_PER_DAY, V2.BLOCKS_PER_DAY in *;
  repeat match goal with
  | |- context [?a <? ?b] => destruct (N.ltb_spec a b); try lia
  | |- context [?a <=? ?b] => destruct (N.leb_spec a b); try lia
  | |- context [?a =? ?b] => destruct (N.eqb_spec a b); try lia
  end;
  repeat split; try done; try lia; auto; try (right; lia).

(** ** [V1]: what a call of [check-in] does *)

Section V1_facts.

Variable owner : principal.

Lemma V1_check_in_ok user now w r w' :
  V1.check_in owner user now w = (Val (ok r), w') →
  let d := data w in
  let last := V1.get_last_checkin user d in
  let ns := streak_rule 144 now last (V1.get_user_streak user d) in
  let e := V1.points_per_checkin d + ns * V1.streak_bonus d in
  (last = 0 ∨ (last ≤ now ∧ 144 ≤ now - last)) ∧
  stx_check user V1.CHECKIN_FEE user owner (chain w) = ok true ∧
  r = {| V1.earned := e; V1.total_points := V1.get_user_points user d + e;
         V1.streak := ns;
         V1.receipt_total_checkins := V1.get_user_total_checkins user d + 1 |} ∧
  V1.get_user_points user d + e ≤ UINT_MAX ∧
  data w' =
    {| V1.points_per_checkin := V1.points_per_checkin d;
       V1.streak_bonus := V1.streak_bonus d;
       V1.total_checkins := V1.total_checkins d + 1;
       V1.unique_users :=
         (if last =? 0 then V1.unique_users d + 1 else V1.unique_users d);
       V1.last_checkin := <[user := now]> (V1.last_checkin d);
       V1.user_points :=
         <[user := V1.get_user_points user d + e]> (V1.user_points d);
       V1.user_streak := <[user := ns]> (V1.user_streak d);
       V1.user_total_checkins :=
         <[user := V1.get_user_total_checkins user d + 1]>
           (V1.user_total_checkins d) |} ∧
  chain w' =
    {| stx_balance := stx_move V1.CHECKIN_FEE user owner (stx_balance (chain w));
       stx_attempts := stx_attempts (chain w) ++
         [ {| call_amount := V1.CHECKIN_FEE; call_sender := user;
              call_recipient := owner |} ] |}.
Proof.
  intros H. cbv zeta.
  unfold V1.check_in, V1.can_checkin, V1.var_get, V1.var_set, V1.map_set in H.
  clarity_unfold. unfold streak_rule.
  flow_cases; settle.
Qed.

(** The two ways [check-in] returns an error: the time gate, before anything
    else happened, or the fee transfer, whose own error code is passed on. *)
Lemma V1_check_in_thrown user now w e w' :
  V1.check_in owner user now w = (Thrown e, w') →
  let last := V1.get_last_checkin user (data w) in
  (e = V1.ERR_ALREADY_CHECKED_IN ∧ w' = w ∧
   last ≠ 0 ∧ last ≤ now ∧ now - last < 144)
  ∨ ((last = 0 ∨ (last ≤ now ∧ 144 ≤ now - last)) ∧
     stx_check user V1.CHECKIN_FEE user owner (chain w) = err e ∧
     data w' = data w ∧
     chain w' =
       {| stx_balance := stx_balance (chain w);
          stx_attempts := stx_attempts (chain w) ++
            [ {| call_amount := V1.CHECKIN_FEE; call_sender := user;
                 call_recipient := owner |} ] |}).
Proof.
  intros H. cbv zeta.
  unfold V1.check_in, V1.can_checkin, V1.var_get, V1.var_set, V1.map_set in H.
  clarity_unfold.
  flow_cases; cbn [data chain] in *; bool_to_prop;
    unfold V1.BLOCKS_PER_DAY in *.
  all: first
    [ solve [left; repeat split; auto; lia]
    | solve [right; repeat split; auto; right; lia] ].
Qed.

Lemma V1_check_in_no_err_value user now w e w' :
  V1.check_in owner user now w ≠ (Val (err e), w').
Proof.
  intros H.
  unfold V1.check_in, V1.can_checkin, V1.var_get, V1.var_set, V1.map_set in H.
  clarity_unfold.
  flow_cases.
Qed.

Lemma V1_check_in_rejected user now w :
  let last := V1.get_last_checkin user (data w) in
  last ≠ 0 → last ≤ now → now - last < 144 →
  V1.check_in owner user now w = (Thrown V1.ERR_ALREADY_CHECKED_IN, w).
Proof.
  cbv zeta. intros Hne Hle Hlt.
  unfold V1.check_in, V1.can_checkin, V1.var_get, V1.var_set, V1.map_set.
  clarity_unfold. simpl.
  apply N.eqb_neq in Hne. rewrite Hne. simpl.
  apply N.leb_le in Hle. rewrite Hle. simpl.
  unfold V1.BLOCKS_PER_DAY.
  destruct (N.leb_spec 144 (now - V1.get_last_checkin user (data w))); [lia|].
  reflexivity.
Qed.

Lemma V1_check_in_fee_failed user now w e :
  let last := V1.get_last_checkin user (data w) in
  last = 0 ∨ (last ≤ now ∧ 144 ≤ now - last) →
  stx_check user V1.CHECKIN_FEE user owner (chain w) = err e →
  V1.check_in owner user now w =
    (Thrown e,
     {| data := data w;
        chain :=
          {| stx_balance := stx_balance (chain w);
             stx_attempts := stx_attempts (chain w) ++
               [ {| call_amount := V1.CHECKIN_FEE; call_sender := user;
                    call_recipient := owner |} ] |} |}).
Proof.
  cbv zeta. intros Hel Hfee.
  unfold V1.check_in, V1.can_checkin, V1.var_get, V1.var_set, V1.map_set.
  clarity_unfold. simpl.
  destruct Hel as [H0 | [Hle Hge]].
  - rewrite H0. simpl. rewrite Hfee. reflexivity.
  - destruct (N.eqb_spec (V1.get_last_checkin user (data w)) 0); simpl.
    + rewrite Hfee. reflexivity.
    + apply N.leb_le in Hle. rewrite Hle. simpl.
      unfold V1.BLOCKS_PER_DAY. apply N.leb_le in Hge. rewrite Hge. simpl.
      rewrite Hfee. reflexivity.
Qed.

(** *** The batch member [check-in-internal] *)

Lemma V1_check_in_internal_ok user now w r w' :
  V1.check_in_internal now user w = (Val (ok r), w') →
  let d := data w in
  let last := V1.get_last_checkin user d in
  let ns := streak_rule 144 now last (V1.get_user_streak user d) in
  let e := V1.points_per_checkin d + ns * V1.streak_bonus d in
  (last = 0 ∨ (last ≤ now ∧ 144 ≤ now - last)) ∧
  r = {| V1.earned := e; V1.total_points := V1.get_user_points user d + e;
         V1.streak := ns;
         V1.receipt_total_checkins := V1.get_user_total_checkins user d + 1 |} ∧
  V1.get_user_points user d + e ≤ UINT_MAX ∧
  data w' =
    {| V1.points_per_checkin := V1.points_per_checkin d;
       V1.streak_bonus := V1.streak_bonus d;
       V1.total_checkins := V1.total_checkins d + 1;
       V1.unique_users :=
         (if last =? 0 then V1.unique_users d + 1 else V1.unique_users d);
       V1.last_checkin := <[user := now]> (V1.last_checkin d);
       V1.user_points :=
         <[user := V1.get_user_points user d + e]> (V1.user_points d);
       V1.user_streak := <[user := ns]> (V1.user_streak d);
       V1.user_total_checkins :=
         <[user := V1.get_user_total_checkins user d + 1]>
           (V1.user_total_checkins d) |} ∧
  chain w' = chain w.
Proof.
  intros H. cbv zeta.
  unfold V1.check_in_internal, V1.can_checkin, V1.var_get, V1.var_set,
    V1.map_set in H.
  clarity_unfold. unfold streak_rule.
  flow_cases; settle.
Qed.

Lemma V1_check_in_internal_err user now w e w' :
  V1.check_in_internal now user w = (Val (err e), w') →
  let last := V1.get_last_checkin user (data w) in
  e = V1.ERR_ALREADY_CHECKED_IN ∧ w' = w ∧
  last ≠ 0 ∧ last ≤ now ∧ now - last < 144.
Proof.
  intros H. cbv zeta.
  unfold V1.check_in_internal, V1.can_checkin, V1.var_get, V1.var_set,
    V1.map_set in H.
  clarity_unfold.
  flow_cases; settle.
Qed.

Lemma V1_check_in_internal_not_thrown user now w e w' :
  V1.check_in_internal now user w ≠ (Thrown e, w').
Proof.
  unfold V1.check_in_internal, define. intros H.
  repeat case_match; simplify_eq.
Qed.

Lemma V1_check_in_internal_rejected user now w :
  let last := V1.get_last_checkin user (data w) in
  last ≠ 0 → last ≤ now → now - last < 144 →
  V1.check_in_internal now user w = (Val (err V1.ERR_ALREADY_CHECKED_IN), w).
Proof.
  cbv zeta. intros Hne Hle Hlt.
  unfold V1.check_in_internal, V1.can_checkin, V1.var_get, V1.var_set,
    V1.map_set.
  clarity_unfold. simpl.
  apply N.eqb_neq in Hne. rewrite Hne. simpl.
  apply N.leb_le in Hle. rewrite Hle. simpl.
  unfold V1.BLOCKS_PER_DAY.
  destruct (N.leb_spec 144 (now - V1.get_last_checkin user (data w))); [lia|].
  reflexivity.
Qed.

End V1_facts.

(** ** [V2]: what a call of [check-in] does *)

Section V2_facts.

Lemma V2_check_in_ok user now w r w' :
  V2.check_in user now w = (Val (ok r), w') →
  let d := data w in
  let last := V2.get_last_checkin user d in
  let ns := streak_rule 144 now last (V2.get_user_streak user d) in
  let e := V2.points_per_checkin d + ns * V2.streak_bonus d in
  (last = 0 ∨ (last ≤ now ∧ 144 ≤ now - last)) ∧
  stx_check user (V2.fee_amount d) user (V2.contract_deployer d) (chain w)
    = ok true ∧
  r = {| V2.earned := e; V2.total_points := V2.get_user_points user d + e;
         V2.streak := ns;
         V2.receipt_total_checkins := V2.get_user_total_checkins user d + 1;
         V2.fee_paid := V2.fee_amount d |} ∧
  V2.get_user_points user d + e ≤ UINT_MAX ∧
  data w' =
    {| V2.points_per_checkin := V2.points_per_checkin d;
       V2.streak_bonus := V2.streak_bonus d;
       V2.total_checkins := V2.total_checkins d + 1;
       V2.unique_users :=
         (if last =? 0 then V2.unique_users d + 1 else V2.unique_users d);
       V2.contract_deployer := V2.contract_deployer d;
       V2.fee_amount := V2.fee_amount d;
       V2.last_checkin := <[user := now]> (V2.last_checkin d);
       V2.user_points :=
         <[user := V2.get_user_points user d + e]> (V2.user_points d);
       V2.user_streak := <[user := ns]> (V2.user_streak d);
       V2.user_total_checkins :=
         <[user := V2.get_user_total_checkins user d + 1]>
           (V2.user_total_checkins d);
       V2.user_fee_paid :=
         <[user := V2.get_user_fee_paid user d + V2.fee_amount d]>
           (V2.user_fee_paid d) |} ∧
  chain w' =
    {| stx_balance :=
         stx_move (V2.fee_amount d) user (V2.contract_deployer d)
           (stx_balance (chain w));
       stx_attempts := stx_attempts (chain w) ++
         [ {| call_amount := V2.fee_amount d; call_sender := user;
              call_recipient := V2.contract_deployer d |} ] |}.
Proof.
  intros H. cbv zeta.
  unfold V2.check_in, V2.can_checkin, V2.var_get, V2.var_set, V2.map_set in H.
  clarity_unfold. unfold streak_rule.
  flow_cases; settle.
Qed.

Lemma V2_check_in_thrown user now w e w' :
  V2.check_in user now w = (Thrown e, w') →
  let d := data w in
  let last := V2.get_last_checkin user d in
  (e = V2.ERR_ALREADY_CHECKED_IN ∧ w' = w ∧
   last ≠ 0 ∧ last ≤ now ∧ now - last < 144)
  ∨ ((last = 0 ∨ (last ≤ now ∧ 144 ≤ now - last)) ∧
     stx_check user (V2.fee_amount d) user (V2.contract_deployer d) (chain w)
       = err e ∧
     data w' = data w ∧
     chain w' =
       {| stx_balance := stx_balance (chain w);
          stx_attempts := stx_attempts (chain w) ++
            [ {| call_amount := V2.fee_amount d; call_sender := user;
                 call_recipient := V2.contract_deployer d |} ] |}).
Proof.
  intros H. cbv zeta.
  unfold V2.check_in, V2.can_checkin, V2.var_get, V2.var_set, V2.map_set in H.
  clarity_unfold.
  flow_cases; cbn [data chain] in *; bool_to_prop;
    unfold V2.BLOCKS_PER_DAY in *.
  all: first
    [ solve [left; repeat split; auto; lia]
    | solve [right; repeat split; auto; right; lia] ].
Qed.

Lemma V2_check_in_no_err_value user now w e w' :
  V2.check_in user now w ≠ (Val (err e), w').
Proof.
  intros H.
  unfold V2.check_in, V2.can_checkin, V2.var_get, V2.var_set, V2.map_set in H.
  clarity_unfold.
  flow_cases.
Qed.

Lemma V2_check_in_rejected user now w :
  let last := V2.get_last_checkin user (data w) in
  last ≠ 0 → last ≤ now → now - last < 144 →
  V2.check_in user now w = (Thrown V2.ERR_ALREADY_CHECKED_IN, w).
Proof.
  cbv zeta. intros Hne Hle Hlt.
  unfold V2.check_in, V2.can_checkin, V2.var_get, V2.var_set, V2.map_set.
  clarity_unfold. simpl.
  apply N.eqb_neq in Hne. rewrite Hne. simpl.
  apply N.leb_le in Hle. rewrite Hle. simpl.
  unfold V2.BLOCKS_PER_DAY.
  destruct (N.leb_spec 144 (now - V2.get_last_checkin user (data w))); [lia|].
  reflexivity.
Qed.

Lemma V2_check_in_fee_failed user now w e :
  let d := data w in
  let last := V2.get_last_checkin user d in
  last = 0 ∨ (last ≤ now ∧ 144 ≤ now - last) →
  stx_check user (V2.fee_amount d) user (V2.contract_deployer d) (chain w)
    = err e →
  V2.check_in user now w =
    (Thrown e,
     {| data := d;
        chain :=
          {| stx_balance := stx_balance (chain w);
             stx_attempts := stx_attempts (chain w) ++
               [ {| call_amount := V2.fee_amount d; call_sender := user;
                    call_recipient := V2.contract_deployer d |} ] |} |}).
Proof.
  cbv zeta. intros Hel Hfee.
  unfold V2.check_in, V2.can_checkin, V2.var_get, V2.var_set, V2.map_set.
  clarity_unfold. simpl.
  destruct Hel as [H0 | [Hle Hge]].
  - rewrite H0. simpl. rewrite Hfee. reflexivity.
  - destruct (N.eqb_spec (V2.get_last_checkin user (data w)) 0); simpl.
    + rewrite Hfee. reflexivity.
    + apply N.leb_le in Hle. rewrite Hle. simpl.
      unfold V2.BLOCKS_PER_DAY. apply N.leb_le in Hge. rewrite Hge. simpl.
      rewrite Hfee. reflexivity.
Qed.

End V2_facts.

(** ** Transactions *)

Lemma call_public_committed {D A} (body : M (World D) (response A)) w a w' :
  call_public body w = (Committed a, w') ↔ body w = (Val (ok a), w').
Proof.
  unfold call_public. split; intros H.
  - repeat case_match; simplify_eq. reflexivity.
  - rewrite H. reflexivity.
Qed.

Lemma call_public_reverted {D A} (body : M (World D) (response A)) w e w' :
  call_public body w = (Reverted e, w') ↔
  ∃ w1, (body w = (Val (err e), w1) ∨ body w = (Thrown e, w1)) ∧
        w' = rollback w w1.
Proof.
  unfold call_public. split.
  - intros H. repeat case_match; simplify_eq; eauto.
  - intros (w1 & [H | H] & ->); rewrite H; reflexivity.
Qed.

(** Whatever a transaction does, the contract data afterwards is either the
    data committed by a successful body or the data from before. *)
Lemma call_public_data {D A} (body : M (World D) (response A)) w (P : D → Prop) :
  (∀ a w1, body w = (Val (ok a), w1) → P (data w1)) →
  P (data w) →
  P (data (snd (call_public body w))).
Proof.
  intros Hok Hsame. unfold call_public.
  destruct (body w) as [[[a | e] | e | ] w1] eqn:Hbody; simpl; eauto.
Qed.

Lemma rollback_same {D} (w w1 : World D) :
  stx_attempts (chain w1) = stx_attempts (chain w) → rollback w w1 = w.
Proof.
  intros H. unfold rollback. rewrite H. destruct w as [d [b l]]. reflexivity.
Qed.

(** ** C1: streak continuation and reset *)

(** C1. A committed [check-in] returns and stores the new streak; for a
    user with an earlier check-in ([last-checkin] not 0) it is the current
    streak plus one exactly when [block-height - last-checkin] is below
    [2 * BLOCKS-PER-DAY], and 1 otherwise.  A gap of exactly
    [2 * BLOCKS-PER-DAY] resets to 1, a gap of [2 * BLOCKS-PER-DAY - 1]
    continues, and a first check-in gives streak 1.  Both contracts. *)
Theorem C1_streak_continue_or_reset :
  (∀ owner user now w r w',
     call_public (V1.check_in owner user now) w = (Committed r, w') →
     let last := V1.get_last_checkin user (data w) in
     let current := V1.get_user_streak user (data w) in
     let new := V1.get_user_streak user (data w') in
     V1.streak r = new ∧
     (last ≠ 0 →
      new = if now - last <? 2 * V1.BLOCKS_PER_DAY then current + 1 else 1) ∧
     (last ≠ 0 → now - last = 2 * V1.BLOCKS_PER_DAY → new = 1) ∧
     (last ≠ 0 → now - last = 2 * V1.BLOCKS_PER_DAY - 1 → new = current + 1) ∧
     (last = 0 → new = 1))
  ∧
  (∀ user now w r w',
     call_public (V2.check_in user now) w = (Committed r, w') →
     let last := V2.get_last_checkin user (data w) in
     let current := V2.get_user_streak user (data w) in
     let new := V2.get_user_streak user (data w') in
     V2.streak r = new ∧
     (last ≠ 0 →
      new = if now - last <? 2 * V2.BLOCKS_PER_DAY then current + 1 else 1) ∧
     (last ≠ 0 → now - last = 2 * V2.BLOCKS_PER_DAY → new = 1) ∧
     (last ≠ 0 → now - last = 2 * V2.BLOCKS_PER_DAY - 1 → new = current + 1) ∧
     (last = 0 → new = 1)).
Proof.
  split.
  - intros owner user now w r w' H%call_public_committed.
    apply V1_check_in_ok in H as (_ & _ & -> & _ & Hd & _).
    cbv zeta.
    assert (V1.get_user_streak user (data w') =
            streak_rule 144 now (V1.get_last_checkin user (data w))
              (V1.get_user_streak user (data w))) as ->.
    { unfold V1.get_user_streak at 1. rewrite Hd. simpl.
      by rewrite lookup_insert_eq. }
    simpl. unfold streak_rule, V1.BLOCKS_PER_DAY.
    repeat split; intros; arith_cases.
  - intros user now w r w' H%call_public_committed.
    apply V2_check_in_ok in H as (_ & _ & -> & _ & Hd & _).
    cbv zeta.
    assert (V2.get_user_streak user (data w') =
            streak_rule 144 now (V2.get_last_checkin user (data w))
              (V2.get_user_streak user (data w))) as ->.
    { unfold V2.get_user_streak at 1. rewrite Hd. simpl.
      by rewrite lookup_insert_eq. }
    simpl. unfold streak_rule, V2.BLOCKS_PER_DAY.
    repeat split; intros; arith_cases.
Qed.

(** ** C3: the time gate *)

(** C3. Whenever the recorded last check-in is not in the future of the
    current block, a [check-in] transaction fails with
    [ERR-ALREADY-CHECKED-IN] if and only if the caller has a last check-in
    other than 0 and fewer than [BLOCKS-PER-DAY] blocks have passed since;
    on this failure the world is exactly the one before the call: no map
    entry, no counter and no balance changed, and no [stx-transfer?] was
    evaluated.  Both contracts. *)
Theorem C3_already_checked_in_iff_within_window :
  (∀ owner user now w,
     V1.get_last_checkin user (data w) ≤ now →
     let last := V1.get_last_checkin user (data w) in
     let tx := call_public (V1.check_in owner user now) w in
     (fst tx = Reverted V1.ERR_ALREADY_CHECKED_IN ↔
      last ≠ 0 ∧ now - last < V1.BLOCKS_PER_DAY) ∧
     (fst tx = Reverted V1.ERR_ALREADY_CHECKED_IN → snd tx = w))
  ∧
  (∀ user now w,
     V2.get_last_checkin user (data w) ≤ now →
     let last := V2.get_last_checkin user (data w) in
     let tx := call_public (V2.check_in user now) w in
     (fst tx = Reverted V2.ERR_ALREADY_CHECKED_IN ↔
      last ≠ 0 ∧ now - last < V2.BLOCKS_PER_DAY) ∧
     (fst tx = Reverted V2.ERR_ALREADY_CHECKED_IN → snd tx = w)).
Proof.
  split.
  - intros owner user now w Hle. cbv zeta.
    destruct (call_public (V1.check_in owner user now) w) as [res w'] eqn:Htx.
    simpl.
    assert (res = Reverted V1.ERR_ALREADY_CHECKED_IN →
            V1.get_last_checkin user (data w) ≠ 0 ∧
            now - V1.get_last_checkin user (data w) < 144 ∧ w' = w) as Hinv.
    { intros ->. apply call_public_reverted in Htx as (w1 & [H | H] & ->).
      - by apply V1_check_in_no_err_value in H.
      - apply V1_check_in_thrown in H
          as [(_ & -> & ? & ? & ?) | (_ & Hfee & _)].
        + split; [done |]. split; [done |]. by apply rollback_same.
        + apply stx_check_err in Hfee. unfold V1.ERR_ALREADY_CHECKED_IN in Hfee.
          lia. }
    unfold V1.BLOCKS_PER_DAY. split; [split |].
    + intros H. apply Hinv in H. tauto.
    + intros [Hne Hlt].
      unfold call_public in Htx.
      rewrite (V1_check_in_rejected owner user now w Hne Hle Hlt) in Htx.
      by simplify_eq.
    + intros H. apply Hinv in H. tauto.
  - intros user now w Hle. cbv zeta.
    destruct (call_public (V2.check_in user now) w) as [res w'] eqn:Htx.
    simpl.
    assert (res = Reverted V2.ERR_ALREADY_CHECKED_IN →
            V2.get_last_checkin user (data w) ≠ 0 ∧
            now - V2.get_last_checkin user (data w) < 144 ∧ w' = w) as Hinv.
    { intros ->. apply call_public_reverted in Htx as (w1 & [H | H] & ->).
      - by apply V2_check_in_no_err_value in H.
      - apply V2_check_in_thrown in H
          as [(_ & -> & ? & ? & ?) | (_ & Hfee & _)].
        + split; [done |]. split; [done |]. by apply rollback_same.
        + apply stx_check_err in Hfee. unfold V2.ERR_ALREADY_CHECKED_IN in Hfee.
          lia. }
    unfold V2.BLOCKS_PER_DAY. split; [split |].
    + intros H. apply Hinv in H. tauto.
    + intros [Hne Hlt].
      unfold call_public in Htx.
      rewrite (V2_check_in_rejected user now w Hne Hle Hlt) in Htx.
      by simplify_eq.
    + intros H. apply Hinv in H. tauto.
Qed.

(** ** C10: a check-in touches only the caller's record *)


(** ** C9: the admin setters *)

Lemma asserts_owner_false {S} (sender owner : principal) (e : N) (s : S) :
  sender ≠ owner → asserts (bool_decide (sender = owner)) e s = (Thrown e, s).
Proof. intros H. unfold asserts. by rewrite bool_decide_eq_false_2. Qed.

Lemma asserts_owner_true {S} (owner : principal) (e : N) (s : S) :
  asserts (bool_decide (owner = owner)) e s = (Val true, s).
Proof. unfold asserts. by rewrite bool_decide_eq_true_2. Qed.

Ltac admin_solve :=
  intros; subst;
  rewrite ?asserts_owner_true; rewrite ?asserts_owner_false by done;
  unfold asserts; simpl;
  repeat match goal with
  | |- context [0 <? ?v] => destruct (N.ltb_spec 0 v); try lia
  end;
  simpl; rewrite ?rollback_same by done; repeat split; done.

(** C9. In both contracts every setter called by anyone but
    [CONTRACT-OWNER] fails with [ERR-NOT-AUTHORIZED] and changes nothing.
    Called by the owner, [set-points-per-checkin] and (second contract)
    [set-fee-amount] fail with [ERR-INVALID-AMOUNT] on 0 and change nothing,
    and otherwise store the value; [set-streak-bonus] stores any value,
    0 included. *)
Theorem C9_admin_setters :
  (∀ owner sender v w,
     let points := call_public (V1.set_points_per_checkin owner sender v) w in
     let bonus := call_public (V1.set_streak_bonus owner sender v) w in
     (sender ≠ owner →
      points = (Reverted V1.ERR_NOT_AUTHORIZED, w) ∧
      bonus = (Reverted V1.ERR_NOT_AUTHORIZED, w)) ∧
     (sender = owner → v = 0 → points = (Reverted V1.ERR_INVALID_AMOUNT, w)) ∧
     (sender = owner → v ≠ 0 →
      fst points = Committed v ∧
      V1.points_per_checkin (data (snd points)) = v) ∧
     (sender = owner →
      fst bonus = Committed v ∧ V1.streak_bonus (data (snd bonus)) = v))
  ∧
  (∀ owner sender v w,
     let points := call_public (V2.set_points_per_checkin owner sender v) w in
     let bonus := call_public (V2.set_streak_bonus owner sender v) w in
     let fee := call_public (V2.set_fee_amount owner sender v) w in
     (sender ≠ owner →
      points = (Reverted V2.ERR_NOT_AUTHORIZED, w) ∧
      bonus = (Reverted V2.ERR_NOT_AUTHORIZED, w) ∧
      fee = (Reverted V2.ERR_NOT_AUTHORIZED, w)) ∧
     (sender = owner → v = 0 →
      points = (Reverted V2.ERR_INVALID_AMOUNT, w) ∧
      fee = (Reverted V2.ERR_INVALID_AMOUNT, w)) ∧
     (sender = owner → v ≠ 0 →
      fst points = Committed v ∧
      V2.points_per_checkin (data (snd points)) = v ∧
      fst fee = Committed v ∧
      V2.fee_amount (data (snd fee)) = v) ∧
     (sender = owner →
      fst bonus = Committed v ∧ V2.streak_bonus (data (snd bonus)) = v)).
Proof.
  split.
  - intros owner sender v w. cbv zeta.
    unfold call_public, V1.set_points_per_checkin, V1.set_streak_bonus, bind.
    split_and!; admin_solve.
  - intros owner sender v w. cbv zeta.
    unfold call_public, V2.set_points_per_checkin, V2.set_streak_bonus,
      V2.set_fee_amount, bind.
    split_and!; admin_solve.
Qed.

(** ** [V1]: the batch *)

Lemma map_cons_val {S A B} (f : A → M S B) x l s ys s' :
  map_ f (x :: l) s = (Val ys, s') →
  ∃ y s1 ys', f x s = (Val y, s1) ∧ map_ f l s1 = (Val ys', s') ∧ ys = y :: ys'.
Proof.
  intros H.
  change (map_ f (x :: l) s)
    with (bind (f x) (λ y, bind (map_ f l) (λ ys, ret (y :: ys))) s) in H.
  unfold bind at 1 in H.
  destruct (f x s) as [[y | e | ] s1] eqn:Hx; try discriminate.
  unfold bind, ret in H.
  destruct (map_ f l s1) as [[ys' | e | ] s2] eqn:Hl; try discriminate.
  simplify_eq. eauto 10.
Qed.

Lemma map_val_length {S A B} (f : A → M S B) l s ys s' :
  map_ f l s = (Val ys, s') → length ys = length l.
Proof.
  revert s ys. induction l as [| x l IH]; intros s ys H.
  - simpl in H. unfold ret in H. by simplify_eq.
  - apply map_cons_val in H as (y & s1 & ys' & _ & Hl & ->).
    simpl. f_equal. eauto.
Qed.

Lemma map_app_val {S A B} (f : A → M S B) l1 l2 s ys s' :
  map_ f (l1 ++ l2) s = (Val ys, s') →
  ∃ ys1 ys2 s1,
    map_ f l1 s = (Val ys1, s1) ∧ map_ f l2 s1 = (Val ys2, s') ∧
    ys = ys1 ++ ys2.
Proof.
  revert s ys. induction l1 as [| x l1 IH]; intros s ys H.
  - exists [], ys, s. simpl in *. eauto.
  - rewrite <- app_comm_cons in H.
    apply map_cons_val in H as (y & s1 & ys' & Hx & Hl & ->).
    apply IH in Hl as (ys1 & ys2 & s2 & H1 & H2 & ->).
    exists (y :: ys1), ys2, s2. split; [| done].
    simpl. unfold bind, ret. by rewrite Hx, H1.
Qed.

Section V1_batch.

Variable now : N.

(** One member of the batch either checks in or is turned away untouched. *)
Lemma V1_internal_cases u w x w1 :
  V1.check_in_internal now u w = (Val x, w1) →
  (∃ r, x = ok r ∧ V1.get_last_checkin u (data w1) = now ∧
        (V1.get_last_checkin u (data w) = 0 ∨
         144 ≤ now - V1.get_last_checkin u (data w)))
  ∨ (x = err V1.ERR_ALREADY_CHECKED_IN ∧ w1 = w ∧
     V1.get_last_checkin u (data w) ≠ 0 ∧
     now - V1.get_last_checkin u (data w) < 144).
Proof.
  intros H. destruct x as [r | e].
  - left. exists r. split; [done |].
    apply V1_check_in_internal_ok in H as (Hel & _ & _ & -> & _).
    split; [| destruct Hel as [? | [? ?]]; auto].
    unfold V1.get_last_checkin at 1. simpl. by rewrite lookup_insert_eq.
  - right. by apply V1_check_in_internal_err in H as (-> & -> & ? & _ & ?).
Qed.

(** It leaves the configuration, the chain and every other user alone. *)
Lemma V1_internal_frame u w x w1 :
  V1.check_in_internal now u w = (Val x, w1) →
  V1.points_per_checkin (data w1) = V1.points_per_checkin (data w) ∧
  V1.streak_bonus (data w1) = V1.streak_bonus (data w) ∧
  chain w1 = chain w ∧
  ∀ v, v ≠ u →
    V1.last_checkin (data w1) !! v = V1.last_checkin (data w) !! v ∧
    V1.user_points (data w1) !! v = V1.user_points (data w) !! v ∧
    V1.user_streak (data w1) !! v = V1.user_streak (data w) !! v ∧
    V1.user_total_checkins (data w1) !! v
      = V1.user_total_checkins (data w) !! v.
Proof.
  intros H. destruct x as [r | e].
  - apply V1_check_in_internal_ok in H as (_ & _ & _ & -> & ->).
    simpl. split_and!; try done. intros v Hv.
    by rewrite !lookup_insert_ne.
  - apply V1_check_in_internal_err in H as (_ & -> & _). done.
Qed.

(** A batch leaves the users it does not name alone. *)
Lemma V1_map_frame u l w rs w' :
  u ∉ l →
  map_ (V1.check_in_internal now) l w = (Val rs, w') →
  V1.last_checkin (data w') !! u = V1.last_checkin (data w) !! u ∧
  V1.user_points (data w') !! u = V1.user_points (data w) !! u ∧
  V1.user_streak (data w') !! u = V1.user_streak (data w) !! u ∧
  V1.user_total_checkins (data w') !! u = V1.user_total_checkins (data w) !! u.
Proof.
  revert w rs. induction l as [| v l IH]; intros w rs Hnot Hmap.
  - simpl in Hmap. unfold ret in Hmap. by simplify_eq.
  - apply map_cons_val in Hmap as (y & w1 & ys & Hv & Hl & ->).
    apply not_elem_of_cons in Hnot as [Hne Hnot].
    destruct (V1_internal_frame _ _ _ _ Hv) as (_ & _ & _ & Hframe).
    destruct (Hframe u Hne) as (E1 & E2 & E3 & E4).
    destruct (IH _ _ Hnot Hl) as (F1 & F2 & F3 & F4).
    split_and!; congruence.
Qed.

Hypothesis now_positive : 0 < now.

(** A user whose last check-in is the current block is turned away. *)
Lemma V1_internal_locked u w :
  V1.get_last_checkin u (data w) = now →
  V1.check_in_internal now u w = (Val (err V1.ERR_ALREADY_CHECKED_IN), w).
Proof.
  intros H. apply V1_check_in_internal_rejected; rewrite H; lia.
Qed.

(** ... and stays so for the rest of the batch. *)
Lemma V1_map_locked u l w rs w' :
  V1.get_last_checkin u (data w) = now →
  map_ (V1.check_in_internal now) l w = (Val rs, w') →
  V1.get_last_checkin u (data w') = now ∧
  V1.get_user_points u (data w') = V1.get_user_points u (data w) ∧
  ∀ i, l !! i = Some u → rs !! i = Some (err V1.ERR_ALREADY_CHECKED_IN).
Proof.
  revert w rs. induction l as [| v l IH]; intros w rs Hlast Hmap.
  - simpl in Hmap. unfold ret in Hmap. simplify_eq. done.
  - apply map_cons_val in Hmap as (y & w1 & ys & Hv & Hl & ->).
    destruct (decide (v = u)) as [-> | Hne].
    + rewrite V1_internal_locked in Hv by done.
      assert (y = err V1.ERR_ALREADY_CHECKED_IN ∧ w1 = w) as [-> ->]
        by (split; congruence).
      destruct (IH _ _ Hlast Hl) as (H1 & H2 & H3).
      split_and!; try done. intros [| i] Hi; simpl in *; eauto.
    + destruct (V1_internal_frame _ _ _ _ Hv) as (_ & _ & _ & Hframe).
      destruct (Hframe u) as (Hf1 & Hf2 & _); [done |].
      assert (V1.get_last_checkin u (data w1) = now) as Hlast1.
      { unfold V1.get_last_checkin in *. by rewrite Hf1. }
      destruct (IH _ _ Hlast1 Hl) as (H1 & H2 & H3).
      split_and!; try done.
      * rewrite H2. unfold V1.get_user_points. by rewrite Hf2.
      * intros [| i] Hi; simpl in *; [by simplify_eq | eauto].
Qed.

(** Every member of a batch that checks in earns the base points plus its
    new streak times the bonus, and ends the batch with exactly that much
    more. *)
Lemma V1_map_points l w rs w' i u r :
  map_ (V1.check_in_internal now) l w = (Val rs, w') →
  l !! i = Some u → rs !! i = Some (ok r) →
  V1.earned r
    = V1.points_per_checkin (data w) + V1.streak r * V1.streak_bonus (data w) ∧
  V1.get_user_points u (data w')
    = V1.get_user_points u (data w) + V1.earned r.
Proof.
  revert w rs i. induction l as [| v l IH]; intros w rs i Hmap Hi Hr.
  - done.
  - apply map_cons_val in Hmap as (y & w1 & ys & Hv & Hl & ->).
    destruct i as [| i]; simpl in *.
    + simplify_eq.
      pose proof (V1_check_in_internal_ok _ _ _ _ _ Hv)
        as (_ & -> & _ & Hd & _).
      assert (V1.get_last_checkin u (data w1) = now) as Hlast.
      { rewrite Hd. unfold V1.get_last_checkin. simpl.
        by rewrite lookup_insert_eq. }
      destruct (V1_map_locked _ _ _ _ _ Hlast Hl) as (_ & -> & _).
      simpl. split; [done |].
      rewrite Hd. unfold V1.get_user_points at 1. simpl.
      by rewrite lookup_insert_eq.
    + destruct (V1_internal_frame _ _ _ _ Hv) as (E1 & E2 & _ & Hframe).
      destruct (IH _ _ _ Hl Hi Hr) as (Hearned & Hpoints).
      rewrite E1, E2 in Hearned. split; [done |]. rewrite Hpoints. f_equal.
      destruct (decide (u = v)) as [-> | Hne].
      * destruct (V1_internal_cases _ _ _ _ Hv)
          as [(r0 & _ & Hlast & _) | (_ & -> & _)]; [| done].
        destruct (V1_map_locked _ _ _ _ _ Hlast Hl) as (_ & _ & Hlocked).
        rewrite (Hlocked _ Hi) in Hr. discriminate.
      * destruct (Hframe u Hne) as (_ & Hf2 & _).
        unfold V1.get_user_points. by rewrite Hf2.
Qed.

End V1_batch.

(** A committed [bulk-check-in] paid the fee once and mapped
    [check-in-internal] over the users. *)
Lemma V1_bulk_committed owner payer now users w rs w' :
  call_public (V1.bulk_check_in owner payer now users) w = (Committed rs, w') →
  ∃ w0, data w0 = data w ∧
        map_ (V1.check_in_internal now) users w0 = (Val rs, w').
Proof.
  intros H%call_public_committed.
  unfold V1.bulk_check_in in H.
  destruct (10 <? N.of_nat (length users)); [discriminate |].
  revert H. clarity_unfold.
  destruct (N.of_nat (length users) * V1.CHECKIN_FEE <=? UINT_MAX);
    [| discriminate].
  destruct (0 <? N.of_nat (length users)); [| discriminate].
  simpl.
  destruct (stx_check payer (N.of_nat (length users) * V1.CHECKIN_FEE) payer
              owner (chain w)) as [b | e]; [| discriminate].
  match goal with
  | |- context [map_ _ users ?w0] =>
      destruct (map_ (V1.check_in_internal now) users w0)
        as [[ys | e | ] w2] eqn:Hmap; intros H; simplify_eq;
      exists w0; split; [reflexivity | exact Hmap]
  end.
Qed.

(** ** C2: points earned *)

(** A user whose last check-in is the current block keeps its streak for the
    rest of the batch. *)
Lemma V1_map_locked_streak now u l w rs w' :
  0 < now →
  V1.get_last_checkin u (data w) = now →
  map_ (V1.check_in_internal now) l w = (Val rs, w') →
  V1.get_user_streak u (data w') = V1.get_user_streak u (data w).
Proof.
  intros Hnow. revert w rs. induction l as [| v l IH]; intros w rs Hlast Hmap.
  - simpl in Hmap. unfold ret in Hmap. by simplify_eq.
  - apply map_cons_val in Hmap as (y & w1 & ys & Hv & Hl & ->).
    destruct (decide (v = u)) as [-> | Hne].
    + rewrite (V1_internal_locked now Hnow) in Hv by done.
      assert (w1 = w) as -> by congruence. by eapply IH.
    + destruct (V1_internal_frame now _ _ _ _ Hv) as (_ & _ & _ & Hframe).
      destruct (Hframe u) as (Hf1 & _ & Hf3 & _); [done |].
      assert (V1.get_last_checkin u (data w1) = now) as Hlast1.
      { unfold V1.get_last_checkin in *. by rewrite Hf1. }
      rewrite (IH _ _ Hlast1 Hl). unfold V1.get_user_streak. by rewrite Hf3.
Qed.

(** The member of a batch that checks in does so from the record it had
    when the batch started: its receipt carries the streak given by the
    streak rule on that record, that streak is the one stored when the batch
    ends, and the total of the receipt is the old points plus the points
    earned. *)
Lemma V1_map_member now l w rs w' i u r :
  0 < now →
  map_ (V1.check_in_internal now) l w = (Val rs, w') →
  l !! i = Some u → rs !! i = Some (ok r) →
  V1.streak r
    = streak_rule 144 now (V1.get_last_checkin u (data w))
        (V1.get_user_streak u (data w)) ∧
  V1.get_user_streak u (data w') = V1.streak r ∧
  V1.total_points r = V1.get_user_points u (data w) + V1.earned r.
Proof.
  intros Hnow. revert w rs i.
  induction l as [| v l IH]; intros w rs i Hmap Hi Hr; [done |].
  apply map_cons_val in Hmap as (y & w1 & ys & Hv & Hl & ->).
  destruct i as [| i]; simpl in *.
  - assert (v = u) as -> by congruence.
    assert (y = ok r) as -> by congruence.
    pose proof (V1_check_in_internal_ok _ _ _ _ _ Hv)
      as (_ & -> & _ & Hd & _).
    assert (V1.get_last_checkin u (data w1) = now) as Hlast.
    { rewrite Hd. unfold V1.get_last_checkin. simpl.
      by rewrite lookup_insert_eq. }
    rewrite (V1_map_locked_streak now u _ _ _ _ Hnow Hlast Hl).
    simpl. split_and!; try done.
    rewrite Hd. unfold V1.get_user_streak at 1. simpl.
    by rewrite lookup_insert_eq.
  - destruct (IH _ _ _ Hl Hi Hr) as (Hrule & Hstored & Htotal).
    assert (V1.get_last_checkin u (data w1) = V1.get_last_checkin u (data w) ∧
            V1.get_user_streak u (data w1) = V1.get_user_streak u (data w) ∧
            V1.get_user_points u (data w1) = V1.get_user_points u (data w))
      as (E1 & E2 & E3).
    { destruct (decide (u = v)) as [-> | Hne].
      - destruct (V1_internal_cases now _ _ _ _ Hv)
          as [(r0 & _ & Hlast & _) | (_ & -> & _)]; [| done].
        destruct (V1_map_locked now Hnow _ _ _ _ _ Hlast Hl)
          as (_ & _ & Hlocked).
        rewrite (Hlocked _ Hi) in Hr. discriminate.
      - destruct (V1_internal_frame now _ _ _ _ Hv) as (_ & _ & _ & Hframe).
        destruct (Hframe u Hne) as (Hf1 & Hf2 & Hf3 & _).
        unfold V1.get_last_checkin, V1.get_user_streak, V1.get_user_points.
        by rewrite Hf1, Hf2, Hf3. }
    rewrite E1, E2 in Hrule. rewrite E3 in Htotal. done.
Qed.

(** C2. A committed [check-in] (either contract) computes the new streak by
    the streak rule from the caller's record, stores it and reports it, and
    earns [points-per-checkin + new-streak * streak-bonus], nothing
    subtracted and no ceiling; the caller's points grow by exactly that
    amount and the receipt reports the new total.  The same holds for every
    member of a committed [bulk-check-in] that checked in, between the start
    and the end of the batch (block heights start at 1). *)
Theorem C2_points_earned :
  (∀ owner user now w r w',
     call_public (V1.check_in owner user now) w = (Committed r, w') →
     let new_streak :=
       streak_rule V1.BLOCKS_PER_DAY now
         (V1.get_last_checkin user (data w)) (V1.get_user_streak user (data w)) in
     V1.streak r = new_streak ∧
     V1.get_user_streak user (data w') = new_streak ∧
     V1.earned r = V1.points_per_checkin (data w)
                   + new_streak * V1.streak_bonus (data w) ∧
     V1.get_user_points user (data w')
       = V1.get_user_points user (data w) + V1.earned r ∧
     V1.total_points r = V1.get_user_points user (data w'))
  ∧
  (∀ user now w r w',
     call_public (V2.check_in user now) w = (Committed r, w') →
     let new_streak :=
       streak_rule V2.BLOCKS_PER_DAY now
         (V2.get_last_checkin user (data w)) (V2.get_user_streak user (data w)) in
     V2.streak r = new_streak ∧
     V2.get_user_streak user (data w') = new_streak ∧
     V2.earned r = V2.points_per_checkin (data w)
                   + new_streak * V2.streak_bonus (data w) ∧
     V2.get_user_points user (data w')
       = V2.get_user_points user (data w) + V2.earned r ∧
     V2.total_points r = V2.get_user_points user (data w'))
  ∧
  (∀ owner payer now users w rs w' i u r,
     0 < now →
     call_public (V1.bulk_check_in owner payer now users) w
       = (Committed rs, w') →
     users !! i = Some u → rs !! i = Some (ok r) →
     let new_streak :=
       streak_rule V1.BLOCKS_PER_DAY now
         (V1.get_last_checkin u (data w)) (V1.get_user_streak u (data w)) in
     V1.streak r = new_streak ∧
     V1.get_user_streak u (data w') = new_streak ∧
     V1.earned r = V1.points_per_checkin (data w)
                   + new_streak * V1.streak_bonus (data w) ∧
     V1.get_user_points u (data w')
       = V1.get_user_points u (data w) + V1.earned r ∧
     V1.total_points r = V1.get_user_points u (data w')).
Proof.
  split_and!.
  - intros owner user now w r w' H%call_public_committed. cbv zeta.
    apply V1_check_in_ok in H as (_ & _ & -> & _ & Hd & _).
    assert (V1.get_user_streak user (data w')
            = streak_rule 144 now (V1.get_last_checkin user (data w))
                (V1.get_user_streak user (data w))) as Hs.
    { unfold V1.get_user_streak at 1. rewrite Hd. simpl.
      by rewrite lookup_insert_eq. }
    assert (V1.get_user_points user (data w')
            = V1.get_user_points user (data w)
              + (V1.points_per_checkin (data w)
                 + streak_rule 144 now (V1.get_last_checkin user (data w))
                     (V1.get_user_streak user (data w))
                   * V1.streak_bonus (data w))) as Hp.
    { unfold V1.get_user_points at 1. rewrite Hd. simpl.
      by rewrite lookup_insert_eq. }
    rewrite Hs, Hp. unfold V1.BLOCKS_PER_DAY. simpl. done.
  - intros user now w r w' H%call_public_committed. cbv zeta.
    apply V2_check_in_ok in H as (_ & _ & -> & _ & Hd & _).
    assert (V2.get_user_streak user (data w')
            = streak_rule 144 now (V2.get_last_checkin user (data w))
                (V2.get_user_streak user (data w))) as Hs.
    { unfold V2.get_user_streak at 1. rewrite Hd. simpl.
      by rewrite lookup_insert_eq. }
    assert (V2.get_user_points user (data w')
            = V2.get_user_points user (data w)
              + (V2.points_per_checkin (data w)
                 + streak_rule 144 now (V2.get_last_checkin user (data w))
                     (V2.get_user_streak user (data w))
                   * V2.streak_bonus (data w))) as Hp.
    { unfold V2.get_user_points at 1. rewrite Hd. simpl.
      by rewrite lookup_insert_eq. }
    rewrite Hs, Hp. unfold V2.BLOCKS_PER_DAY. simpl. done.
  - intros owner payer now users w rs w' i u r Hnow Htx Hi Hr. cbv zeta.
    apply V1_bulk_committed in Htx as (w0 & Hd & Hmap).
    destruct (V1_map_points now Hnow _ _ _ _ _ _ _ Hmap Hi Hr)
      as (Hearned & Hpoints).
    destruct (V1_map_member now _ _ _ _ _ _ _ Hnow Hmap Hi Hr)
      as (Hrule & Hstored & Htotal).
    rewrite Hd in *. unfold V1.BLOCKS_PER_DAY.
    split_and!; try done.
    + by rewrite Hstored.
    + by rewrite <- Hrule.
    + by rewrite Hpoints.
Qed.

(** ** C8: a principal twice in one batch *)

(** C8. In a committed [bulk-check-in] at a block height of at least 1, a
    principal [u] that may check in and occurs a first time after [l1] and
    again after [l2] checks in at its first occurrence and is turned away
    with [ERR-ALREADY-CHECKED-IN] at the later one: the batch runs in order
    and the later occurrence sees the last check-in written by the first.
    After the batch [u] holds the points of exactly one check-in more. *)
Theorem C8_duplicate_principal_in_batch :
  ∀ owner payer now l1 u l2 l3 w rs w',
    0 < now →
    u ∉ l1 →
    V1.get_last_checkin u (data w) = 0 ∨
      V1.BLOCKS_PER_DAY ≤ now - V1.get_last_checkin u (data w) →
    call_public (V1.bulk_check_in owner payer now (l1 ++ u :: l2 ++ u :: l3)) w
      = (Committed rs, w') →
    ∃ r,
      rs !! length l1 = Some (ok r) ∧
      rs !! (length l1 + S (length l2))%nat
        = Some (err V1.ERR_ALREADY_CHECKED_IN) ∧
      V1.get_last_checkin u (data w') = now ∧
      V1.get_user_points u (data w')
        = V1.get_user_points u (data w) + V1.earned r.
Proof.
  intros owner payer now l1 u l2 l3 w rs w' Hnow Hnot Hel Htx.
  apply V1_bulk_committed in Htx as (w0 & Hd & Hmap).
  pose proof Hmap as Hall.
  apply map_app_val in Hmap as (ys1 & ys2 & wa & H1 & H2 & ->).
  pose proof (map_val_length _ _ _ _ _ H1) as Hlen.
  destruct (V1_map_frame now u _ _ _ _ Hnot H1) as (Elast & _).
  apply map_cons_val in H2 as (y & wb & ys & Hu & Hrest & ->).
  assert (V1.get_last_checkin u (data wa) = V1.get_last_checkin u (data w))
    as Hsame.
  { unfold V1.get_last_checkin. by rewrite Elast, Hd. }
  destruct (V1_internal_cases now _ _ _ _ Hu)
    as [(r & -> & Hlast & _) | (_ & _ & Hne & Hlt)].
  - destruct (V1_map_locked now Hnow _ _ _ _ _ Hlast Hrest)
      as (Hlast' & _ & Hlocked).
    assert ((ys1 ++ ok r :: ys) !! length l1 = Some (ok r)) as Hfirst.
    { rewrite lookup_app_r by lia. by rewrite Hlen, Nat.sub_diag. }
    exists r. split_and!; try done.
    + rewrite lookup_app_r by lia.
      replace (length l1 + S (length l2) - length ys1)%nat
        with (S (length l2)) by lia.
      simpl. apply Hlocked.
      rewrite lookup_app_r by lia. by rewrite Nat.sub_diag.
    + rewrite <- Hd.
      eapply (V1_map_points now Hnow _ _ _ _ (length l1) u r Hall);
        [| exact Hfirst].
      rewrite lookup_app_r by lia. by rewrite Nat.sub_diag.
  - rewrite Hsame in Hne, Hlt. unfold V1.BLOCKS_PER_DAY in Hel.
    destruct Hel; [done | lia].
Qed.

(** ** C7: the global counters *)

Lemma sum_values_empty : sum_values ∅ = 0.
Proof. unfold sum_values. by rewrite map_fold_empty. Qed.

Lemma sum_values_insert_fresh (m : gmap string N) k v :
  m !! k = None → sum_values (<[k := v]> m) = v + sum_values m.
Proof.
  intros H. unfold sum_values.
  rewrite map_fold_insert_L; [done | | done].
  intros. lia.
Qed.

Lemma sum_values_increment (m : gmap string N) k :
  sum_values (<[k := default 0 (m !! k) + 1]> m) = sum_values m + 1.
Proof.
  destruct (m !! k) as [x |] eqn:Hk; simpl.
  - rewrite <- insert_delete_eq.
    rewrite sum_values_insert_fresh by apply lookup_delete_eq.
    unfold sum_values at 2.
    rewrite (map_fold_delete_L _ _ k x m); [| intros; lia | done].
    fold (sum_values (delete k m)). lia.
  - rewrite sum_values_insert_fresh by done. lia.
Qed.

Lemma counters_inv_init : counters_inv 0 0 ∅ ∅.
Proof.
  unfold counters_inv. rewrite sum_values_empty, map_size_empty.
  split_and!; try done.
Qed.

(** The effect of one check-in on the four components keeps the invariant,
    as long as the block height is not the "never checked in" value 0. *)
Lemma counters_inv_step total uniq (last totals : gmap string N) u now :
  0 < now →
  counters_inv total uniq last totals →
  counters_inv (total + 1)
    (if default 0 (last !! u) =? 0 then uniq + 1 else uniq)
    (<[u := now]> last)
    (<[u := default 0 (totals !! u) + 1]> totals).
Proof.
  intros Hnow (I1 & I2 & I3 & I4). unfold counters_inv. split_and!.
  - rewrite sum_values_increment. lia.
  - rewrite map_size_insert.
    destruct (N.eqb_spec (default 0 (last !! u)) 0) as [H0 | H0].
    + apply I4 in H0. rewrite H0. simpl. lia.
    + destruct (totals !! u) eqn:Hu; [done |].
      apply I4 in Hu. done.
  - intros v x. destruct (decide (v = u)) as [-> | Hne].
    + rewrite lookup_insert_eq. intros [= <-]. lia.
    + rewrite lookup_insert_ne by done. apply I3.
  - intros v. destruct (decide (v = u)) as [-> | Hne].
    + rewrite !lookup_insert_eq. simpl. split; [lia | done].
    + rewrite !lookup_insert_ne by done. apply I4.
Qed.

Lemma counters_inv_consistent total uniq last totals :
  counters_inv total uniq last totals →
  total = sum_values totals ∧ uniq = N.of_nat (size (with_checkins totals)).
Proof.
  intros (I1 & I2 & I3 & _). split; [done |].
  unfold with_checkins. rewrite map_filter_id; [done |].
  intros i x Hi. simpl. eauto.
Qed.

Section V1_invariant.

Variable owner : principal.

Lemma V1_inv_check_in sender now w :
  0 < now → V1_inv (data w) →
  V1_inv (data (snd (call_public (V1.check_in owner sender now) w))).
Proof.
  intros Hnow Hinv. apply call_public_data; [| done].
  intros r w1 H. apply V1_check_in_ok in H as (_ & _ & _ & _ & -> & _).
  unfold V1_inv. simpl. by apply counters_inv_step.
Qed.

Lemma V1_inv_internal now u w x w1 :
  0 < now → V1_inv (data w) →
  V1.check_in_internal now u w = (Val x, w1) → V1_inv (data w1).
Proof.
  intros Hnow Hinv H. destruct x as [r | e].
  - apply V1_check_in_internal_ok in H as (_ & _ & _ & -> & _).
    unfold V1_inv. simpl. by apply counters_inv_step.
  - by apply V1_check_in_internal_err in H as (_ & -> & _).
Qed.

Lemma V1_inv_map now l w rs w' :
  0 < now → V1_inv (data w) →
  map_ (V1.check_in_internal now) l w = (Val rs, w') → V1_inv (data w').
Proof.
  intros Hnow. revert w rs. induction l as [| u l IH]; intros w rs Hinv Hmap.
  - simpl in Hmap. unfold ret in Hmap. by simplify_eq.
  - apply map_cons_val in Hmap as (y & w1 & ys & Hu & Hl & ->).
    eapply IH; [| exact Hl]. by eapply V1_inv_internal.
Qed.

Lemma V1_inv_bulk sender now users w :
  0 < now → V1_inv (data w) →
  V1_inv (data (snd (call_public (V1.bulk_check_in owner sender now users) w))).
Proof.
  intros Hnow Hinv. apply call_public_data; [| done].
  intros rs w1 H%call_public_committed.
  apply V1_bulk_committed in H as (w0 & Hd & Hmap).
  eapply V1_inv_map; [done | | exact Hmap]. by rewrite Hd.
Qed.

Lemma V1_inv_set_points sender v w :
  V1_inv (data w) →
  V1_inv (data (snd (call_public (V1.set_points_per_checkin owner sender v) w))).
Proof.
  intros Hinv. apply call_public_data; [| done].
  intros a w1 H. unfold V1.set_points_per_checkin, V1.var_set in H.
  clarity_unfold. flow_cases. done.
Qed.

Lemma V1_inv_set_bonus sender v w :
  V1_inv (data w) →
  V1_inv (data (snd (call_public (V1.set_streak_bonus owner sender v) w))).
Proof.
  intros Hinv. apply call_public_data; [| done].
  intros a w1 H. unfold V1.set_streak_bonus, V1.var_set in H.
  clarity_unfold. flow_cases. done.
Qed.

Lemma V1_inv_exec tx w :
  0 < V1.block_height tx → V1_inv (data w) → V1_inv (data (V1.exec owner tx w)).
Proof.
  intros Hnow Hinv. unfold V1.exec. destruct (V1.tx_call tx).
  - by apply V1_inv_check_in.
  - by apply V1_inv_bulk.
  - by apply V1_inv_set_points.
  - by apply V1_inv_set_bonus.
Qed.

Lemma V1_inv_run txs w :
  Forall (λ tx, 0 < V1.block_height tx) txs →
  V1_inv (data w) → V1_inv (data (V1.run owner txs w)).
Proof.
  unfold V1.run. revert w.
  induction txs as [| tx txs IH]; intros w Hall Hinv; simpl; [done |].
  apply Forall_cons in Hall as [Hnow Hall].
  apply IH; [done |]. by apply V1_inv_exec.
Qed.

End V1_invariant.

Section V2_invariant.

Variable owner : principal.

Lemma V2_inv_check_in sender now w :
  0 < now → V2_inv (data w) →
  V2_inv (data (snd (call_public (V2.check_in sender now) w))).
Proof.
  intros Hnow Hinv. apply call_public_data; [| done].
  intros r w1 H. apply V2_check_in_ok in H as (_ & _ & _ & _ & -> & _).
  unfold V2_inv. simpl. by apply counters_inv_step.
Qed.

Lemma V2_inv_exec tx w :
  0 < V2.block_height tx → V2_inv (data w) → V2_inv (data (V2.exec owner tx w)).
Proof.
  intros Hnow Hinv. unfold V2.exec. destruct (V2.tx_call tx).
  - by apply V2_inv_check_in.
  - apply call_public_data; [| done].
    intros a w1 H. unfold V2.set_points_per_checkin, V2.var_set in H.
    clarity_unfold. flow_cases. done.
  - apply call_public_data; [| done].
    intros a w1 H. unfold V2.set_streak_bonus, V2.var_set in H.
    clarity_unfold. flow_cases. done.
  - apply call_public_data; [| done].
    intros a w1 H. unfold V2.set_fee_amount, V2.var_set in H.
    clarity_unfold. flow_cases. done.
  - apply call_public_data; [| done].
    intros a w1 H. unfold V2.update_contract_deployer, V2.var_set in H.
    clarity_unfold. flow_cases. done.
Qed.

Lemma V2_inv_run txs w :
  Forall (λ tx, 0 < V2.block_height tx) txs →
  V2_inv (data w) → V2_inv (data (V2.run owner txs w)).
Proof.
  unfold V2.run. revert w.
  induction txs as [| tx txs IH]; intros w Hall Hinv; simpl; [done |].
  apply Forall_cons in Hall as [Hnow Hall].
  apply IH; [done |]. by apply V2_inv_exec.
Qed.

End V2_invariant.

(** C7. Starting from the freshly deployed contract, after any sequence of
    transactions (check-ins, batches, admin calls, committed or not) sent at
    block heights of at least 1, [total-checkins] is the sum of the per-user
    check-in counts and [unique-users] is the number of principals with at
    least one check-in.  Both contracts. *)
Theorem C7_global_counters_consistent :
  (∀ owner txs c,
     Forall (λ tx, 0 < V1.block_height tx) txs →
     V1.aggregate_consistent (data (V1.run owner txs (V1.deployed c))))
  ∧
  (∀ owner txs c,
     Forall (λ tx, 0 < V2.block_height tx) txs →
     V2.aggregate_consistent (data (V2.run owner txs (V2.deployed c)))).
Proof.
  split; intros owner txs c Hall.
  - unfold V1.aggregate_consistent. eapply counters_inv_consistent.
    apply (V1_inv_run owner txs (V1.deployed c) Hall).
    apply counters_inv_init.
  - unfold V2.aggregate_consistent. eapply counters_inv_consistent.
    apply (V2_inv_run owner txs (V2.deployed c) Hall).
    apply counters_inv_init.
Qed.

(** ** C4: a batch with a member that is turned away *)

Lemma V1_map_not_thrown now l w e w' :
  map_ (V1.check_in_internal now) l w ≠ (Thrown e, w').
Proof.
  revert w. induction l as [| u l IH]; intros w H.
  - simpl in H. unfold ret in H. discriminate.
  - change (map_ (V1.check_in_internal now) (u :: l) w)
      with (bind (V1.check_in_internal now u)
              (λ y, bind (map_ (V1.check_in_internal now) l)
                      (λ ys, ret (y :: ys))) w) in H.
    unfold bind at 1 in H.
    destruct (V1.check_in_internal now u w) as [[y | e0 | ] w1] eqn:Hu;
      try discriminate.
    + unfold bind, ret in H.
      destruct (map_ (V1.check_in_internal now) l w1) as [[ys | e1 | ] w2]
        eqn:Hl; try discriminate.
      simplify_eq. by eapply IH.
    + by apply V1_check_in_internal_not_thrown in Hu.
Qed.

(** How the body of [bulk-check-in] can end: it never returns [(err ..)] as
    a value, and the only short returns are the empty-batch check and a
    failed fee transfer. *)
Lemma V1_bulk_flow owner payer now users w f w1 :
  V1.bulk_check_in owner payer now users w = (f, w1) →
  match f with
  | Val (ok _) => True
  | Val (err _) => False
  | Thrown e => e = V1.ERR_INVALID_AMOUNT ∨ 1 ≤ e ≤ 4
  | RuntimeError => True
  end.
Proof.
  intros H. unfold V1.bulk_check_in in H.
  unfold mul, bind, asserts, try_, stx_transfer, ret, runtime_error in H.
  repeat case_match; simplify_eq; auto.
  - match goal with
    | Hmap : map_ _ _ _ = (Thrown _, _) |- _ =>
        by apply V1_map_not_thrown in Hmap
    end.
  - right. by eapply stx_check_err.
Qed.

(** Whatever the batch, [bulk-check-in] never fails with
    [ERR-ALREADY-CHECKED-IN]: the responses of the members are collected, not
    propagated. *)
Lemma V1_bulk_never_already_checked_in owner payer now users w :
  fst (call_public (V1.bulk_check_in owner payer now users) w)
    ≠ Reverted V1.ERR_ALREADY_CHECKED_IN.
Proof.
  destruct (call_public (V1.bulk_check_in owner payer now users) w)
    as [res w'] eqn:Htx.
  simpl. intros ->.
  apply call_public_reverted in Htx as (w1 & [H | H] & _);
    apply V1_bulk_flow in H; [done |].
  unfold V1.ERR_ALREADY_CHECKED_IN, V1.ERR_INVALID_AMOUNT in H. lia.
Qed.

(** C4, evaluated.  [wallet_1] has checked in at block 100; in the same block
    [wallet_4] sends the batch [wallet_1; wallet_2; wallet_3].  The call
    commits: it returns the list of the three responses, the first being
    [ERR-ALREADY-CHECKED-IN]; [wallet_2] and [wallet_3] keep their check-ins,
    the counters moved, and [wallet_4] paid for three. *)
Theorem C4_mixed_batch_commits :
  let before := snd Scenario.v1_first in
  let after := snd Scenario.v1_mixed_batch in
  fst Scenario.v1_mixed_batch =
    Committed
      [ err V1.ERR_ALREADY_CHECKED_IN;
        ok {| V1.earned := 110; V1.total_points := 110; V1.streak := 1;
              V1.receipt_total_checkins := 1 |};
        ok {| V1.earned := 110; V1.total_points := 110; V1.streak := 1;
              V1.receipt_total_checkins := 1 |} ] ∧
  V1.get_user_points Scenario.wallet_2 (data before) = 0 ∧
  V1.get_user_points Scenario.wallet_2 (data after) = 110 ∧
  V1.get_last_checkin Scenario.wallet_3 (data after) = 100 ∧
  V1.get_total_checkins (data before) = 1 ∧
  V1.get_total_checkins (data after) = 3 ∧
  V1.get_unique_users (data after) = 3 ∧
  balance_of (chain before) Scenario.wallet_4 = 1000000 ∧
  balance_of (chain after) Scenario.wallet_4 = 997000.
Proof. cbv zeta. split_and!; by vm_compute. Qed.

(** ** C5: the four check-ins of the scenario *)

(** C5, evaluated.  With 144 blocks per day, 100 points per check-in and a
    streak bonus of 10, a fresh user checking in at blocks 100, 100, 244 and
    532 gets: 110 earned (total 110, streak 1); [ERR-ALREADY-CHECKED-IN];
    120 earned (total 230, streak 2); 110 earned (total 340, streak 1).
    Both contracts. *)
Theorem C5_scenario_receipts :
  (fst Scenario.v1_first =
     Committed {| V1.earned := 110; V1.total_points := 110; V1.streak := 1;
                  V1.receipt_total_checkins := 1 |} ∧
   fst Scenario.v1_again = Reverted V1.ERR_ALREADY_CHECKED_IN ∧
   fst Scenario.v1_next_day =
     Committed {| V1.earned := 120; V1.total_points := 230; V1.streak := 2;
                  V1.receipt_total_checkins := 2 |} ∧
   fst Scenario.v1_two_days =
     Committed {| V1.earned := 110; V1.total_points := 340; V1.streak := 1;
                  V1.receipt_total_checkins := 3 |})
  ∧
  (fst Scenario.v2_first =
     Committed {| V2.earned := 110; V2.total_points := 110; V2.streak := 1;
                  V2.receipt_total_checkins := 1; V2.fee_paid := 1000 |} ∧
   fst Scenario.v2_again = Reverted V2.ERR_ALREADY_CHECKED_IN ∧
   fst Scenario.v2_next_day =
     Committed {| V2.earned := 120; V2.total_points := 230; V2.streak := 2;
                  V2.receipt_total_checkins := 2; V2.fee_paid := 1000 |} ∧
   fst Scenario.v2_two_days =
     Committed {| V2.earned := 110; V2.total_points := 340; V2.streak := 1;
                  V2.receipt_total_checkins := 3; V2.fee_paid := 1000 |}).
Proof. split_and!; by vm_compute. Qed.

(** ** C6: a fee transfer that fails *)

(** When the caller may check in but [stx-transfer?] fails, the transaction
    fails with the error code of [stx-transfer?] itself (1 to 4), never with
    [ERR-STX-TRANSFER-FAILED]; the contract data and the balances are those
    from before, and the one transfer attempted is the fee. *)
Lemma V1_fee_failure owner user now w e :
  let last := V1.get_last_checkin user (data w) in
  last = 0 ∨ (last ≤ now ∧ V1.BLOCKS_PER_DAY ≤ now - last) →
  stx_check user V1.CHECKIN_FEE user owner (chain w) = err e →
  let tx := call_public (V1.check_in owner user now) w in
  fst tx = Reverted e ∧ e ≠ V1.ERR_STX_TRANSFER_FAILED ∧
  data (snd tx) = data w ∧
  stx_balance (chain (snd tx)) = stx_balance (chain w) ∧
  stx_attempts (chain (snd tx)) = stx_attempts (chain w) ++
    [ {| call_amount := V1.CHECKIN_FEE; call_sender := user;
         call_recipient := owner |} ].
Proof.
  cbv zeta. intros Hel Hfee. unfold call_public.
  rewrite (V1_check_in_fee_failed owner user now w e Hel Hfee). simpl.
  split_and!; try done.
  apply stx_check_err in Hfee. unfold V1.ERR_STX_TRANSFER_FAILED. lia.
Qed.

Lemma V2_fee_failure user now w e :
  let d := data w in
  let last := V2.get_last_checkin user d in
  last = 0 ∨ (last ≤ now ∧ V2.BLOCKS_PER_DAY ≤ now - last) →
  stx_check user (V2.fee_amount d) user (V2.contract_deployer d) (chain w)
    = err e →
  let tx := call_public (V2.check_in user now) w in
  fst tx = Reverted e ∧ e ≠ V2.ERR_STX_TRANSFER_FAILED ∧
  data (snd tx) = data w ∧
  stx_balance (chain (snd tx)) = stx_balance (chain w) ∧
  stx_attempts (chain (snd tx)) = stx_attempts (chain w) ++
    [ {| call_amount := V2.fee_amount d; call_sender := user;
         call_recipient := V2.contract_deployer d |} ].
Proof.
  cbv zeta. intros Hel Hfee. unfold call_public.
  rewrite (V2_check_in_fee_failed user now w e Hel Hfee). simpl.
  split_and!; try done.
  apply stx_check_err in Hfee. unfold V2.ERR_STX_TRANSFER_FAILED. lia.
Qed.

(** C6, evaluated.  [wallet_1] holds 500 micro-STX and has never checked in;
    its [check-in] at block 100 attempts the fee transfer of 1000 and fails
    with [(err u1)], the code of [stx-transfer?] for an insufficient balance,
    not with [ERR-STX-TRANSFER-FAILED] (103).  Data and balances are
    unchanged.  Both contracts. *)
Theorem C6_unpaid_check_in_error_code :
  (fst Scenario.v1_unpaid = Reverted STX_NOT_ENOUGH_BALANCE ∧
   fst Scenario.v1_unpaid ≠ Reverted V1.ERR_STX_TRANSFER_FAILED ∧
   data (snd Scenario.v1_unpaid) = V1.initial ∧
   stx_balance (chain (snd Scenario.v1_unpaid))
     = stx_balance Scenario.short_of_funds ∧
   stx_attempts (chain (snd Scenario.v1_unpaid)) =
     [ {| call_amount := 1000; call_sender := Scenario.wallet_1;
          call_recipient := Scenario.deployer |} ])
  ∧
  (fst Scenario.v2_unpaid = Reverted STX_NOT_ENOUGH_BALANCE ∧
   fst Scenario.v2_unpaid ≠ Reverted V2.ERR_STX_TRANSFER_FAILED ∧
   data (snd Scenario.v2_unpaid) = V2.initial ∧
   stx_balance (chain (snd Scenario.v2_unpaid))
     = stx_balance Scenario.short_of_funds ∧
   stx_attempts (chain (snd Scenario.v2_unpaid)) =
     [ {| call_amount := 1000; call_sender := Scenario.wallet_1;
          call_recipient := V2.CONTRACT_DEPLOYER |} ]).
Proof. split_and!; by vm_compute. Qed.

(** ** The theorems at work on the concrete runs *)

Lemma C1_streak_witness :
  (call_public (V1.check_in Scenario.deployer Scenario.wallet_1 244)
     (snd Scenario.v1_again)
   = (Committed {| V1.earned := 120; V1.total_points := 230; V1.streak := 2;
                   V1.receipt_total_checkins := 2 |},
      snd Scenario.v1_next_day)
   ∧ V1.get_user_streak Scenario.wallet_1 (data (snd Scenario.v1_next_day)) = 2)
  ∧
  (call_public (V2.check_in Scenario.wallet_1 532) (snd Scenario.v2_next_day)
   = (Committed {| V2.earned := 110; V2.total_points := 340; V2.streak := 1;
                   V2.receipt_total_checkins := 3; V2.fee_paid := 1000 |},
      snd Scenario.v2_two_days)
   ∧ V2.get_user_streak Scenario.wallet_1 (data (snd Scenario.v2_two_days)) = 1).
Proof.
  split.
  - assert (call_public (V1.check_in Scenario.deployer Scenario.wallet_1 244)
              (snd Scenario.v1_again)
            = (Committed {| V1.earned := 120; V1.total_points := 230;
                            V1.streak := 2; V1.receipt_total_checkins := 2 |},
               snd Scenario.v1_next_day)) as H
      by (vm_compute; reflexivity).
    split; [exact H |].
    destruct (proj1 C1_streak_continue_or_reset _ _ _ _ _ _ H)
      as (_ & Hrule & _).
    rewrite Hrule; [vm_compute; reflexivity | vm_compute; discriminate].
  - assert (call_public (V2.check_in Scenario.wallet_1 532)
              (snd Scenario.v2_next_day)
            = (Committed {| V2.earned := 110; V2.total_points := 340;
                            V2.streak := 1; V2.receipt_total_checkins := 3;
                            V2.fee_paid := 1000 |},
               snd Scenario.v2_two_days)) as H
      by (vm_compute; reflexivity).
    split; [exact H |].
    destruct (proj2 C1_streak_continue_or_reset _ _ _ _ _ H)
      as (_ & _ & Hreset & _).
    apply Hreset; [vm_compute; discriminate | vm_compute; reflexivity].
Defined.

Lemma C2_points_witness :
  (call_public (V1.check_in Scenario.deployer Scenario.wallet_1 244)
     (snd Scenario.v1_again)
   = (Committed {| V1.earned := 120; V1.total_points := 230; V1.streak := 2;
                   V1.receipt_total_checkins := 2 |},
      snd Scenario.v1_next_day)
   ∧ V1.get_user_points Scenario.wallet_1 (data (snd Scenario.v1_next_day))
     = V1.get_user_points Scenario.wallet_1 (data (snd Scenario.v1_again)) + 120)
  ∧
  ((0 < 244 ∧
    call_public
      (V1.bulk_check_in Scenario.deployer Scenario.wallet_4 244
         [Scenario.wallet_1; Scenario.wallet_1; Scenario.wallet_2])
      (snd Scenario.v1_again)
    = (Committed
         [ ok {| V1.earned := 120; V1.total_points := 230; V1.streak := 2;
                 V1.receipt_total_checkins := 2 |};
           err 100;
           ok {| V1.earned := 110; V1.total_points := 110; V1.streak := 1;
                 V1.receipt_total_checkins := 1 |} ],
       snd (call_public
              (V1.bulk_check_in Scenario.deployer Scenario.wallet_4 244
                 [Scenario.wallet_1; Scenario.wallet_1; Scenario.wallet_2])
              (snd Scenario.v1_again))))
   ∧ V1.get_user_points Scenario.wallet_1
       (data (snd (call_public
                     (V1.bulk_check_in Scenario.deployer Scenario.wallet_4 244
                        [Scenario.wallet_1; Scenario.wallet_1; Scenario.wallet_2])
                     (snd Scenario.v1_again))))
     = V1.get_user_points Scenario.wallet_1 (data (snd Scenario.v1_again)) + 120
   ∧ V1.get_user_streak Scenario.wallet_1
       (data (snd (call_public
                     (V1.bulk_check_in Scenario.deployer Scenario.wallet_4 244
                        [Scenario.wallet_1; Scenario.wallet_1; Scenario.wallet_2])
                     (snd Scenario.v1_again))))
     = 2)
  ∧
  (call_public (V2.check_in Scenario.wallet_1 244) (snd Scenario.v2_again)
   = (Committed {| V2.earned := 120; V2.total_points := 230; V2.streak := 2;
                   V2.receipt_total_checkins := 2; V2.fee_paid := 1000 |},
      snd Scenario.v2_next_day)
   ∧ V2.get_user_points Scenario.wallet_1 (data (snd Scenario.v2_next_day))
     = V2.get_user_points Scenario.wallet_1 (data (snd Scenario.v2_again)) + 120
   ∧ V2.get_user_streak Scenario.wallet_1 (data (snd Scenario.v2_next_day)) = 2).
Proof.
  split; [| split].
  - assert (call_public (V1.check_in Scenario.deployer Scenario.wallet_1 244)
              (snd Scenario.v1_again)
            = (Committed {| V1.earned := 120; V1.total_points := 230;
                            V1.streak := 2; V1.receipt_total_checkins := 2 |},
               snd Scenario.v1_next_day)) as H
      by (vm_compute; reflexivity).
    split; [exact H |].
    destruct (proj1 C2_points_earned _ _ _ _ _ _ H) as (_ & _ & _ & Hpoints & _).
    exact Hpoints.
  - assert (call_public
              (V1.bulk_check_in Scenario.deployer Scenario.wallet_4 244
                 [Scenario.wallet_1; Scenario.wallet_1; Scenario.wallet_2])
              (snd Scenario.v1_again)
            = (Committed
                 [ ok {| V1.earned := 120; V1.total_points := 230;
                         V1.streak := 2; V1.receipt_total_checkins := 2 |};
                   err 100;
                   ok {| V1.earned := 110; V1.total_points := 110;
                         V1.streak := 1; V1.receipt_total_checkins := 1 |} ],
               snd (call_public
                      (V1.bulk_check_in Scenario.deployer Scenario.wallet_4 244
                         [Scenario.wallet_1; Scenario.wallet_1;
                          Scenario.wallet_2])
                      (snd Scenario.v1_again)))) as H
      by (vm_compute; reflexivity).
    assert (0 < 244) as Hnow by reflexivity.
    split; [exact (conj Hnow H) |].
    destruct (proj2 (proj2 C2_points_earned) _ _ _ _ _ _ _ 0%nat
                Scenario.wallet_1 _ Hnow H eq_refl eq_refl)
      as (Hstreak & Hstored & _ & Hpoints & _).
    split; [exact Hpoints |].
    rewrite Hstored, <- Hstreak. reflexivity.
  - assert (call_public (V2.check_in Scenario.wallet_1 244)
              (snd Scenario.v2_again)
            = (Committed {| V2.earned := 120; V2.total_points := 230;
                            V2.streak := 2; V2.receipt_total_checkins := 2;
                            V2.fee_paid := 1000 |},
               snd Scenario.v2_next_day)) as H
      by (vm_compute; reflexivity).
    split; [exact H |].
    destruct (proj1 (proj2 C2_points_earned) _ _ _ _ _ H)
      as (Hstreak & Hstored & _ & Hpoints & _).
    split; [exact Hpoints |].
    rewrite Hstored, <- Hstreak. reflexivity.
Defined.

Lemma C3_gate_witness :
  (V1.get_last_checkin Scenario.wallet_1 (data (snd Scenario.v1_first)) ≤ 100
   ∧ snd Scenario.v1_again = snd Scenario.v1_first)
  ∧
  (V2.get_last_checkin Scenario.wallet_1 (data (snd Scenario.v2_first)) ≤ 100
   ∧ snd Scenario.v2_again = snd Scenario.v2_first).
Proof.
  split.
  - assert (V1.get_last_checkin Scenario.wallet_1
              (data (snd Scenario.v1_first)) ≤ 100) as Hle
      by (vm_compute; discriminate).
    split; [exact Hle |].
    destruct (proj1 C3_already_checked_in_iff_within_window
                Scenario.deployer Scenario.wallet_1 100
                (snd Scenario.v1_first) Hle) as (_ & Hsame).
    apply Hsame. vm_compute. reflexivity.
  - assert (V2.get_last_checkin Scenario.wallet_1
              (data (snd Scenario.v2_first)) ≤ 100) as Hle
      by (vm_compute; discriminate).
    split; [exact Hle |].
    destruct (proj2 C3_already_checked_in_iff_within_window
                Scenario.wallet_1 100 (snd Scenario.v2_first) Hle)
      as (_ & Hsame).
    apply Hsame. vm_compute. reflexivity.
Defined.

Lemma C7_counters_witness :
  (Forall (λ tx, 0 < V1.block_height tx) Scenario.v1_history
   ∧ V1.aggregate_consistent
       (data (V1.run Scenario.deployer Scenario.v1_history Scenario.v1_start)))
  ∧
  (Forall (λ tx, 0 < V2.block_height tx) Scenario.v2_history
   ∧ V2.aggregate_consistent
       (data (V2.run Scenario.deployer Scenario.v2_history Scenario.v2_start))).
Proof.
  split.
  - assert (Forall (λ tx, 0 < V1.block_height tx) Scenario.v1_history) as H
      by (repeat constructor).
    split; [exact H |].
    exact (proj1 C7_global_counters_consistent Scenario.deployer
             Scenario.v1_history Scenario.funded H).
  - assert (Forall (λ tx, 0 < V2.block_height tx) Scenario.v2_history) as H
      by (repeat constructor).
    split; [exact H |].
    exact (proj2 C7_global_counters_consistent Scenario.deployer
             Scenario.v2_history Scenario.funded H).
Defined.

Lemma C8_duplicate_witness :
  (0 < 100 ∧
   (Scenario.wallet_1 ∉ @nil string) ∧
   (V1.get_last_checkin Scenario.wallet_1 (data Scenario.v1_start) = 0 ∨
    V1.BLOCKS_PER_DAY
      ≤ 100 - V1.get_last_checkin Scenario.wallet_1 (data Scenario.v1_start)) ∧
   call_public
     (V1.bulk_check_in Scenario.deployer Scenario.wallet_3 100
        ([] ++ Scenario.wallet_1 :: [] ++ Scenario.wallet_1 :: [Scenario.wallet_2]))
     Scenario.v1_start
   = (Committed
        [ ok {| V1.earned := 110; V1.total_points := 110; V1.streak := 1;
                V1.receipt_total_checkins := 1 |};
          err 100;
          ok {| V1.earned := 110; V1.total_points := 110; V1.streak := 1;
                V1.receipt_total_checkins := 1 |} ],
      snd Scenario.v1_duplicate_batch))
  ∧ V1.get_last_checkin Scenario.wallet_1
      (data (snd Scenario.v1_duplicate_batch)) = 100.
Proof.
  assert (0 < 100) as Hnow by reflexivity.
  assert (Scenario.wallet_1 ∉ @nil string) as Hnot by apply not_elem_of_nil.
  assert (V1.get_last_checkin Scenario.wallet_1 (data Scenario.v1_start) = 0 ∨
          V1.BLOCKS_PER_DAY
            ≤ 100 - V1.get_last_checkin Scenario.wallet_1
                      (data Scenario.v1_start)) as Hel
    by (left; vm_compute; reflexivity).
  assert (call_public
            (V1.bulk_check_in Scenario.deployer Scenario.wallet_3 100
               ([] ++ Scenario.wallet_1 :: [] ++ Scenario.wallet_1
                   :: [Scenario.wallet_2]))
            Scenario.v1_start
          = (Committed
               [ ok {| V1.earned := 110; V1.total_points := 110;
                       V1.streak := 1; V1.receipt_total_checkins := 1 |};
                 err 100;
                 ok {| V1.earned := 110; V1.total_points := 110;
                       V1.streak := 1; V1.receipt_total_checkins := 1 |} ],
             snd Scenario.v1_duplicate_batch)) as H
    by (vm_compute; reflexivity).
  split; [exact (conj Hnow (conj Hnot (conj Hel H))) |].
  destruct (C8_duplicate_principal_in_batch _ _ _ _ _ _ _ _ _ _
              Hnow Hnot Hel H) as (r & _ & _ & Hlast & _).
  exact Hlast.
Defined.

Lemma C9_admin_witness :
  (Scenario.wallet_1 ≠ Scenario.deployer
   ∧ call_public (V1.set_points_per_checkin Scenario.deployer Scenario.wallet_1 200)
       Scenario.v1_start
     = (Reverted V1.ERR_NOT_AUTHORIZED, Scenario.v1_start))
  ∧
  (Scenario.deployer = Scenario.deployer ∧ 5000 ≠ 0
   ∧ V2.fee_amount
       (data (snd (call_public
                     (V2.set_fee_amount Scenario.deployer Scenario.deployer 5000)
                     Scenario.v2_start))) = 5000).
Proof.
  split.
  - assert (Scenario.wallet_1 ≠ Scenario.deployer) as Hne by discriminate.
    split; [exact Hne |].
    destruct (proj1 C9_admin_setters Scenario.deployer Scenario.wallet_1 200
                Scenario.v1_start) as (Hguard & _).
    exact (proj1 (Hguard Hne)).
  - assert (5000 ≠ 0) as Hv by discriminate.
    split; [reflexivity |]. split; [exact Hv |].
    destruct (proj2 C9_admin_setters Scenario.deployer Scenario.deployer 5000
                Scenario.v2_start) as (_ & _ & Hset & _).
    destruct (Hset eq_refl Hv) as (_ & _ & _ & Hfee).
    exact Hfee.
Defined.


(** * Further properties of the contracts *)

(** ** Where the fee goes *)

Lemma stx_check_ok_inv tx amount s r c b :
  stx_check tx amount s r c = ok b →
  amount ≠ 0 ∧ s ≠ r ∧ s = tx ∧ amount ≤ balance_of c s.
Proof.
  unfold stx_check. intros H.
  destruct (N.eqb_spec amount 0); [discriminate |].
  destruct (bool_decide (s = r)) eqn:Hsr; [discriminate |].
  destruct (bool_decide (s = tx)) eqn:Hst; simpl in H; [| discriminate].
  destruct (N.ltb_spec (balance_of c s) amount); [discriminate |].
  apply bool_decide_eq_false in Hsr. apply bool_decide_eq_true in Hst.
  done.
Qed.

Lemma stx_move_balances amount s r (b : gmap string N) p :
  s ≠ r →
  default 0 (stx_move amount s r b !! p) =
    if bool_decide (p = r) then default 0 (b !! r) + amount
    else if bool_decide (p = s) then default 0 (b !! s) - amount
    else default 0 (b !! p).
Proof.
  intros Hsr. unfold stx_move. cbv zeta.
  destruct (decide (p = r)) as [-> | Hpr].
  - rewrite bool_decide_eq_true_2 by done.
    rewrite lookup_insert_eq. simpl.
    by rewrite lookup_insert_ne by done.
  - rewrite bool_decide_eq_false_2 by done.
    rewrite lookup_insert_ne by done.
    destruct (decide (p = s)) as [-> | Hps].
    + rewrite bool_decide_eq_true_2 by done. by rewrite lookup_insert_eq.
    + rewrite bool_decide_eq_false_2 by done. by rewrite lookup_insert_ne.
Qed.

(** X1. A committed [check-in] of the first contract was sent by someone
    other than [CONTRACT-OWNER] who held at least the fee; it took exactly
    [CHECKIN-FEE] from the caller, gave it to [CONTRACT-OWNER], left every
    other balance alone and evaluated [stx-transfer?] once. *)
Theorem X1_check_in_fee_goes_to_owner :
  ∀ owner user now w r w',
    call_public (V1.check_in owner user now) w = (Committed r, w') →
    user ≠ owner ∧
    V1.CHECKIN_FEE ≤ balance_of (chain w) user ∧
    balance_of (chain w') user = balance_of (chain w) user - V1.CHECKIN_FEE ∧
    balance_of (chain w') owner = balance_of (chain w) owner + V1.CHECKIN_FEE ∧
    (∀ p, p ≠ user → p ≠ owner →
          balance_of (chain w') p = balance_of (chain w) p) ∧
    stx_attempts (chain w') = stx_attempts (chain w) ++
      [ {| call_amount := V1.CHECKIN_FEE; call_sender := user;
           call_recipient := owner |} ].
Proof.
  intros owner user now w r w' H%call_public_committed.
  apply V1_check_in_ok in H as (_ & Hfee & _ & _ & _ & Hc).
  apply stx_check_ok_inv in Hfee as (_ & Hne & _ & Hbal).
  unfold balance_of in *. rewrite Hc. simpl.
  split_and!; try done.
  - rewrite stx_move_balances by done.
    rewrite bool_decide_eq_false_2 by done.
    by rewrite bool_decide_eq_true_2.
  - rewrite stx_move_balances by done.
    by rewrite bool_decide_eq_true_2.
  - intros p Hp1 Hp2. rewrite stx_move_balances by done.
    by rewrite !bool_decide_eq_false_2.
Qed.

(** X3. A committed [check-in] of the second contract charges the
    [fee-amount] in force: the receipt reports it, the caller's
    [user-fee-paid] grows by it, the caller's balance drops by it and the
    balance of the principal stored in [contract-deployer] grows by it. *)
Theorem X3_v2_check_in_fee_accounting :
  ∀ user now w r w',
    call_public (V2.check_in user now) w = (Committed r, w') →
    let fee := V2.get_fee_amount (data w) in
    let recipient := V2.get_contract_deployer (data w) in
    fee ≠ 0 ∧ user ≠ recipient ∧
    V2.fee_paid r = fee ∧
    V2.get_user_fee_paid user (data w')
      = V2.get_user_fee_paid user (data w) + fee ∧
    balance_of (chain w') user = balance_of (chain w) user - fee ∧
    balance_of (chain w') recipient = balance_of (chain w) recipient + fee ∧
    V2.get_fee_amount (data w') = fee ∧
    V2.get_contract_deployer (data w') = recipient.
Proof.
  intros user now w r w' H%call_public_committed. cbv zeta.
  apply V2_check_in_ok in H as (_ & Hfee & -> & _ & Hd & Hc).
  apply stx_check_ok_inv in Hfee as (Hpos & Hne & _ & Hbal).
  unfold balance_of, V2.get_fee_amount, V2.get_contract_deployer,
    V2.get_user_fee_paid in *.
  rewrite Hc, Hd. simpl.
  split_and!; try done.
  - by rewrite lookup_insert_eq.
  - rewrite stx_move_balances by done.
    rewrite bool_decide_eq_false_2 by done.
    by rewrite bool_decide_eq_true_2.
  - rewrite stx_move_balances by done.
    by rewrite bool_decide_eq_true_2.
Qed.

(** ** Who cannot check in, and with which codes a call fails *)

Lemma stx_check_err_inv tx amount r c e :
  stx_check tx amount tx r c = err e →
  (e = STX_NON_POSITIVE_AMOUNT ∧ amount = 0) ∨
  (e = STX_SENDER_IS_RECIPIENT ∧ amount ≠ 0 ∧ tx = r) ∨
  (e = STX_NOT_ENOUGH_BALANCE ∧ amount ≠ 0 ∧ tx ≠ r ∧ balance_of c tx < amount).
Proof.
  unfold stx_check. intros H.
  destruct (N.eqb_spec amount 0); [simplify_eq; auto |].
  destruct (bool_decide (tx = r)) eqn:Hsr.
  { apply bool_decide_eq_true in Hsr. simplify_eq. auto. }
  apply bool_decide_eq_false in Hsr.
  rewrite bool_decide_eq_true_2 in H by done. simpl in H.
  destruct (N.ltb_spec (balance_of c tx) amount); [| discriminate].
  simplify_eq. auto 10.
Qed.

(** A committed [bulk-check-in]: between 1 and 10 users, the fee for all of
    them moved from the sender to the owner, then [check-in-internal] mapped
    over the users. *)
Lemma V1_bulk_committed_fee owner payer now users w rs w' :
  call_public (V1.bulk_check_in owner payer now users) w = (Committed rs, w') →
  let fee_total := N.of_nat (length users) * V1.CHECKIN_FEE in
  (0 < length users ≤ 10)%nat ∧
  stx_check payer fee_total payer owner (chain w) = ok true ∧
  map_ (V1.check_in_internal now) users
    {| data := data w;
       chain :=
         {| stx_balance := stx_move fee_total payer owner (stx_balance (chain w));
            stx_attempts := stx_attempts (chain w) ++
              [ {| call_amount := fee_total; call_sender := payer;
                   call_recipient := owner |} ] |} |}
    = (Val rs, w').
Proof.
  intros H%call_public_committed. cbv zeta.
  unfold V1.bulk_check_in in H.
  destruct (N.ltb_spec 10 (N.of_nat (length users))); [discriminate |].
  revert H. clarity_unfold.
  destruct (N.of_nat (length users) * V1.CHECKIN_FEE <=? UINT_MAX);
    [| discriminate].
  destruct (N.ltb_spec 0 (N.of_nat (length users))); [| discriminate].
  simpl.
  destruct (stx_check payer (N.of_nat (length users) * V1.CHECKIN_FEE) payer
              owner (chain w)) as [b | e] eqn:Hfee; [| discriminate].
  pose proof (stx_check_ok _ _ _ _ _ _ Hfee) as ->.
  match goal with
  | |- context [map_ _ users ?w0] =>
      destruct (map_ (V1.check_in_internal now) users w0)
        as [[ys | e | ] w2] eqn:Hmap; intros H'; simplify_eq
  end.
  split_and!; try done; lia.
Qed.

(** In a batch of distinct users every member is judged on the record it had
    when the batch started. *)
Lemma V1_map_distinct now l w rs w' :
  NoDup l →
  map_ (V1.check_in_internal now) l w = (Val rs, w') →
  ∀ i u, l !! i = Some u →
    (V1.get_last_checkin u (data w) ≠ 0 ∧
     now - V1.get_last_checkin u (data w) < V1.BLOCKS_PER_DAY ∧
     rs !! i = Some (err V1.ERR_ALREADY_CHECKED_IN))
    ∨ ((V1.get_last_checkin u (data w) = 0 ∨
        V1.BLOCKS_PER_DAY ≤ now - V1.get_last_checkin u (data w)) ∧
       ∃ r, rs !! i = Some (ok r)).
Proof.
  revert w rs. induction l as [| v l IH]; intros w rs Hnd Hmap i u Hi; [done |].
  apply NoDup_cons in Hnd as [Hv Hnd].
  apply map_cons_val in Hmap as (y & w1 & ys & Hu & Hl & ->).
  destruct i as [| i]; simpl in Hi.
  - simplify_eq. unfold V1.BLOCKS_PER_DAY.
    destruct (V1_internal_cases now _ _ _ _ Hu)
      as [(r & -> & _ & Hel) | (-> & _ & Hne & Hlt)].
    + right. eauto.
    + left. done.
  - assert (u ≠ v) as Hne.
    { intros ->. apply Hv. by eapply list_elem_of_lookup_2. }
    destruct (V1_internal_frame now _ _ _ _ Hu) as (_ & _ & _ & Hframe).
    destruct (Hframe u Hne) as (Hlast & _).
    assert (V1.get_last_checkin u (data w1) = V1.get_last_checkin u (data w))
      as Hsame.
    { unfold V1.get_last_checkin. by rewrite Hlast. }
    rewrite <- Hsame. by apply (IH _ _ Hnd Hl).
Qed.

(** X2. A transaction sent by the principal who receives the fee never
    commits a check-in, because [stx-transfer?] refuses a transfer to
    oneself: in the first contract [CONTRACT-OWNER] as sender never commits
    a [check-in] nor a [bulk-check-in], and fails with [(err u2)] whenever
    the time gate lets it through; in the second contract, which has
    [check-in] only, the same holds for the principal currently stored in
    [contract-deployer].  Being named in someone else's batch is another
    matter: in a committed [bulk-check-in] of distinct users sent by another
    principal, [CONTRACT-OWNER] is checked in and earns points like anyone
    else when it may check in (block heights start at 1). *)
Theorem X2_fee_recipient_cannot_send_check_in :
  (∀ owner now w,
     (∀ r, fst (call_public (V1.check_in owner owner now) w) ≠ Committed r) ∧
     (V1.get_last_checkin owner (data w) = 0 →
      fst (call_public (V1.check_in owner owner now) w)
        = Reverted STX_SENDER_IS_RECIPIENT) ∧
     (∀ users rs,
        fst (call_public (V1.bulk_check_in owner owner now users) w)
          ≠ Committed rs) ∧
     (∀ payer users rs w' i,
        0 < now →
        NoDup users →
        call_public (V1.bulk_check_in owner payer now users) w
          = (Committed rs, w') →
        users !! i = Some owner →
        V1.get_last_checkin owner (data w) = 0 ∨
          V1.BLOCKS_PER_DAY ≤ now - V1.get_last_checkin owner (data w) →
        payer ≠ owner ∧
        ∃ r, rs !! i = Some (ok r) ∧
             V1.get_user_points owner (data w')
               = V1.get_user_points owner (data w) + V1.earned r))
  ∧
  (∀ now w,
     let deployer := V2.get_contract_deployer (data w) in
     (∀ r, fst (call_public (V2.check_in deployer now) w) ≠ Committed r) ∧
     (V2.get_last_checkin deployer (data w) = 0 →
      V2.get_fee_amount (data w) ≠ 0 →
      fst (call_public (V2.check_in deployer now) w)
        = Reverted STX_SENDER_IS_RECIPIENT)).
Proof.
  split.
  - intros owner now w. split_and!.
    + intros r Hr.
      destruct (call_public (V1.check_in owner owner now) w) as [res w'] eqn:H.
      simpl in Hr. subst res.
      apply call_public_committed, V1_check_in_ok in H as (_ & Hfee & _).
      apply stx_check_ok_inv in Hfee as (_ & Hne & _). done.
    + intros Hnew.
      assert (stx_check owner V1.CHECKIN_FEE owner owner (chain w)
              = err STX_SENDER_IS_RECIPIENT) as Hfee.
      { unfold stx_check. simpl. by rewrite bool_decide_eq_true_2. }
      unfold call_public.
      rewrite (V1_check_in_fee_failed owner owner now w _ (or_introl Hnew) Hfee).
      reflexivity.
    + intros users rs Hr.
      destruct (call_public (V1.bulk_check_in owner owner now users) w)
        as [res w'] eqn:H.
      simpl in Hr. subst res.
      apply V1_bulk_committed_fee in H as (_ & Hfee & _).
      apply stx_check_ok_inv in Hfee as (_ & Hne & _). done.
    + intros payer users rs w' i Hnow Hnd H Hi Hel.
      pose proof (V1_bulk_committed_fee _ _ _ _ _ _ _ H) as (_ & Hfee & _).
      apply stx_check_ok_inv in Hfee as (_ & Hne & _).
      split; [done |].
      apply V1_bulk_committed in H as (w0 & Hd & Hmap).
      destruct (V1_map_distinct now _ _ _ _ Hnd Hmap i owner Hi)
        as [(Hlast & Hlt & _) | (_ & r & Hr)].
      * rewrite Hd in *. destruct Hel; [done | lia].
      * exists r. split; [done |]. rewrite <- Hd.
        by eapply (V1_map_points now Hnow).
  - intros now w. cbv zeta. split.
    + intros r Hr.
      destruct (call_public (V2.check_in (V2.get_contract_deployer (data w)) now) w)
        as [res w'] eqn:H.
      simpl in Hr. subst res.
      apply call_public_committed, V2_check_in_ok in H as (_ & Hfee & _).
      apply stx_check_ok_inv in Hfee as (_ & Hne & _). done.
    + intros Hnew Hpos.
      assert (stx_check (V2.get_contract_deployer (data w))
                (V2.fee_amount (data w)) (V2.get_contract_deployer (data w))
                (V2.contract_deployer (data w)) (chain w)
              = err STX_SENDER_IS_RECIPIENT) as Hfee.
      { unfold stx_check, V2.get_fee_amount, V2.get_contract_deployer in *.
        destruct (N.eqb_spec (V2.fee_amount (data w)) 0); [done |].
        by rewrite bool_decide_eq_true_2. }
      unfold call_public.
      rewrite (V2_check_in_fee_failed _ now w _ (or_introl Hnew) Hfee).
      reflexivity.
Qed.

(** X4. The only error codes of a [check-in]: in the first contract
    [u100] (time gate), [u1] (caller cannot pay) and [u2] (caller is the
    owner); the second contract adds [u3], and only while [fee-amount] is 0.
    A [bulk-check-in] fails only with [u102] (empty list), [u1] or [u2].
    None of them ever fails with [ERR-NOT-AUTHORIZED] or
    [ERR-STX-TRANSFER-FAILED]. *)
Theorem X4_error_codes_of_check_in :
  (∀ owner user now w e,
     fst (call_public (V1.check_in owner user now) w) = Reverted e →
     e = V1.ERR_ALREADY_CHECKED_IN ∨
     (e = STX_NOT_ENOUGH_BALANCE ∧ balance_of (chain w) user < V1.CHECKIN_FEE) ∨
     (e = STX_SENDER_IS_RECIPIENT ∧ user = owner))
  ∧
  (∀ user now w e,
     fst (call_public (V2.check_in user now) w) = Reverted e →
     e = V2.ERR_ALREADY_CHECKED_IN ∨
     (e = STX_NOT_ENOUGH_BALANCE ∧
      balance_of (chain w) user < V2.get_fee_amount (data w)) ∨
     (e = STX_SENDER_IS_RECIPIENT ∧ user = V2.get_contract_deployer (data w)) ∨
     (e = STX_NON_POSITIVE_AMOUNT ∧ V2.get_fee_amount (data w) = 0))
  ∧
  (∀ owner payer now users w e,
     fst (call_public (V1.bulk_check_in owner payer now users) w) = Reverted e →
     (e = V1.ERR_INVALID_AMOUNT ∧ users = []) ∨
     (e = STX_NOT_ENOUGH_BALANCE ∧
      balance_of (chain w) payer < N.of_nat (length users) * V1.CHECKIN_FEE) ∨
     (e = STX_SENDER_IS_RECIPIENT ∧ payer = owner)).
Proof.
  split_and!.
  - intros owner user now w e He.
    destruct (call_public (V1.check_in owner user now) w) as [res w'] eqn:H.
    simpl in He. subst res.
    apply call_public_reverted in H as (w1 & [H | H] & _).
    { by apply V1_check_in_no_err_value in H. }
    apply V1_check_in_thrown in H as [(-> & _) | (_ & Hfee & _)]; [by left |].
    apply stx_check_err_inv in Hfee
      as [(_ & Hz) | [(-> & _ & ->) | (-> & _ & _ & Hlt)]]; auto.
    discriminate.
  - intros user now w e He.
    destruct (call_public (V2.check_in user now) w) as [res w'] eqn:H.
    simpl in He. subst res.
    apply call_public_reverted in H as (w1 & [H | H] & _).
    { by apply V2_check_in_no_err_value in H. }
    apply V2_check_in_thrown in H as [(-> & _) | (_ & Hfee & _)]; [by left |].
    unfold V2.get_fee_amount, V2.get_contract_deployer.
    apply stx_check_err_inv in Hfee
      as [(-> & Hz) | [(-> & _ & Heq) | (-> & _ & _ & Hlt)]]; auto 10.
  - intros owner payer now users w e He.
    destruct (call_public (V1.bulk_check_in owner payer now users) w)
      as [res w'] eqn:H.
    simpl in He. subst res.
    apply call_public_reverted in H as (w1 & H & _).
    assert (V1.bulk_check_in owner payer now users w = (Thrown e, w1)) as Ht.
    { destruct H as [H | H]; [by apply V1_bulk_flow in H | done]. }
    clear H. unfold V1.bulk_check_in in Ht.
    destruct (10 <? N.of_nat (length users)); [discriminate |].
    revert Ht. unfold mul, bind at 1 2 3, ret at 1, runtime_error, asserts, try_.
    destruct (N.of_nat (length users) * V1.CHECKIN_FEE <=? UINT_MAX);
      [| discriminate].
    destruct (N.ltb_spec 0 (N.of_nat (length users))).
    + unfold stx_transfer.
      destruct (stx_check payer (N.of_nat (length users) * V1.CHECKIN_FEE)
                  payer owner (chain w)) as [b | e0] eqn:Hfee.
      * unfold bind, ret. intros Ht. exfalso.
        repeat case_match; simplify_eq.
        match goal with
        | Hmap : map_ _ _ _ = (Thrown _, _) |- _ =>
            by apply V1_map_not_thrown in Hmap
        end.
      * intros Ht. simplify_eq.
        apply stx_check_err_inv in Hfee
          as [(_ & Hz) | [(-> & _ & ->) | (-> & _ & _ & Hlt)]]; auto.
        unfold V1.CHECKIN_FEE in Hz. lia.
    + intros Ht. simplify_eq. left. split; [done |].
      destruct users; [done | simpl in *; lia].
Qed.

(** ** The batch: what is charged and what is counted *)

Lemma count_ok_cons {A} (r : response A) rs :
  count_ok (r :: rs) = (if is_ok r then 1 else 0) + count_ok rs.
Proof. unfold count_ok. simpl. destruct (is_ok r); simpl; lia. Qed.

Lemma V1_map_totals now l w rs w' :
  map_ (V1.check_in_internal now) l w = (Val rs, w') →
  chain w' = chain w ∧
  V1.total_checkins (data w') = V1.total_checkins (data w) + count_ok rs.
Proof.
  revert w rs. induction l as [| u l IH]; intros w rs Hmap.
  - simpl in Hmap. unfold ret in Hmap. simplify_eq.
    unfold count_ok. simpl. split; [done | lia].
  - apply map_cons_val in Hmap as (y & w1 & ys & Hu & Hl & ->).
    destruct (IH _ _ Hl) as (Hc & Ht). rewrite Hc, Ht, count_ok_cons.
    destruct y as [r | e]; simpl.
    + apply V1_check_in_internal_ok in Hu as (_ & _ & _ & -> & ->).
      simpl. split; [done | lia].
    + apply V1_check_in_internal_err in Hu as (_ & -> & _).
      split; [done | lia].
Qed.

(** X5. A committed [bulk-check-in] names between 1 and 10 users and returns
    one response per user.  Its sender, who is not [CONTRACT-OWNER], paid
    [CHECKIN-FEE] for every user named, turned away or not, to
    [CONTRACT-OWNER]; no other balance moved; and [total-checkins] grew by
    the number of [(ok ..)] responses only. *)
Theorem X5_batch_fee_and_count :
  ∀ owner payer now users w rs w',
    call_public (V1.bulk_check_in owner payer now users) w = (Committed rs, w') →
    let fee_total := N.of_nat (length users) * V1.CHECKIN_FEE in
    (1 ≤ length users ≤ 10)%nat ∧
    length rs = length users ∧
    payer ≠ owner ∧
    balance_of (chain w') payer = balance_of (chain w) payer - fee_total ∧
    balance_of (chain w') owner = balance_of (chain w) owner + fee_total ∧
    (∀ p, p ≠ payer → p ≠ owner →
          balance_of (chain w') p = balance_of (chain w) p) ∧
    V1.get_total_checkins (data w')
      = V1.get_total_checkins (data w) + count_ok rs.
Proof.
  intros owner payer now users w rs w' H. cbv zeta.
  apply V1_bulk_committed_fee in H as (Hlen & Hfee & Hmap).
  apply stx_check_ok_inv in Hfee as (_ & Hne & _ & Hbal).
  pose proof (map_val_length _ _ _ _ _ Hmap) as Hl.
  apply V1_map_totals in Hmap as (Hc & Ht). simpl in Hc, Ht.
  unfold balance_of, V1.get_total_checkins. rewrite Hc. simpl.
  split_and!; try done; try lia.
  - rewrite stx_move_balances by done.
    rewrite bool_decide_eq_false_2 by done.
    by rewrite bool_decide_eq_true_2.
  - rewrite stx_move_balances by done.
    by rewrite bool_decide_eq_true_2.
  - intros p Hp1 Hp2. rewrite stx_move_balances by done.
    by rewrite !bool_decide_eq_false_2.
Qed.

(** X6. [bulk-check-in] on the empty list fails with [ERR-INVALID-AMOUNT]
    before any transfer is tried.  On a list of 1 to 10 users the fee for the
    whole list is collected first: when that transfer fails the call fails
    with the transfer's code and nobody is checked in, whoever could have
    been. *)
Theorem X6_batch_fails_before_any_member :
  (∀ owner payer now w,
     call_public (V1.bulk_check_in owner payer now []) w
       = (Reverted V1.ERR_INVALID_AMOUNT, w))
  ∧
  (∀ owner payer now users w e,
     (1 ≤ length users ≤ 10)%nat →
     stx_check payer (N.of_nat (length users) * V1.CHECKIN_FEE) payer owner
       (chain w) = err e →
     let tx := call_public (V1.bulk_check_in owner payer now users) w in
     fst tx = Reverted e ∧
     data (snd tx) = data w ∧
     stx_balance (chain (snd tx)) = stx_balance (chain w) ∧
     stx_attempts (chain (snd tx)) = stx_attempts (chain w) ++
       [ {| call_amount := N.of_nat (length users) * V1.CHECKIN_FEE;
            call_sender := payer; call_recipient := owner |} ]).
Proof.
  split.
  - intros owner payer now w. unfold call_public. simpl.
    by rewrite rollback_same.
  - intros owner payer now users w e Hlen Hfee. cbv zeta.
    assert (V1.bulk_check_in owner payer now users w =
            (Thrown e,
             {| data := data w;
                chain :=
                  {| stx_balance := stx_balance (chain w);
                     stx_attempts := stx_attempts (chain w) ++
                       [ {| call_amount := N.of_nat (length users) * V1.CHECKIN_FEE;
                            call_sender := payer; call_recipient := owner |} ]
                  |} |})) as Hbody.
    { unfold V1.bulk_check_in.
      destruct (N.ltb_spec 10 (N.of_nat (length users))); [lia |].
      unfold mul, bind, ret, asserts, try_.
      destruct (N.leb_spec (N.of_nat (length users) * V1.CHECKIN_FEE) UINT_MAX).
      2: { unfold V1.CHECKIN_FEE, UINT_MAX in *. simpl in *. lia. }
      destruct (N.ltb_spec 0 (N.of_nat (length users))); [| lia].
      unfold stx_transfer. by rewrite Hfee. }
    unfold call_public. rewrite Hbody. done.
Qed.

(** ** The second contract: fee amount and fee recipient *)

Lemma V2_set_fee_amount_owner owner v w :
  v ≠ 0 →
  call_public (V2.set_fee_amount owner owner v) w
    = (Committed v, with_data (V2.set_fee_amount_var v) w).
Proof.
  intros Hv. unfold call_public, V2.set_fee_amount, bind.
  rewrite asserts_owner_true. unfold asserts.
  destruct (N.ltb_spec 0 v); [done | lia].
Qed.

Lemma V2_update_contract_deployer_owner owner p w :
  call_public (V2.update_contract_deployer owner owner p) w
    = (Committed p, with_data (V2.set_contract_deployer_var p) w).
Proof.
  unfold call_public, V2.update_contract_deployer, bind.
  by rewrite asserts_owner_true.
Qed.

(** X7. Once the owner has set a fee [v] other than 0 with
    [set-fee-amount], the next committed [check-in] charges [v]: the receipt
    reports [v], the caller's [user-fee-paid] grows by [v] and the caller's
    balance drops by [v]. *)
Theorem X7_new_fee_applies_to_next_check_in :
  ∀ owner v w user now r w',
    v ≠ 0 →
    let w1 := snd (call_public (V2.set_fee_amount owner owner v) w) in
    call_public (V2.check_in user now) w1 = (Committed r, w') →
    V2.fee_paid r = v ∧
    V2.get_user_fee_paid user (data w')
      = V2.get_user_fee_paid user (data w) + v ∧
    balance_of (chain w') user = balance_of (chain w) user - v.
Proof.
  intros owner v w user now r w' Hv. cbv zeta.
  rewrite V2_set_fee_amount_owner by done. simpl.
  intros H%call_public_committed.
  apply V2_check_in_ok in H as (_ & Hfee & -> & _ & Hd & Hc).
  apply stx_check_ok_inv in Hfee as (_ & Hne & _).
  simpl in *. unfold balance_of, V2.get_user_fee_paid. rewrite Hc, Hd. simpl.
  split_and!; try done.
  - by rewrite lookup_insert_eq.
  - rewrite stx_move_balances by done.
    rewrite bool_decide_eq_false_2 by done.
    by rewrite bool_decide_eq_true_2.
Qed.

(** X8. [update-contract-deployer] is for [CONTRACT-OWNER] only: anyone
    else gets [ERR-NOT-AUTHORIZED] and nothing changes.  For the owner it
    redirects the fee, not the admin rights: the next committed [check-in]
    pays the new principal, while that principal, unless it is the owner,
    still cannot call [set-fee-amount]. *)
Theorem X8_update_contract_deployer :
  ∀ owner sender p w,
    let tx := call_public (V2.update_contract_deployer owner sender p) w in
    (sender ≠ owner → tx = (Reverted V2.ERR_NOT_AUTHORIZED, w)) ∧
    (sender = owner →
     fst tx = Committed p ∧
     V2.get_contract_deployer (data (snd tx)) = p ∧
     (p ≠ owner →
      ∀ v, call_public (V2.set_fee_amount owner p v) (snd tx)
           = (Reverted V2.ERR_NOT_AUTHORIZED, snd tx)) ∧
     (∀ user now r w',
        call_public (V2.check_in user now) (snd tx) = (Committed r, w') →
        balance_of (chain w') p
          = balance_of (chain w) p + V2.get_fee_amount (data w))).
Proof.
  intros owner sender p w. cbv zeta. split.
  - intros Hne. unfold call_public, V2.update_contract_deployer, bind.
    rewrite asserts_owner_false by done. by rewrite rollback_same.
  - intros ->. rewrite V2_update_contract_deployer_owner. simpl.
    split_and!; try done.
    + intros Hp v. unfold call_public, V2.set_fee_amount, bind.
      rewrite asserts_owner_false by done. by rewrite rollback_same.
    + intros user now r w' H%call_public_committed.
      apply V2_check_in_ok in H as (_ & Hfee & _ & _ & _ & Hc).
      apply stx_check_ok_inv in Hfee as (_ & Hne & _).
      simpl in *. unfold balance_of, V2.get_fee_amount. rewrite Hc. simpl.
      rewrite stx_move_balances by done.
      by rewrite bool_decide_eq_true_2.
Qed.

(** ** Reading back what a check-in wrote *)

Lemma V1_can_checkin_eval now user w :
  V1.can_checkin now user w =
    let last := V1.get_last_checkin user (data w) in
    if last =? 0 then (Val true, w)
    else if last <=? now then (Val (V1.BLOCKS_PER_DAY <=? now - last), w)
    else (RuntimeError, w).
Proof.
  unfold V1.can_checkin. clarity_unfold. cbv zeta.
  destruct (V1.get_last_checkin user (data w) =? 0); simpl; [done |].
  by destruct (V1.get_last_checkin user (data w) <=? now).
Qed.

Lemma V2_can_checkin_eval now user w :
  V2.can_checkin now user w =
    let last := V2.get_last_checkin user (data w) in
    if last =? 0 then (Val true, w)
    else if last <=? now then (Val (V2.BLOCKS_PER_DAY <=? now - last), w)
    else (RuntimeError, w).
Proof.
  unfold V2.can_checkin. clarity_unfold. cbv zeta.
  destruct (V2.get_last_checkin user (data w) =? 0); simpl; [done |].
  by destruct (V2.get_last_checkin user (data w) <=? now).
Qed.

(** X9. After a [check-in] committed at block height [now] (at least 1),
    [can-checkin] for the caller answers [false] at every height from [now]
    up to [now + 143] and [true] from [now + 144] on, and a second
    [check-in] at a height in the first range fails with
    [ERR-ALREADY-CHECKED-IN] and changes nothing.  Both contracts. *)
Theorem X9_locked_for_a_day_after_check_in :
  (∀ owner user now w r w',
     0 < now →
     call_public (V1.check_in owner user now) w = (Committed r, w') →
     (∀ later, now ≤ later →
        call_read_only (V1.can_checkin later user) w'
          = Some (now + V1.BLOCKS_PER_DAY <=? later)) ∧
     (∀ later, now ≤ later < now + V1.BLOCKS_PER_DAY →
        call_public (V1.check_in owner user later) w'
          = (Reverted V1.ERR_ALREADY_CHECKED_IN, w')))
  ∧
  (∀ user now w r w',
     0 < now →
     call_public (V2.check_in user now) w = (Committed r, w') →
     (∀ later, now ≤ later →
        call_read_only (V2.can_checkin later user) w'
          = Some (now + V2.BLOCKS_PER_DAY <=? later)) ∧
     (∀ later, now ≤ later < now + V2.BLOCKS_PER_DAY →
        call_public (V2.check_in user later) w'
          = (Reverted V2.ERR_ALREADY_CHECKED_IN, w'))).
Proof.
  split.
  - intros owner user now w r w' Hnow H%call_public_committed.
    apply V1_check_in_ok in H as (_ & _ & _ & _ & Hd & _).
    assert (V1.get_last_checkin user (data w') = now) as Hlast.
    { unfold V1.get_last_checkin. rewrite Hd. simpl.
      by rewrite lookup_insert_eq. }
    split.
    + intros later Hle. unfold call_read_only.
      rewrite V1_can_checkin_eval. cbv zeta. rewrite Hlast.
      destruct (N.eqb_spec now 0); [lia |].
      destruct (N.leb_spec now later); [| lia].
      f_equal. unfold V1.BLOCKS_PER_DAY.
      destruct (N.leb_spec 144 (later - now));
        destruct (N.leb_spec (now + 144) later); try done; lia.
    + intros later [Hle Hlt]. unfold call_public, V1.BLOCKS_PER_DAY in *.
      rewrite V1_check_in_rejected; rewrite ?Hlast; try lia.
      by rewrite rollback_same.
  - intros user now w r w' Hnow H%call_public_committed.
    apply V2_check_in_ok in H as (_ & _ & _ & _ & Hd & _).
    assert (V2.get_last_checkin user (data w') = now) as Hlast.
    { unfold V2.get_last_checkin. rewrite Hd. simpl.
      by rewrite lookup_insert_eq. }
    split.
    + intros later Hle. unfold call_read_only.
      rewrite V2_can_checkin_eval. cbv zeta. rewrite Hlast.
      destruct (N.eqb_spec now 0); [lia |].
      destruct (N.leb_spec now later); [| lia].
      f_equal. unfold V2.BLOCKS_PER_DAY.
      destruct (N.leb_spec 144 (later - now));
        destruct (N.leb_spec (now + 144) later); try done; lia.
    + intros later [Hle Hlt]. unfold call_public, V2.BLOCKS_PER_DAY in *.
      rewrite V2_check_in_rejected; rewrite ?Hlast; try lia.
      by rewrite rollback_same.
Qed.

(** X10. For a principal that has no entry in any map, [get-user-stats]
    returns 0 for every number and [can-checkin] true, at any block height
    and without a runtime error.  Both contracts. *)
Theorem X10_stats_of_unknown_user :
  (∀ now user w,
     V1.last_checkin (data w) !! user = None →
     V1.user_points (data w) !! user = None →
     V1.user_streak (data w) !! user = None →
     V1.user_total_checkins (data w) !! user = None →
     call_read_only (V1_readonly.get_user_stats now user) w =
       Some {| V1_readonly.points := 0; V1_readonly.streak := 0;
               V1_readonly.total_checkins := 0; V1_readonly.last_checkin := 0;
               V1_readonly.can_checkin := true |})
  ∧
  (∀ now user w,
     V2.last_checkin (data w) !! user = None →
     V2.user_points (data w) !! user = None →
     V2.user_streak (data w) !! user = None →
     V2.user_total_checkins (data w) !! user = None →
     V2.user_fee_paid (data w) !! user = None →
     call_read_only (V2_readonly.get_user_stats now user) w =
       Some {| V2_readonly.points := 0; V2_readonly.streak := 0;
               V2_readonly.total_checkins := 0; V2_readonly.last_checkin := 0;
               V2_readonly.fee_paid := 0; V2_readonly.can_checkin := true |}).
Proof.
  split.
  - intros now user w H1 H2 H3 H4.
    unfold call_read_only, V1_readonly.get_user_stats, bind, reads, ret.
    rewrite V1_can_checkin_eval. cbv zeta.
    unfold V1.get_last_checkin, V1.get_user_points, V1.get_user_streak,
      V1.get_user_total_checkins.
    by rewrite H1, H2, H3, H4.
  - intros now user w H1 H2 H3 H4 H5.
    unfold call_read_only, V2_readonly.get_user_stats, bind, reads, ret.
    rewrite V2_can_checkin_eval. cbv zeta.
    unfold V2.get_last_checkin, V2.get_user_points, V2.get_user_streak,
      V2.get_user_total_checkins, V2.get_user_fee_paid.
    by rewrite H1, H2, H3, H4, H5.
Qed.

(** X11. [get-user-stats] read at any height from the block of a committed
    [check-in] on (block height at least 1) returns the totals of the
    receipt: its points, streak and number of check-ins, the block of the
    check-in as [last-checkin], and [can-checkin] false until
    [BLOCKS-PER-DAY] blocks have passed; in the second contract also the fee
    paid so far.  Both contracts. *)
Theorem X11_stats_match_receipt :
  (∀ owner user now w r w' later,
     0 < now → now ≤ later →
     call_public (V1.check_in owner user now) w = (Committed r, w') →
     call_read_only (V1_readonly.get_user_stats later user) w' =
       Some {| V1_readonly.points := V1.total_points r;
               V1_readonly.streak := V1.streak r;
               V1_readonly.total_checkins := V1.receipt_total_checkins r;
               V1_readonly.last_checkin := now;
               V1_readonly.can_checkin := now + V1.BLOCKS_PER_DAY <=? later |})
  ∧
  (∀ user now w r w' later,
     0 < now → now ≤ later →
     call_public (V2.check_in user now) w = (Committed r, w') →
     call_read_only (V2_readonly.get_user_stats later user) w' =
       Some {| V2_readonly.points := V2.total_points r;
               V2_readonly.streak := V2.streak r;
               V2_readonly.total_checkins := V2.receipt_total_checkins r;
               V2_readonly.last_checkin := now;
               V2_readonly.fee_paid :=
                 V2.get_user_fee_paid user (data w) + V2.fee_paid r;
               V2_readonly.can_checkin := now + V2.BLOCKS_PER_DAY <=? later |}).
Proof.
  split.
  - intros owner user now w r w' later Hnow Hle H%call_public_committed.
    apply V1_check_in_ok in H as (_ & _ & -> & _ & Hd & _).
    unfold call_read_only, V1_readonly.get_user_stats, bind, reads, ret.
    rewrite V1_can_checkin_eval. cbv zeta.
    unfold V1.get_last_checkin, V1.get_user_points, V1.get_user_streak,
      V1.get_user_total_checkins.
    rewrite Hd. simpl. rewrite !lookup_insert_eq. simpl.
    destruct (N.eqb_spec now 0); [lia |].
    destruct (N.leb_spec now later); [| lia].
    do 2 f_equal. unfold V1.BLOCKS_PER_DAY.
    destruct (N.leb_spec 144 (later - now));
      destruct (N.leb_spec (now + 144) later); try done; lia.
  - intros user now w r w' later Hnow Hle H%call_public_committed.
    apply V2_check_in_ok in H as (_ & _ & -> & _ & Hd & _).
    unfold call_read_only, V2_readonly.get_user_stats, bind, reads, ret.
    rewrite V2_can_checkin_eval. cbv zeta.
    unfold V2.get_last_checkin, V2.get_user_points, V2.get_user_streak,
      V2.get_user_total_checkins, V2.get_user_fee_paid.
    rewrite Hd. simpl. rewrite !lookup_insert_eq. simpl.
    destruct (N.eqb_spec now 0); [lia |].
    destruct (N.leb_spec now later); [| lia].
    do 2 f_equal. unfold V2.BLOCKS_PER_DAY.
    destruct (N.leb_spec 144 (later - now));
      destruct (N.leb_spec (now + 144) later); try done; lia.
Qed.

(** ** What every transaction preserves *)

Lemma V1_run_ind owner (P : World V1.Data → Prop) :
  (∀ tx w, P w → P (V1.exec owner tx w)) →
  ∀ txs w, P w → P (V1.run owner txs w).
Proof.
  intros Hstep txs. unfold V1.run.
  induction txs as [| tx txs IH]; intros w Hw; simpl; auto.
Qed.

Lemma V2_run_ind owner (P : World V2.Data → Prop) :
  (∀ tx w, P w → P (V2.exec owner tx w)) →
  ∀ txs w, P w → P (V2.run owner txs w).
Proof.
  intros Hstep txs. unfold V2.run.
  induction txs as [| tx txs IH]; intros w Hw; simpl; auto.
Qed.

(** The worlds a transaction of the first contract can lead to. *)
Lemma V1_exec_cases owner tx w (P : World V1.Data → Prop) :
  (∀ w1, P (rollback w w1)) →
  (∀ user now r w1,
     V1.check_in owner user now w = (Val (ok r), w1) → P w1) →
  (∀ payer now users rs w1,
     call_public (V1.bulk_check_in owner payer now users) w = (Committed rs, w1) →
     P w1) →
  (∀ v, 0 < v → P (with_data (V1.set_points_per_checkin_var v) w)) →
  (∀ v, P (with_data (V1.set_streak_bonus_var v) w)) →
  P (V1.exec owner tx w).
Proof.
  intros Hback Hcheck Hbulk Hpoints Hbonus.
  unfold V1.exec. destruct (V1.tx_call tx) as [| users | v | v].
  - unfold call_public.
    destruct (V1.check_in owner (V1.tx_sender tx) (V1.block_height tx) w)
      as [[[r | e] | e | ] w1] eqn:H; simpl; eauto.
  - destruct (call_public (V1.bulk_check_in owner (V1.tx_sender tx)
                             (V1.block_height tx) users) w)
      as [[rs | e | ] w1] eqn:H; simpl.
    + eauto.
    + by apply call_public_reverted in H as (w2 & _ & ->).
    + unfold call_public in H. repeat case_match; simplify_eq. apply Hback.
  - unfold call_public, V1.set_points_per_checkin, V1.var_set, bind, asserts,
      modify, ret.
    destruct (bool_decide (V1.tx_sender tx = owner)); simpl; [| apply Hback].
    destruct (N.ltb_spec 0 v); simpl; [by apply Hpoints | apply Hback].
  - unfold call_public, V1.set_streak_bonus, V1.var_set, bind, asserts,
      modify, ret.
    destruct (bool_decide (V1.tx_sender tx = owner)); simpl;
      [apply Hbonus | apply Hback].
Qed.

(** The worlds a transaction of the second contract can lead to. *)
Lemma V2_exec_cases owner tx w (P : World V2.Data → Prop) :
  (∀ w1, P (rollback w w1)) →
  (∀ user now r w1, V2.check_in user now w = (Val (ok r), w1) → P w1) →
  (∀ v, 0 < v → P (with_data (V2.set_points_per_checkin_var v) w)) →
  (∀ v, P (with_data (V2.set_streak_bonus_var v) w)) →
  (∀ v, 0 < v → P (with_data (V2.set_fee_amount_var v) w)) →
  (∀ p, P (with_data (V2.set_contract_deployer_var p) w)) →
  P (V2.exec owner tx w).
Proof.
  intros Hback Hcheck Hpoints Hbonus Hfee Hdep.
  unfold V2.exec. destruct (V2.tx_call tx) as [| v | v | v | p].
  - unfold call_public.
    destruct (V2.check_in (V2.tx_sender tx) (V2.block_height tx) w)
      as [[[r | e] | e | ] w1] eqn:H; simpl; eauto.
  - unfold call_public, V2.set_points_per_checkin, V2.var_set, bind, asserts,
      modify, ret.
    destruct (bool_decide (V2.tx_sender tx = owner)); simpl; [| apply Hback].
    destruct (N.ltb_spec 0 v); simpl; [by apply Hpoints | apply Hback].
  - unfold call_public, V2.set_streak_bonus, V2.var_set, bind, asserts,
      modify, ret.
    destruct (bool_decide (V2.tx_sender tx = owner)); simpl;
      [apply Hbonus | apply Hback].
  - unfold call_public, V2.set_fee_amount, V2.var_set, bind, asserts,
      modify, ret.
    destruct (bool_decide (V2.tx_sender tx = owner)); simpl; [| apply Hback].
    destruct (N.ltb_spec 0 v); simpl; [by apply Hfee | apply Hback].
  - unfold call_public, V2.update_contract_deployer, V2.var_set, bind, asserts,
      modify, ret.
    destruct (bool_decide (V2.tx_sender tx = owner)); simpl;
      [apply Hdep | apply Hback].
Qed.

Lemma V1_map_ind now (P : V1.Data → Prop) :
  (∀ u w r w1,
     P (data w) → V1.check_in_internal now u w = (Val (ok r), w1) →
     P (data w1)) →
  ∀ l w rs w',
    P (data w) → map_ (V1.check_in_internal now) l w = (Val rs, w') →
    P (data w').
Proof.
  intros Hstep l. induction l as [| u l IH]; intros w rs w' Hw Hmap.
  - simpl in Hmap. unfold ret in Hmap. by simplify_eq.
  - apply map_cons_val in Hmap as (y & w1 & ys & Hu & Hl & ->).
    eapply IH; [| exact Hl].
    destruct y as [r | e]; [by eapply Hstep |].
    by apply V1_check_in_internal_err in Hu as (_ & -> & _).
Qed.

(** *** Counters only grow *)

Lemma V1_grows_refl d : V1_grows d d.
Proof. unfold V1_grows. by split_and!. Qed.

Lemma V1_grows_trans d1 d2 d3 : V1_grows d1 d2 → V1_grows d2 d3 → V1_grows d1 d3.
Proof.
  intros (A1 & A2 & A3) (B1 & B2 & B3). unfold V1_grows.
  split_and!; [lia | lia |].
  intros u. destruct (A3 u) as (? & ? & ?), (B3 u) as (? & ? & ?).
  split_and!; lia.
Qed.

Lemma V1_grows_record d user now pts ns :
  V1.get_last_checkin user d = 0 ∨ V1.get_last_checkin user d ≤ now →
  V1.get_user_points user d ≤ pts →
  V1_grows d
    {| V1.points_per_checkin := V1.points_per_checkin d;
       V1.streak_bonus := V1.streak_bonus d;
       V1.total_checkins := V1.total_checkins d + 1;
       V1.unique_users :=
         (if V1.get_last_checkin user d =? 0 then V1.unique_users d + 1
          else V1.unique_users d);
       V1.last_checkin := <[user := now]> (V1.last_checkin d);
       V1.user_points := <[user := pts]> (V1.user_points d);
       V1.user_streak := <[user := ns]> (V1.user_streak d);
       V1.user_total_checkins :=
         <[user := V1.get_user_total_checkins user d + 1]>
           (V1.user_total_checkins d) |}.
Proof.
  intros Hlast Hpts. unfold V1_grows. simpl. split_and!.
  - lia.
  - destruct (V1.get_last_checkin user d =? 0); lia.
  - intros u. unfold V1.get_last_checkin, V1.get_user_points,
      V1.get_user_total_checkins in *. simpl.
    destruct (decide (u = user)) as [-> | Hne].
    + rewrite !lookup_insert_eq. simpl. split_and!; lia.
    + rewrite !lookup_insert_ne by done. done.
Qed.

Lemma V1_grows_check_in owner user now w r w1 :
  V1.check_in owner user now w = (Val (ok r), w1) → V1_grows (data w) (data w1).
Proof.
  intros H. apply V1_check_in_ok in H as (Hel & _ & _ & _ & -> & _).
  apply V1_grows_record; [| lia]. destruct Hel as [? | [? ?]]; auto.
Qed.

Lemma V1_grows_internal now user w r w1 :
  V1.check_in_internal now user w = (Val (ok r), w1) →
  V1_grows (data w) (data w1).
Proof.
  intros H. apply V1_check_in_internal_ok in H as (Hel & _ & _ & -> & _).
  apply V1_grows_record; [| lia]. destruct Hel as [? | [? ?]]; auto.
Qed.

Lemma V1_grows_exec owner tx w : V1_grows (data w) (data (V1.exec owner tx w)).
Proof.
  apply (V1_exec_cases owner tx w (λ w', V1_grows (data w) (data w'))).
  - intros w1. apply V1_grows_refl.
  - intros user now r w1 H. by eapply V1_grows_check_in.
  - intros payer now users rs w1 H.
    apply V1_bulk_committed in H as (w0 & Hd & Hmap). rewrite <- Hd.
    eapply (V1_map_ind now (λ d', V1_grows (data w0) d'));
      [| apply V1_grows_refl | exact Hmap].
    intros u w2 r w3 Hw2 Hu. eapply V1_grows_trans; [exact Hw2 |].
    by eapply V1_grows_internal.
  - intros v _. unfold V1_grows, V1.get_last_checkin, V1.get_user_points,
      V1.get_user_total_checkins. simpl. by split_and!.
  - intros v. unfold V1_grows, V1.get_last_checkin, V1.get_user_points,
      V1.get_user_total_checkins. simpl. by split_and!.
Qed.

Lemma V2_grows_refl d : V2_grows d d.
Proof. unfold V2_grows. by split_and!. Qed.

Lemma V2_grows_trans d1 d2 d3 : V2_grows d1 d2 → V2_grows d2 d3 → V2_grows d1 d3.
Proof.
  intros (A1 & A2 & A3) (B1 & B2 & B3). unfold V2_grows.
  split_and!; [lia | lia |].
  intros u. destruct (A3 u) as (? & ? & ? & ?), (B3 u) as (? & ? & ? & ?).
  split_and!; lia.
Qed.

Lemma V2_grows_check_in user now w r w1 :
  V2.check_in user now w = (Val (ok r), w1) → V2_grows (data w) (data w1).
Proof.
  intros H. apply V2_check_in_ok in H as (Hel & _ & _ & _ & -> & _).
  unfold V2_grows. simpl. split_and!.
  - lia.
  - destruct (V2.get_last_checkin user (data w) =? 0); lia.
  - intros u. unfold V2.get_last_checkin, V2.get_user_points,
      V2.get_user_total_checkins, V2.get_user_fee_paid in *. simpl.
    destruct (decide (u = user)) as [-> | Hne].
    + rewrite !lookup_insert_eq. simpl.
      split_and!; lia.
    + rewrite !lookup_insert_ne by done. done.
Qed.

Lemma V2_grows_exec owner tx w : V2_grows (data w) (data (V2.exec owner tx w)).
Proof.
  apply (V2_exec_cases owner tx w (λ w', V2_grows (data w) (data w'))).
  - intros w1. apply V2_grows_refl.
  - intros user now r w1 H. by eapply V2_grows_check_in.
  - intros v _. unfold V2_grows, V2.get_last_checkin, V2.get_user_points,
      V2.get_user_total_checkins, V2.get_user_fee_paid. simpl. by split_and!.
  - intros v. unfold V2_grows, V2.get_last_checkin, V2.get_user_points,
      V2.get_user_total_checkins, V2.get_user_fee_paid. simpl. by split_and!.
  - intros v _. unfold V2_grows, V2.get_last_checkin, V2.get_user_points,
      V2.get_user_total_checkins, V2.get_user_fee_paid. simpl. by split_and!.
  - intros p. unfold V2_grows, V2.get_last_checkin, V2.get_user_points,
      V2.get_user_total_checkins, V2.get_user_fee_paid. simpl. by split_and!.
Qed.

(** X12. No transaction of either contract, committed or not, lowers a
    counter: over any sequence of transactions [total-checkins],
    [unique-users] and, for every user, the last check-in block, the points,
    the number of check-ins (and the fee paid, in the second contract) never
    decrease.  Only the streak can go down. *)
Theorem X12_counters_never_decrease :
  (∀ owner txs w, V1_grows (data w) (data (V1.run owner txs w)))
  ∧
  (∀ owner txs w, V2_grows (data w) (data (V2.run owner txs w))).
Proof.
  split.
  - intros owner txs w.
    apply (V1_run_ind owner (λ w', V1_grows (data w) (data w')));
      [| apply V1_grows_refl].
    intros tx w1 Hw1. eapply V1_grows_trans; [exact Hw1 |].
    apply V1_grows_exec.
  - intros owner txs w.
    apply (V2_run_ind owner (λ w', V2_grows (data w) (data w')));
      [| apply V2_grows_refl].
    intros tx w1 Hw1. eapply V2_grows_trans; [exact Hw1 |].
    apply V2_grows_exec.
Qed.

(** *** Streaks stay within bounds *)

Lemma streak_rule_bounds window now last current total :
  current ≤ total →
  1 ≤ streak_rule window now last current ≤ total + 1.
Proof.
  intros H. unfold streak_rule.
  destruct (negb (last =? 0) && (now - last <? window * 2)); lia.
Qed.

Lemma V1_streak_bounded_record d user now pts :
  V1_streak_bounded d →
  V1_streak_bounded
    {| V1.points_per_checkin := V1.points_per_checkin d;
       V1.streak_bonus := V1.streak_bonus d;
       V1.total_checkins := V1.total_checkins d + 1;
       V1.unique_users :=
         (if V1.get_last_checkin user d =? 0 then V1.unique_users d + 1
          else V1.unique_users d);
       V1.last_checkin := <[user := now]> (V1.last_checkin d);
       V1.user_points := <[user := pts]> (V1.user_points d);
       V1.user_streak :=
         <[user := streak_rule 144 now (V1.get_last_checkin user d)
                     (V1.get_user_streak user d)]> (V1.user_streak d);
       V1.user_total_checkins :=
         <[user := V1.get_user_total_checkins user d + 1]>
           (V1.user_total_checkins d) |}.
Proof.
  intros Hd u. destruct (Hd u) as (Hle & Hone).
  destruct (decide (u = user)) as [-> | Hne].
  - pose proof (streak_rule_bounds 144 now (V1.get_last_checkin user d) _ _ Hle).
    unfold V1.get_user_streak, V1.get_user_total_checkins in *. simpl.
    rewrite !lookup_insert_eq. simpl.
    split; [lia | intros _; lia].
  - unfold V1.get_user_streak, V1.get_user_total_checkins in *. simpl.
    rewrite !lookup_insert_ne by done. done.
Qed.

Lemma V1_streak_bounded_exec owner tx w :
  V1_streak_bounded (data w) → V1_streak_bounded (data (V1.exec owner tx w)).
Proof.
  intros Hw.
  apply (V1_exec_cases owner tx w (λ w', V1_streak_bounded (data w')));
    try done.
  - intros user now r w1 H.
    apply V1_check_in_ok in H as (_ & _ & _ & _ & -> & _).
    by apply V1_streak_bounded_record.
  - intros payer now users rs w1 H.
    apply V1_bulk_committed in H as (w0 & Hd & Hmap).
    eapply (V1_map_ind now V1_streak_bounded); [| | exact Hmap].
    + intros u w2 r w3 Hw2 Hu.
      apply V1_check_in_internal_ok in Hu as (_ & _ & _ & -> & _).
      by apply V1_streak_bounded_record.
    + by rewrite Hd.
Qed.

Lemma V2_streak_bounded_exec owner tx w :
  V2_streak_bounded (data w) → V2_streak_bounded (data (V2.exec owner tx w)).
Proof.
  intros Hw.
  apply (V2_exec_cases owner tx w (λ w', V2_streak_bounded (data w')));
    try done.
  intros user now r w1 H.
  apply V2_check_in_ok in H as (_ & _ & _ & _ & -> & _).
  intros u. destruct (Hw u) as (Hle & Hone).
  destruct (decide (u = user)) as [-> | Hne].
  - pose proof (streak_rule_bounds 144 now
                  (V2.get_last_checkin user (data w)) _ _ Hle).
    unfold V2.get_user_streak, V2.get_user_total_checkins in *. simpl.
    rewrite !lookup_insert_eq. simpl.
    split; [lia | intros _; lia].
  - unfold V2.get_user_streak, V2.get_user_total_checkins in *. simpl.
    rewrite !lookup_insert_ne by done. done.
Qed.

(** X13. In every state the contracts can reach from deployment, a user's
    streak is at most that user's number of check-ins, and at least 1 as
    soon as the user has checked in once.  Both contracts. *)
Theorem X13_streak_between_one_and_check_ins :
  (∀ owner txs c,
     V1_streak_bounded (data (V1.run owner txs (V1.deployed c))))
  ∧
  (∀ owner txs c,
     V2_streak_bounded (data (V2.run owner txs (V2.deployed c)))).
Proof.
  split; intros owner txs c.
  - apply (V1_run_ind owner (λ w, V1_streak_bounded (data w))).
    + intros tx w. apply V1_streak_bounded_exec.
    + intros u. unfold V1.get_user_streak, V1.get_user_total_checkins. simpl.
      rewrite !lookup_empty. simpl. split; [lia | done].
  - apply (V2_run_ind owner (λ w, V2_streak_bounded (data w))).
    + intros tx w. apply V2_streak_bounded_exec.
    + intros u. unfold V2.get_user_streak, V2.get_user_total_checkins. simpl.
      rewrite !lookup_empty. simpl. split; [lia | done].
Qed.

(** *** The configuration stays positive *)

Lemma V1_points_positive_exec owner tx w :
  0 < V1.points_per_checkin (data w) →
  0 < V1.points_per_checkin (data (V1.exec owner tx w)).
Proof.
  intros Hw.
  apply (V1_exec_cases owner tx w (λ w', 0 < V1.points_per_checkin (data w')));
    try done.
  - intros user now r w1 H.
    by apply V1_check_in_ok in H as (_ & _ & _ & _ & -> & _).
  - intros payer now users rs w1 H.
    apply V1_bulk_committed in H as (w0 & Hd & Hmap).
    eapply (V1_map_ind now (λ d, 0 < V1.points_per_checkin d));
      [| | exact Hmap].
    + intros u w2 r w3 Hw2 Hu.
      by apply V1_check_in_internal_ok in Hu as (_ & _ & _ & -> & _).
    + by rewrite Hd.
Qed.

Lemma V2_config_positive_exec owner tx w :
  0 < V2.points_per_checkin (data w) ∧ 0 < V2.fee_amount (data w) →
  0 < V2.points_per_checkin (data (V2.exec owner tx w)) ∧
  0 < V2.fee_amount (data (V2.exec owner tx w)).
Proof.
  intros [Hp Hf].
  apply (V2_exec_cases owner tx w
           (λ w', 0 < V2.points_per_checkin (data w') ∧
                  0 < V2.fee_amount (data w'))); try done.
  intros user now r w1 H.
  by apply V2_check_in_ok in H as (_ & _ & _ & _ & -> & _).
Qed.

(** X14. In every state reachable from deployment [points-per-checkin] is
    above 0 in both contracts and [fee-amount] is above 0 in the second, so
    that there a [check-in] never fails with the code of [stx-transfer?] for
    a zero amount, [(err u3)]. *)
Theorem X14_configuration_stays_positive :
  (∀ owner txs c,
     0 < V1.get_points_per_checkin (data (V1.run owner txs (V1.deployed c))))
  ∧
  (∀ owner txs c,
     let w := V2.run owner txs (V2.deployed c) in
     0 < V2.get_points_per_checkin (data w) ∧
     0 < V2.get_fee_amount (data w) ∧
     ∀ user now,
       fst (call_public (V2.check_in user now) w)
         ≠ Reverted STX_NON_POSITIVE_AMOUNT).
Proof.
  split.
  - intros owner txs c. unfold V1.get_points_per_checkin.
    apply (V1_run_ind owner (λ w, 0 < V1.points_per_checkin (data w)));
      [| done].
    intros tx w. apply V1_points_positive_exec.
  - intros owner txs c. cbv zeta.
    unfold V2.get_points_per_checkin, V2.get_fee_amount.
    assert (0 < V2.points_per_checkin (data (V2.run owner txs (V2.deployed c))) ∧
            0 < V2.fee_amount (data (V2.run owner txs (V2.deployed c))))
      as [Hp Hf].
    { apply (V2_run_ind owner
               (λ w, 0 < V2.points_per_checkin (data w) ∧
                     0 < V2.fee_amount (data w))); [| done].
      intros tx w. apply V2_config_positive_exec. }
    split_and!; try done.
    intros user now He.
    destruct (call_public (V2.check_in user now)
                (V2.run owner txs (V2.deployed c))) as [res w'] eqn:H.
    simpl in He. subst res.
    apply call_public_reverted in H as (w1 & [H | H] & _).
    { by apply V2_check_in_no_err_value in H. }
    apply V2_check_in_thrown in H as [(He & _) | (_ & Hfee & _)];
      [discriminate |].
    apply stx_check_err_inv in Hfee
      as [(_ & Hz) | [(He & _) | (He & _)]]; try discriminate.
    lia.
Qed.

(** *** What the owner has received *)

Lemma count_ok_le_length {A} (rs : list (response A)) :
  count_ok rs ≤ N.of_nat (length rs).
Proof.
  unfold count_ok. pose proof (List.filter_length_le is_ok rs). lia.
Qed.

(** X15. In the first contract [CONTRACT-OWNER] has received at least
    [CHECKIN-FEE] for every check-in counted in [total-checkins]: after any
    sequence of transactions from deployment its balance is at least its
    balance at deployment plus [CHECKIN-FEE * total-checkins]. *)
Theorem X15_owner_paid_for_every_check_in :
  ∀ owner txs c,
    let w := V1.run owner txs (V1.deployed c) in
    balance_of c owner + V1.CHECKIN_FEE * V1.get_total_checkins (data w)
      ≤ balance_of (chain w) owner.
Proof.
  intros owner txs c. cbv zeta. unfold V1.get_total_checkins.
  apply (V1_run_ind owner
           (λ w, balance_of c owner + V1.CHECKIN_FEE * V1.total_checkins (data w)
                 ≤ balance_of (chain w) owner)).
  2: { simpl. lia. }
  intros tx w Hw.
  apply (V1_exec_cases owner tx w
           (λ w', balance_of c owner
                  + V1.CHECKIN_FEE * V1.total_checkins (data w')
                  ≤ balance_of (chain w') owner)); try done.
  - intros user now r w1 H.
    apply V1_check_in_ok in H as (_ & Hfee & _ & _ & -> & ->).
    apply stx_check_ok_inv in Hfee as (_ & Hne & _).
    unfold balance_of in *. simpl.
    rewrite stx_move_balances by done.
    rewrite bool_decide_eq_true_2 by done. lia.
  - intros payer now users rs w1 H.
    apply V1_bulk_committed_fee in H as (_ & Hfee & Hmap).
    apply stx_check_ok_inv in Hfee as (_ & Hne & _).
    pose proof (map_val_length _ _ _ _ _ Hmap) as Hlen.
    apply V1_map_totals in Hmap as (Hc & Ht). simpl in Hc, Ht.
    pose proof (count_ok_le_length rs) as Hcount.
    unfold balance_of in *. rewrite Hc, Ht. simpl.
    rewrite stx_move_balances by done.
    rewrite bool_decide_eq_true_2 by done.
    rewrite Hlen in Hcount. unfold V1.CHECKIN_FEE in *. lia.
Qed.

(** ** Batches of distinct users, and a batch of one *)

(** X16. In a committed [bulk-check-in] that names no user twice, the
    response for a user is [(ok ..)] exactly when that user could check in
    before the batch (never checked in, or at least [BLOCKS-PER-DAY] blocks
    ago), and [ERR-ALREADY-CHECKED-IN] otherwise; the other members make no
    difference. *)
Theorem X16_batch_of_distinct_users :
  ∀ owner payer now users w rs w' i u,
    NoDup users →
    call_public (V1.bulk_check_in owner payer now users) w = (Committed rs, w') →
    users !! i = Some u →
    let last := V1.get_last_checkin u (data w) in
    ((∃ r, rs !! i = Some (ok r)) ↔
     (last = 0 ∨ V1.BLOCKS_PER_DAY ≤ now - last)) ∧
    (rs !! i = Some (err V1.ERR_ALREADY_CHECKED_IN) ↔
     (last ≠ 0 ∧ now - last < V1.BLOCKS_PER_DAY)).
Proof.
  intros owner payer now users w rs w' i u Hnd H Hi. cbv zeta.
  apply V1_bulk_committed in H as (w0 & Hd & Hmap).
  destruct (V1_map_distinct now _ _ _ _ Hnd Hmap i u Hi)
    as [(Hne & Hlt & Hr) | (Hel & r & Hr)];
    rewrite Hd in *; rewrite Hr.
  - split; split.
    + intros (r & Hr'). discriminate.
    + intros [? | ?]; [done | lia].
    + done.
    + done.
  - split; split.
    + done.
    + eauto.
    + discriminate.
    + intros [? ?]. destruct Hel; [done | lia].
Qed.

(** X17. A batch of one is a check-in paid by someone else: when [u]'s own
    [check-in] commits and the [bulk-check-in] of the list [u] sent by
    [payer] in the same state and block commits too, the batch returns
    [u]'s receipt and leaves the same contract data; only the balances
    differ. *)
Theorem X17_batch_of_one_is_a_check_in :
  ∀ owner payer u now w r w1 rs w2,
    call_public (V1.check_in owner u now) w = (Committed r, w1) →
    call_public (V1.bulk_check_in owner payer now [u]) w = (Committed rs, w2) →
    rs = [ok r] ∧ data w2 = data w1.
Proof.
  intros owner payer u now w r w1 rs w2 H1%call_public_committed H2.
  apply V1_check_in_ok in H1 as (Hel & _ & -> & _ & -> & _).
  apply V1_bulk_committed in H2 as (w0 & Hd & Hmap).
  apply map_cons_val in Hmap as (y & w3 & ys & Hu & Hl & ->).
  simpl in Hl. unfold ret in Hl. simplify_eq.
  destruct y as [r' | e].
  - apply V1_check_in_internal_ok in Hu as (_ & -> & _ & -> & _).
    by rewrite Hd.
  - apply V1_check_in_internal_err in Hu as (_ & _ & Hne & _ & Hlt).
    rewrite Hd in *. destruct Hel as [? | [? ?]]; [done | lia].
Qed.

(** ** Configuration written and read back *)

Lemma V1_set_points_owner owner v w :
  v ≠ 0 →
  call_public (V1.set_points_per_checkin owner owner v) w
    = (Committed v, with_data (V1.set_points_per_checkin_var v) w).
Proof.
  intros Hv. unfold call_public, V1.set_points_per_checkin, bind.
  rewrite asserts_owner_true. unfold asserts.
  destruct (N.ltb_spec 0 v); [done | lia].
Qed.

Lemma V1_set_bonus_owner owner v w :
  call_public (V1.set_streak_bonus owner owner v) w
    = (Committed v, with_data (V1.set_streak_bonus_var v) w).
Proof.
  unfold call_public, V1.set_streak_bonus, bind.
  by rewrite asserts_owner_true.
Qed.

Lemma V2_set_points_owner owner v w :
  v ≠ 0 →
  call_public (V2.set_points_per_checkin owner owner v) w
    = (Committed v, with_data (V2.set_points_per_checkin_var v) w).
Proof.
  intros Hv. unfold call_public, V2.set_points_per_checkin, bind.
  rewrite asserts_owner_true. unfold asserts.
  destruct (N.ltb_spec 0 v); [done | lia].
Qed.

Lemma V2_set_bonus_owner owner v w :
  call_public (V2.set_streak_bonus owner owner v) w
    = (Committed v, with_data (V2.set_streak_bonus_var v) w).
Proof.
  unfold call_public, V2.set_streak_bonus, bind.
  by rewrite asserts_owner_true.
Qed.

(** X18. What the owner writes with the admin functions is what
    [get-global-stats] reports: after [set-points-per-checkin v] and
    [set-streak-bonus b] (and, in the second contract, [set-fee-amount f]
    and [update-contract-deployer p]) sent by [CONTRACT-OWNER], with [v] and
    [f] other than 0, the tuple holds [v], [b], [f] and [p], and the two
    counters are untouched. *)
Theorem X18_configuration_round_trip :
  (∀ owner h v b w,
     v ≠ 0 →
     let txs :=
       [ {| V1.tx_sender := owner; V1.block_height := h;
            V1.tx_call := V1.CallSetPointsPerCheckin v |};
         {| V1.tx_sender := owner; V1.block_height := h;
            V1.tx_call := V1.CallSetStreakBonus b |} ] in
     call_read_only V1_readonly.get_global_stats (V1.run owner txs w) =
       Some {| V1_readonly.global_total_checkins := V1.get_total_checkins (data w);
               V1_readonly.global_unique_users := V1.get_unique_users (data w);
               V1_readonly.global_points_per_checkin := v;
               V1_readonly.global_streak_bonus := b |})
  ∧
  (∀ owner h v b f p w,
     v ≠ 0 → f ≠ 0 →
     let txs :=
       [ {| V2.tx_sender := owner; V2.block_height := h;
            V2.tx_call := V2.CallSetPointsPerCheckin v |};
         {| V2.tx_sender := owner; V2.block_height := h;
            V2.tx_call := V2.CallSetStreakBonus b |};
         {| V2.tx_sender := owner; V2.block_height := h;
            V2.tx_call := V2.CallSetFeeAmount f |};
         {| V2.tx_sender := owner; V2.block_height := h;
            V2.tx_call := V2.CallUpdateContractDeployer p |} ] in
     call_read_only V2_readonly.get_global_stats (V2.run owner txs w) =
       Some {| V2_readonly.global_total_checkins := V2.get_total_checkins (data w);
               V2_readonly.global_unique_users := V2.get_unique_users (data w);
               V2_readonly.global_points_per_checkin := v;
               V2_readonly.global_streak_bonus := b;
               V2_readonly.global_fee_amount := f;
               V2_readonly.global_contract_deployer := p |}).
Proof.
  split.
  - intros owner h v b w Hv. cbv zeta.
    unfold V1.run, V1.exec. simpl.
    rewrite V1_set_points_owner by done. simpl.
    rewrite V1_set_bonus_owner. reflexivity.
  - intros owner h v b f p w Hv Hf. cbv zeta.
    unfold V2.run, V2.exec. simpl.
    rewrite V2_set_points_owner by done. simpl.
    rewrite V2_set_bonus_owner. simpl.
    rewrite V2_set_fee_amount_owner by done. simpl.
    rewrite V2_update_contract_deployer_owner. reflexivity.
Qed.

(** ** The further properties at work on the concrete runs *)

Lemma X1_fee_witness :
  call_public (V1.check_in Scenario.deployer Scenario.wallet_1 100)
    Scenario.v1_start
  = (Committed {| V1.earned := 110; V1.total_points := 110; V1.streak := 1;
                  V1.receipt_total_checkins := 1 |},
     snd Scenario.v1_first)
  ∧ balance_of (chain (snd Scenario.v1_first)) Scenario.deployer
    = balance_of (chain Scenario.v1_start) Scenario.deployer + V1.CHECKIN_FEE.
Proof.
  assert (call_public (V1.check_in Scenario.deployer Scenario.wallet_1 100)
            Scenario.v1_start
          = (Committed {| V1.earned := 110; V1.total_points := 110;
                          V1.streak := 1; V1.receipt_total_checkins := 1 |},
             snd Scenario.v1_first)) as H
    by (vm_compute; reflexivity).
  split; [exact H |].
  destruct (X1_check_in_fee_goes_to_owner _ _ _ _ _ _ H)
    as (_ & _ & _ & Howner & _).
  exact Howner.
Defined.

Lemma X2_owner_witness :
  (V1.get_last_checkin Scenario.deployer (data Scenario.v1_start) = 0
   ∧ fst (call_public (V1.check_in Scenario.deployer Scenario.deployer 100)
            Scenario.v1_start)
     = Reverted STX_SENDER_IS_RECIPIENT)
  ∧
  ((0 < 100 ∧
    NoDup [Scenario.wallet_1; Scenario.deployer] ∧
    call_public
      (V1.bulk_check_in Scenario.deployer Scenario.wallet_4 100
         [Scenario.wallet_1; Scenario.deployer])
      Scenario.v1_start
    = (Committed
         [ ok {| V1.earned := 110; V1.total_points := 110; V1.streak := 1;
                 V1.receipt_total_checkins := 1 |};
           ok {| V1.earned := 110; V1.total_points := 110; V1.streak := 1;
                 V1.receipt_total_checkins := 1 |} ],
       snd (call_public
              (V1.bulk_check_in Scenario.deployer Scenario.wallet_4 100
                 [Scenario.wallet_1; Scenario.deployer])
              Scenario.v1_start)))
   ∧ Scenario.wallet_4 ≠ Scenario.deployer)
  ∧
  (V2.get_last_checkin (V2.get_contract_deployer (data Scenario.v2_start))
     (data Scenario.v2_start) = 0
   ∧ V2.get_fee_amount (data Scenario.v2_start) ≠ 0
   ∧ fst (call_public
            (V2.check_in (V2.get_contract_deployer (data Scenario.v2_start)) 100)
            Scenario.v2_start)
     = Reverted STX_SENDER_IS_RECIPIENT).
Proof.
  split; [| split].
  - assert (V1.get_last_checkin Scenario.deployer (data Scenario.v1_start) = 0)
      as H by (vm_compute; reflexivity).
    split; [exact H |].
    destruct (proj1 X2_fee_recipient_cannot_send_check_in Scenario.deployer 100
                Scenario.v1_start) as (_ & Hself & _).
    exact (Hself H).
  - assert (0 < 100) as Hnow by reflexivity.
    assert (NoDup [Scenario.wallet_1; Scenario.deployer]) as Hnd
      by (apply (bool_decide_unpack (NoDup _)); vm_compute; exact I).
    assert (call_public
              (V1.bulk_check_in Scenario.deployer Scenario.wallet_4 100
                 [Scenario.wallet_1; Scenario.deployer])
              Scenario.v1_start
            = (Committed
                 [ ok {| V1.earned := 110; V1.total_points := 110;
                         V1.streak := 1; V1.receipt_total_checkins := 1 |};
                   ok {| V1.earned := 110; V1.total_points := 110;
                         V1.streak := 1; V1.receipt_total_checkins := 1 |} ],
               snd (call_public
                      (V1.bulk_check_in Scenario.deployer Scenario.wallet_4 100
                         [Scenario.wallet_1; Scenario.deployer])
                      Scenario.v1_start))) as H
      by (vm_compute; reflexivity).
    assert (V1.get_last_checkin Scenario.deployer (data Scenario.v1_start) = 0 ∨
            V1.BLOCKS_PER_DAY
              ≤ 100 - V1.get_last_checkin Scenario.deployer
                        (data Scenario.v1_start)) as Hel
      by (left; vm_compute; reflexivity).
    split; [exact (conj Hnow (conj Hnd H)) |].
    destruct (proj1 X2_fee_recipient_cannot_send_check_in Scenario.deployer 100
                Scenario.v1_start) as (_ & _ & _ & Hnamed).
    exact (proj1 (Hnamed Scenario.wallet_4 _ _ _ 1%nat Hnow Hnd H eq_refl Hel)).
  - assert (V2.get_last_checkin
              (V2.get_contract_deployer (data Scenario.v2_start))
              (data Scenario.v2_start) = 0) as H
      by (vm_compute; reflexivity).
    assert (V2.get_fee_amount (data Scenario.v2_start) ≠ 0) as Hfee
      by (vm_compute; discriminate).
    split; [exact H |]. split; [exact Hfee |].
    destruct (proj2 X2_fee_recipient_cannot_send_check_in 100
                Scenario.v2_start) as (_ & Hself).
    exact (Hself H Hfee).
Defined.

Lemma X3_fee_paid_witness :
  call_public (V2.check_in Scenario.wallet_1 100) Scenario.v2_start
  = (Committed {| V2.earned := 110; V2.total_points := 110; V2.streak := 1;
                  V2.receipt_total_checkins := 1; V2.fee_paid := 1000 |},
     snd Scenario.v2_first)
  ∧ V2.get_user_fee_paid Scenario.wallet_1 (data (snd Scenario.v2_first))
    = V2.get_user_fee_paid Scenario.wallet_1 (data Scenario.v2_start)
      + V2.get_fee_amount (data Scenario.v2_start).
Proof.
  assert (call_public (V2.check_in Scenario.wallet_1 100) Scenario.v2_start
          = (Committed {| V2.earned := 110; V2.total_points := 110;
                          V2.streak := 1; V2.receipt_total_checkins := 1;
                          V2.fee_paid := 1000 |},
             snd Scenario.v2_first)) as H
    by (vm_compute; reflexivity).
  split; [exact H |].
  destruct (X3_v2_check_in_fee_accounting _ _ _ _ _ H)
    as (_ & _ & _ & Hpaid & _).
  exact Hpaid.
Defined.

Lemma X4_codes_witness :
  (fst (call_public (V1.check_in Scenario.deployer Scenario.wallet_1 100)
          (V1.deployed Scenario.short_of_funds))
   = Reverted STX_NOT_ENOUGH_BALANCE
   ∧ (STX_NOT_ENOUGH_BALANCE = V1.ERR_ALREADY_CHECKED_IN ∨
      (STX_NOT_ENOUGH_BALANCE = STX_NOT_ENOUGH_BALANCE ∧
       balance_of (chain (V1.deployed Scenario.short_of_funds)) Scenario.wallet_1
         < V1.CHECKIN_FEE) ∨
      (STX_NOT_ENOUGH_BALANCE = STX_SENDER_IS_RECIPIENT ∧
       Scenario.wallet_1 = Scenario.deployer)))
  ∧
  (fst (call_public (V2.check_in Scenario.wallet_1 100)
          (V2.deployed Scenario.short_of_funds))
   = Reverted STX_NOT_ENOUGH_BALANCE
   ∧ (STX_NOT_ENOUGH_BALANCE = V2.ERR_ALREADY_CHECKED_IN ∨
      (STX_NOT_ENOUGH_BALANCE = STX_NOT_ENOUGH_BALANCE ∧
       balance_of (chain (V2.deployed Scenario.short_of_funds)) Scenario.wallet_1
         < V2.get_fee_amount (data (V2.deployed Scenario.short_of_funds))) ∨
      (STX_NOT_ENOUGH_BALANCE = STX_SENDER_IS_RECIPIENT ∧
       Scenario.wallet_1
         = V2.get_contract_deployer (data (V2.deployed Scenario.short_of_funds))) ∨
      (STX_NOT_ENOUGH_BALANCE = STX_NON_POSITIVE_AMOUNT ∧
       V2.get_fee_amount (data (V2.deployed Scenario.short_of_funds)) = 0)))
  ∧
  (fst (call_public
          (V1.bulk_check_in Scenario.deployer Scenario.wallet_1 100
             [Scenario.wallet_2; Scenario.wallet_3])
          (V1.deployed Scenario.short_of_funds))
   = Reverted STX_NOT_ENOUGH_BALANCE
   ∧ ((STX_NOT_ENOUGH_BALANCE = V1.ERR_INVALID_AMOUNT ∧
       [Scenario.wallet_2; Scenario.wallet_3] = []) ∨
      (STX_NOT_ENOUGH_BALANCE = STX_NOT_ENOUGH_BALANCE ∧
       balance_of (chain (V1.deployed Scenario.short_of_funds)) Scenario.wallet_1
         < N.of_nat (length [Scenario.wallet_2; Scenario.wallet_3])
           * V1.CHECKIN_FEE) ∨
      (STX_NOT_ENOUGH_BALANCE = STX_SENDER_IS_RECIPIENT ∧
       Scenario.wallet_1 = Scenario.deployer))).
Proof.
  split; [| split].
  - assert (fst (call_public
                   (V1.check_in Scenario.deployer Scenario.wallet_1 100)
                   (V1.deployed Scenario.short_of_funds))
            = Reverted STX_NOT_ENOUGH_BALANCE) as H
      by (vm_compute; reflexivity).
    split; [exact H |].
    exact (proj1 X4_error_codes_of_check_in _ _ _ _ _ H).
  - assert (fst (call_public (V2.check_in Scenario.wallet_1 100)
                   (V2.deployed Scenario.short_of_funds))
            = Reverted STX_NOT_ENOUGH_BALANCE) as H
      by (vm_compute; reflexivity).
    split; [exact H |].
    exact (proj1 (proj2 X4_error_codes_of_check_in) _ _ _ _ H).
  - assert (fst (call_public
                   (V1.bulk_check_in Scenario.deployer Scenario.wallet_1 100
                      [Scenario.wallet_2; Scenario.wallet_3])
                   (V1.deployed Scenario.short_of_funds))
            = Reverted STX_NOT_ENOUGH_BALANCE) as H
      by (vm_compute; reflexivity).
    split; [exact H |].
    exact (proj2 (proj2 X4_error_codes_of_check_in) _ _ _ _ _ _ H).
Defined.

Lemma X5_batch_witness :
  call_public
    (V1.bulk_check_in Scenario.deployer Scenario.wallet_4 100
       [Scenario.wallet_1; Scenario.wallet_2; Scenario.wallet_3])
    (snd Scenario.v1_first)
  = (Committed
       [ err 100;
         ok {| V1.earned := 110; V1.total_points := 110; V1.streak := 1;
               V1.receipt_total_checkins := 1 |};
         ok {| V1.earned := 110; V1.total_points := 110; V1.streak := 1;
               V1.receipt_total_checkins := 1 |} ],
     snd Scenario.v1_mixed_batch)
  ∧ balance_of (chain (snd Scenario.v1_mixed_batch)) Scenario.wallet_4
    = balance_of (chain (snd Scenario.v1_first)) Scenario.wallet_4
      - 3 * V1.CHECKIN_FEE.
Proof.
  assert (call_public
            (V1.bulk_check_in Scenario.deployer Scenario.wallet_4 100
               [Scenario.wallet_1; Scenario.wallet_2; Scenario.wallet_3])
            (snd Scenario.v1_first)
          = (Committed
               [ err 100;
                 ok {| V1.earned := 110; V1.total_points := 110;
                       V1.streak := 1; V1.receipt_total_checkins := 1 |};
                 ok {| V1.earned := 110; V1.total_points := 110;
                       V1.streak := 1; V1.receipt_total_checkins := 1 |} ],
             snd Scenario.v1_mixed_batch)) as H
    by (vm_compute; reflexivity).
  split; [exact H |].
  destruct (X5_batch_fee_and_count _ _ _ _ _ _ _ H)
    as (_ & _ & _ & Hpayer & _).
  exact Hpayer.
Defined.

Lemma X6_unpaid_batch_witness :
  ((1 ≤ length [Scenario.wallet_2] ≤ 10)%nat ∧
   stx_check Scenario.wallet_1
     (N.of_nat (length [Scenario.wallet_2]) * V1.CHECKIN_FEE)
     Scenario.wallet_1 Scenario.deployer
     (chain (V1.deployed Scenario.short_of_funds))
   = err STX_NOT_ENOUGH_BALANCE)
  ∧ data (snd (call_public
                 (V1.bulk_check_in Scenario.deployer Scenario.wallet_1 100
                    [Scenario.wallet_2])
                 (V1.deployed Scenario.short_of_funds)))
    = data (V1.deployed Scenario.short_of_funds).
Proof.
  assert ((1 ≤ length [Scenario.wallet_2] ≤ 10)%nat) as Hlen
    by (simpl; lia).
  assert (stx_check Scenario.wallet_1
            (N.of_nat (length [Scenario.wallet_2]) * V1.CHECKIN_FEE)
            Scenario.wallet_1 Scenario.deployer
            (chain (V1.deployed Scenario.short_of_funds))
          = err STX_NOT_ENOUGH_BALANCE) as Hfee
    by (vm_compute; reflexivity).
  split; [exact (conj Hlen Hfee) |].
  destruct (proj2 X6_batch_fails_before_any_member Scenario.deployer
              Scenario.wallet_1 100 [Scenario.wallet_2]
              (V1.deployed Scenario.short_of_funds) _ Hlen Hfee)
    as (_ & Hdata & _).
  exact Hdata.
Defined.

Lemma X7_new_fee_witness :
  (5000 ≠ 0 ∧
   call_public (V2.check_in Scenario.wallet_1 100)
     (snd (call_public
             (V2.set_fee_amount Scenario.deployer Scenario.deployer 5000)
             Scenario.v2_start))
   = (Committed {| V2.earned := 110; V2.total_points := 110; V2.streak := 1;
                   V2.receipt_total_checkins := 1; V2.fee_paid := 5000 |},
      snd (call_public (V2.check_in Scenario.wallet_1 100)
             (snd (call_public
                     (V2.set_fee_amount Scenario.deployer Scenario.deployer 5000)
                     Scenario.v2_start)))))
  ∧ balance_of
      (chain (snd (call_public (V2.check_in Scenario.wallet_1 100)
                     (snd (call_public
                             (V2.set_fee_amount Scenario.deployer
                                Scenario.deployer 5000)
                             Scenario.v2_start)))))
      Scenario.wallet_1
    = balance_of (chain Scenario.v2_start) Scenario.wallet_1 - 5000.
Proof.
  assert (5000 ≠ 0) as Hv by discriminate.
  assert (call_public (V2.check_in Scenario.wallet_1 100)
            (snd (call_public
                    (V2.set_fee_amount Scenario.deployer Scenario.deployer 5000)
                    Scenario.v2_start))
          = (Committed {| V2.earned := 110; V2.total_points := 110;
                          V2.streak := 1; V2.receipt_total_checkins := 1;
                          V2.fee_paid := 5000 |},
             snd (call_public (V2.check_in Scenario.wallet_1 100)
                    (snd (call_public
                            (V2.set_fee_amount Scenario.deployer
                               Scenario.deployer 5000)
                            Scenario.v2_start))))) as H
    by (vm_compute; reflexivity).
  split; [exact (conj Hv H) |].
  destruct (X7_new_fee_applies_to_next_check_in _ _ _ _ _ _ _ Hv H)
    as (_ & _ & Hbal).
  exact Hbal.
Defined.

Lemma X8_deployer_witness :
  (Scenario.deployer = Scenario.deployer
   ∧ V2.get_contract_deployer
       (data (snd (call_public
                     (V2.update_contract_deployer Scenario.deployer
                        Scenario.deployer Scenario.wallet_4)
                     Scenario.v2_start)))
     = Scenario.wallet_4)
  ∧
  (Scenario.wallet_1 ≠ Scenario.deployer
   ∧ call_public
       (V2.update_contract_deployer Scenario.deployer Scenario.wallet_1
          Scenario.wallet_4)
       Scenario.v2_start
     = (Reverted V2.ERR_NOT_AUTHORIZED, Scenario.v2_start))
  ∧
  (call_public (V2.check_in Scenario.wallet_1 100)
     (snd (call_public
             (V2.update_contract_deployer Scenario.deployer Scenario.deployer
                Scenario.wallet_4)
             Scenario.v2_start))
   = (Committed {| V2.earned := 110; V2.total_points := 110; V2.streak := 1;
                   V2.receipt_total_checkins := 1; V2.fee_paid := 1000 |},
      snd (call_public (V2.check_in Scenario.wallet_1 100)
             (snd (call_public
                     (V2.update_contract_deployer Scenario.deployer
                        Scenario.deployer Scenario.wallet_4)
                     Scenario.v2_start))))
   ∧ balance_of
       (chain (snd (call_public (V2.check_in Scenario.wallet_1 100)
                      (snd (call_public
                              (V2.update_contract_deployer Scenario.deployer
                                 Scenario.deployer Scenario.wallet_4)
                              Scenario.v2_start)))))
       Scenario.wallet_4
     = balance_of (chain Scenario.v2_start) Scenario.wallet_4
       + V2.get_fee_amount (data Scenario.v2_start)).
Proof.
  split; [| split].
  - split; [reflexivity |].
    destruct (X8_update_contract_deployer Scenario.deployer Scenario.deployer
                Scenario.wallet_4 Scenario.v2_start) as (_ & Howner).
    destruct (Howner eq_refl) as (_ & Hdep & _).
    exact Hdep.
  - assert (Scenario.wallet_1 ≠ Scenario.deployer) as Hne by discriminate.
    split; [exact Hne |].
    destruct (X8_update_contract_deployer Scenario.deployer Scenario.wallet_1
                Scenario.wallet_4 Scenario.v2_start) as (Hguard & _).
    exact (Hguard Hne).
  - assert (call_public (V2.check_in Scenario.wallet_1 100)
              (snd (call_public
                      (V2.update_contract_deployer Scenario.deployer
                         Scenario.deployer Scenario.wallet_4)
                      Scenario.v2_start))
            = (Committed {| V2.earned := 110; V2.total_points := 110;
                            V2.streak := 1; V2.receipt_total_checkins := 1;
                            V2.fee_paid := 1000 |},
               snd (call_public (V2.check_in Scenario.wallet_1 100)
                      (snd (call_public
                              (V2.update_contract_deployer Scenario.deployer
                                 Scenario.deployer Scenario.wallet_4)
                              Scenario.v2_start))))) as H
      by (vm_compute; reflexivity).
    split; [exact H |].
    destruct (X8_update_contract_deployer Scenario.deployer Scenario.deployer
                Scenario.wallet_4 Scenario.v2_start) as (_ & Howner).
    destruct (Howner eq_refl) as (_ & _ & _ & Hpaid).
    exact (Hpaid _ _ _ _ H).
Defined.

Lemma X9_locked_witness :
  ((0 < 100 ∧
    call_public (V1.check_in Scenario.deployer Scenario.wallet_1 100)
      Scenario.v1_start
    = (Committed {| V1.earned := 110; V1.total_points := 110; V1.streak := 1;
                    V1.receipt_total_checkins := 1 |},
       snd Scenario.v1_first) ∧
    100 ≤ 243 < 100 + V1.BLOCKS_PER_DAY)
   ∧ call_public (V1.check_in Scenario.deployer Scenario.wallet_1 243)
       (snd Scenario.v1_first)
     = (Reverted V1.ERR_ALREADY_CHECKED_IN, snd Scenario.v1_first))
  ∧
  ((0 < 100 ∧
    call_public (V2.check_in Scenario.wallet_1 100) Scenario.v2_start
    = (Committed {| V2.earned := 110; V2.total_points := 110; V2.streak := 1;
                    V2.receipt_total_checkins := 1; V2.fee_paid := 1000 |},
       snd Scenario.v2_first) ∧
    100 ≤ 243 < 100 + V2.BLOCKS_PER_DAY ∧ 100 ≤ 244)
   ∧ call_public (V2.check_in Scenario.wallet_1 243) (snd Scenario.v2_first)
     = (Reverted V2.ERR_ALREADY_CHECKED_IN, snd Scenario.v2_first)
   ∧ call_read_only (V2.can_checkin 244 Scenario.wallet_1)
       (snd Scenario.v2_first)
     = Some (100 + V2.BLOCKS_PER_DAY <=? 244)).
Proof.
  split.
  - assert (0 < 100) as Hnow by reflexivity.
    assert (call_public (V1.check_in Scenario.deployer Scenario.wallet_1 100)
              Scenario.v1_start
            = (Committed {| V1.earned := 110; V1.total_points := 110;
                            V1.streak := 1; V1.receipt_total_checkins := 1 |},
               snd Scenario.v1_first)) as H
      by (vm_compute; reflexivity).
    assert (100 ≤ 243 < 100 + V1.BLOCKS_PER_DAY) as Hin
      by (split; [vm_compute; discriminate | reflexivity]).
    split; [exact (conj Hnow (conj H Hin)) |].
    destruct (proj1 X9_locked_for_a_day_after_check_in _ _ _ _ _ _ Hnow H)
      as (_ & Hagain).
    exact (Hagain 243 Hin).
  - assert (0 < 100) as Hnow by reflexivity.
    assert (call_public (V2.check_in Scenario.wallet_1 100) Scenario.v2_start
            = (Committed {| V2.earned := 110; V2.total_points := 110;
                            V2.streak := 1; V2.receipt_total_checkins := 1;
                            V2.fee_paid := 1000 |},
               snd Scenario.v2_first)) as H
      by (vm_compute; reflexivity).
    assert (100 ≤ 243 < 100 + V2.BLOCKS_PER_DAY) as Hin
      by (split; [vm_compute; discriminate | reflexivity]).
    assert (100 ≤ 244) as Hle by (vm_compute; discriminate).
    split; [exact (conj Hnow (conj H (conj Hin Hle))) |].
    destruct (proj2 X9_locked_for_a_day_after_check_in _ _ _ _ _ Hnow H)
      as (Hcan & Hagain).
    exact (conj (Hagain 243 Hin) (Hcan 244 Hle)).
Defined.

Lemma X10_unknown_witness :
  (V1.last_checkin (data Scenario.v1_start) !! Scenario.wallet_2 = None ∧
   V1.user_points (data Scenario.v1_start) !! Scenario.wallet_2 = None ∧
   V1.user_streak (data Scenario.v1_start) !! Scenario.wallet_2 = None ∧
   V1.user_total_checkins (data Scenario.v1_start) !! Scenario.wallet_2 = None)
  ∧ call_read_only (V1_readonly.get_user_stats 7 Scenario.wallet_2)
      Scenario.v1_start
    = Some {| V1_readonly.points := 0; V1_readonly.streak := 0;
              V1_readonly.total_checkins := 0; V1_readonly.last_checkin := 0;
              V1_readonly.can_checkin := true |}.
Proof.
  assert (V1.last_checkin (data Scenario.v1_start) !! Scenario.wallet_2 = None)
    as H1 by reflexivity.
  assert (V1.user_points (data Scenario.v1_start) !! Scenario.wallet_2 = None)
    as H2 by reflexivity.
  assert (V1.user_streak (data Scenario.v1_start) !! Scenario.wallet_2 = None)
    as H3 by reflexivity.
  assert (V1.user_total_checkins (data Scenario.v1_start) !! Scenario.wallet_2
          = None) as H4 by reflexivity.
  split; [exact (conj H1 (conj H2 (conj H3 H4))) |].
  exact (proj1 X10_stats_of_unknown_user 7 Scenario.wallet_2 Scenario.v1_start
           H1 H2 H3 H4).
Defined.

Lemma X11_stats_witness :
  ((0 < 100 ∧ 100 ≤ 100 ∧
    call_public (V1.check_in Scenario.deployer Scenario.wallet_1 100)
      Scenario.v1_start
    = (Committed {| V1.earned := 110; V1.total_points := 110; V1.streak := 1;
                    V1.receipt_total_checkins := 1 |},
       snd Scenario.v1_first))
   ∧ call_read_only (V1_readonly.get_user_stats 100 Scenario.wallet_1)
       (snd Scenario.v1_first)
     = Some {| V1_readonly.points := 110; V1_readonly.streak := 1;
               V1_readonly.total_checkins := 1; V1_readonly.last_checkin := 100;
               V1_readonly.can_checkin := false |})
  ∧
  ((0 < 100 ∧ 100 ≤ 244 ∧
    call_public (V2.check_in Scenario.wallet_1 100) Scenario.v2_start
    = (Committed {| V2.earned := 110; V2.total_points := 110; V2.streak := 1;
                    V2.receipt_total_checkins := 1; V2.fee_paid := 1000 |},
       snd Scenario.v2_first))
   ∧ call_read_only (V2_readonly.get_user_stats 244 Scenario.wallet_1)
       (snd Scenario.v2_first)
     = Some {| V2_readonly.points := 110; V2_readonly.streak := 1;
               V2_readonly.total_checkins := 1; V2_readonly.last_checkin := 100;
               V2_readonly.fee_paid :=
                 V2.get_user_fee_paid Scenario.wallet_1 (data Scenario.v2_start)
                 + 1000;
               V2_readonly.can_checkin := 100 + V2.BLOCKS_PER_DAY <=? 244 |}).
Proof.
  split.
  - assert (0 < 100) as Hnow by reflexivity.
    assert (100 ≤ 100) as Hle by (vm_compute; discriminate).
    assert (call_public (V1.check_in Scenario.deployer Scenario.wallet_1 100)
              Scenario.v1_start
            = (Committed {| V1.earned := 110; V1.total_points := 110;
                            V1.streak := 1; V1.receipt_total_checkins := 1 |},
               snd Scenario.v1_first)) as H
      by (vm_compute; reflexivity).
    split; [exact (conj Hnow (conj Hle H)) |].
    exact (proj1 X11_stats_match_receipt _ _ _ _ _ _ _ Hnow Hle H).
  - assert (0 < 100) as Hnow by reflexivity.
    assert (100 ≤ 244) as Hle by (vm_compute; discriminate).
    assert (call_public (V2.check_in Scenario.wallet_1 100) Scenario.v2_start
            = (Committed {| V2.earned := 110; V2.total_points := 110;
                            V2.streak := 1; V2.receipt_total_checkins := 1;
                            V2.fee_paid := 1000 |},
               snd Scenario.v2_first)) as H
      by (vm_compute; reflexivity).
    split; [exact (conj Hnow (conj Hle H)) |].
    exact (proj2 X11_stats_match_receipt _ _ _ _ _ _ Hnow Hle H).
Defined.

Lemma X16_distinct_witness :
  (NoDup [Scenario.wallet_1; Scenario.wallet_2; Scenario.wallet_3] ∧
   call_public
     (V1.bulk_check_in Scenario.deployer Scenario.wallet_4 100
        [Scenario.wallet_1; Scenario.wallet_2; Scenario.wallet_3])
     (snd Scenario.v1_first)
   = (Committed
        [ err 100;
          ok {| V1.earned := 110; V1.total_points := 110; V1.streak := 1;
                V1.receipt_total_checkins := 1 |};
          ok {| V1.earned := 110; V1.total_points := 110; V1.streak := 1;
                V1.receipt_total_checkins := 1 |} ],
      snd Scenario.v1_mixed_batch))
  ∧ (V1.get_last_checkin Scenario.wallet_1 (data (snd Scenario.v1_first)) ≠ 0 ∧
     100 - V1.get_last_checkin Scenario.wallet_1 (data (snd Scenario.v1_first))
       < V1.BLOCKS_PER_DAY).
Proof.
  assert (NoDup [Scenario.wallet_1; Scenario.wallet_2; Scenario.wallet_3])
    as Hnd by (apply (bool_decide_unpack (NoDup _)); vm_compute; exact I).
  assert (call_public
            (V1.bulk_check_in Scenario.deployer Scenario.wallet_4 100
               [Scenario.wallet_1; Scenario.wallet_2; Scenario.wallet_3])
            (snd Scenario.v1_first)
          = (Committed
               [ err 100;
                 ok {| V1.earned := 110; V1.total_points := 110;
                       V1.streak := 1; V1.receipt_total_checkins := 1 |};
                 ok {| V1.earned := 110; V1.total_points := 110;
                       V1.streak := 1; V1.receipt_total_checkins := 1 |} ],
             snd Scenario.v1_mixed_batch)) as H
    by (vm_compute; reflexivity).
  split; [exact (conj Hnd H) |].
  destruct (X16_batch_of_distinct_users _ _ _ _ _ _ _ 0%nat Scenario.wallet_1
              Hnd H eq_refl) as (_ & Herr).
  exact (proj1 Herr eq_refl).
Defined.

Lemma X17_batch_of_one_witness :
  (call_public (V1.check_in Scenario.deployer Scenario.wallet_1 100)
     Scenario.v1_start
   = (Committed {| V1.earned := 110; V1.total_points := 110; V1.streak := 1;
                   V1.receipt_total_checkins := 1 |},
      snd Scenario.v1_first) ∧
   call_public
     (V1.bulk_check_in Scenario.deployer Scenario.wallet_4 100
        [Scenario.wallet_1])
     Scenario.v1_start
   = (Committed
        [ ok {| V1.earned := 110; V1.total_points := 110; V1.streak := 1;
                V1.receipt_total_checkins := 1 |} ],
      snd (call_public
             (V1.bulk_check_in Scenario.deployer Scenario.wallet_4 100
                [Scenario.wallet_1])
             Scenario.v1_start)))
  ∧ data (snd (call_public
                 (V1.bulk_check_in Scenario.deployer Scenario.wallet_4 100
                    [Scenario.wallet_1])
                 Scenario.v1_start))
    = data (snd Scenario.v1_first).
Proof.
  assert (call_public (V1.check_in Scenario.deployer Scenario.wallet_1 100)
            Scenario.v1_start
          = (Committed {| V1.earned := 110; V1.total_points := 110;
                          V1.streak := 1; V1.receipt_total_checkins := 1 |},
             snd Scenario.v1_first)) as H1
    by (vm_compute; reflexivity).
  assert (call_public
            (V1.bulk_check_in Scenario.deployer Scenario.wallet_4 100
               [Scenario.wallet_1])
            Scenario.v1_start
          = (Committed
               [ ok {| V1.earned := 110; V1.total_points := 110;
                       V1.streak := 1; V1.receipt_total_checkins := 1 |} ],
             snd (call_public
                    (V1.bulk_check_in Scenario.deployer Scenario.wallet_4 100
                       [Scenario.wallet_1])
                    Scenario.v1_start))) as H2
    by (vm_compute; reflexivity).
  split; [exact (conj H1 H2) |].
  exact (proj2 (X17_batch_of_one_is_a_check_in _ _ _ _ _ _ _ _ _ H1 H2)).
Defined.

Lemma X18_round_trip_witness :
  (200 ≠ 0 ∧ 5000 ≠ 0)
  ∧ call_read_only V2_readonly.get_global_stats
      (V2.run Scenario.deployer
         [ {| V2.tx_sender := Scenario.deployer; V2.block_height := 1;
              V2.tx_call := V2.CallSetPointsPerCheckin 200 |};
           {| V2.tx_sender := Scenario.deployer; V2.block_height := 1;
              V2.tx_call := V2.CallSetStreakBonus 0 |};
           {| V2.tx_sender := Scenario.deployer; V2.block_height := 1;
              V2.tx_call := V2.CallSetFeeAmount 5000 |};
           {| V2.tx_sender := Scenario.deployer; V2.block_height := 1;
              V2.tx_call := V2.CallUpdateContractDeployer Scenario.wallet_4 |} ]
         Scenario.v2_start)
    = Some {| V2_readonly.global_total_checkins :=
                V2.get_total_checkins (data Scenario.v2_start);
              V2_readonly.global_unique_users :=
                V2.get_unique_users (data Scenario.v2_start);
              V2_readonly.global_points_per_checkin := 200;
              V2_readonly.global_streak_bonus := 0;
              V2_readonly.global_fee_amount := 5000;
              V2_readonly.global_contract_deployer := Scenario.wallet_4 |}.
Proof.
  assert (200 ≠ 0) as Hv by discriminate.
  assert (5000 ≠ 0) as Hf by discriminate.
  split; [exact (conj Hv Hf) |].
  exact (proj2 X18_configuration_round_trip Scenario.deployer 1 200 0 5000
           Scenario.wallet_4 Scenario.v2_start Hv Hf).
Defined.
